(** * provision_reader.py: provisioning of a reader account, a share and a
    login user

    A shallow embedding of [provision_reader.py].  The script is a linear
    sequence of remote calls (SQL statements sent through two cursors, an
    SMTP session, console output), so the embedding is a small state, trace
    and exception monad over an abstract platform: every remote call is
    answered by the platform, every observable action is recorded as an
    event, and Python exceptions (including [SystemExit]) are results.

    Strings are modelled as ASCII text: [strip], [lstrip] and [lower] act on
    the ASCII white space and the ASCII letters. *)

From Stdlib Require Import ZArith String Ascii List DecimalString.
From stdpp Require Import base option gmap strings list.

Set Warnings "-register-all".
Open Scope string_scope.
Open Scope Z_scope.

(** ** Python string operations *)

Module PyStr.

(** The line feed, [\n]. *)
Definition nl : string := String (ascii_of_nat 10) "".

(** [s.startswith(p)] *)
Definition startswith (p s : string) : bool := String.prefix p s.

(** [s[n:]] *)
Fixpoint drop (n : nat) (s : string) : string :=
  match n, s with
  | O, _ => s
  | S _, "" => ""
  | S n', String _ s' => drop n' s'
  end.

(** [sub in s] *)
Fixpoint contains (sub s : string) : bool :=
  String.prefix sub s
  || match s with
     | "" => false
     | String _ s' => contains sub s'
     end.

(** [s.split(sep, 1)[0]] for a non-empty [sep]: the text before the first
    occurrence of [sep], the whole of [s] when there is none. *)
Fixpoint before_first (sep s : string) : string :=
  if String.prefix sep s then ""
  else match s with
       | "" => ""
       | String c s' => String c (before_first sep s')
       end.

(** [c.isspace()] on ASCII: tab, line feed, vertical tab, form feed,
    carriage return, the four separators 0x1c..0x1f and the space. *)
Definition is_space (c : ascii) : bool :=
  let n := nat_of_ascii c in
  ((9 <=? n) && (n <=? 13) || (28 <=? n) && (n <=? 32))%nat.

(** [s.lstrip()] *)
Fixpoint lstrip (s : string) : string :=
  match s with
  | "" => ""
  | String c s' => if is_space c then lstrip s' else s
  end.

(** [s.rstrip()] *)
Fixpoint rstrip (s : string) : string :=
  match s with
  | "" => ""
  | String c s' =>
      match rstrip s' with
      | "" => if is_space c then "" else String c ""
      | r => String c r
      end
  end.

(** [s.strip()] *)
Definition strip (s : string) : string := rstrip (lstrip s).

Definition lower_ascii (c : ascii) : ascii :=
  let n := nat_of_ascii c in
  if ((65 <=? n) && (n <=? 90))%nat then ascii_of_nat (n + 32) else c.

(** [s.lower()] *)
Fixpoint lower (s : string) : string :=
  match s with
  | "" => ""
  | String c s' => String (lower_ascii c) (lower s')
  end.

(** [str(n)] for an integer. *)
Definition of_Z (n : Z) : string := NilZero.string_of_int (Z.to_int n).

End PyStr.

(** ** Python values

    What [yaml.safe_load] and the database cursors hand to the script:
    [None], booleans, integers, strings, lists and dictionaries with string
    keys (floats and dates are left out).  Dictionaries are only ever read
    by key, so they are finite maps. *)

Inductive pyval : Type :=
| VNone
| VBool (b : bool)
| VInt (n : Z)
| VStr (s : string)
| VList (l : list pyval)
| VDict (d : gmap string pyval).

(** The exceptions the script can meet.  [SystemExit] is what [sys.exit]
    raises; it is a [BaseException] and so escapes [except Exception].
    [ProgrammingError] is the connector's class, with [str(e)] as payload;
    [LibraryError] stands for every other [Exception] a library raises. *)
Inductive exn : Type :=
| SystemExit (code : Z)
| KeyError (key : string)
| IndexError (msg : string)
| TypeError (msg : string)
| AttributeError (msg : string)
| ProgrammingError (msg : string)
| LibraryError (cls msg : string).

Inductive result (A : Type) : Type :=
| Ok (a : A)
| Err (e : exn).
Arguments Ok {A} a.
Arguments Err {A} e.

Module Py.

(** [isinstance(e, Exception)] *)
Definition is_Exception (e : exn) : bool :=
  match e with
  | SystemExit _ => false
  | _ => true
  end.

(** [str(e)] *)
Definition exn_str (e : exn) : string :=
  match e with
  | SystemExit code => PyStr.of_Z code
  | KeyError key => "'" ++ key ++ "'"
  | IndexError msg | TypeError msg | AttributeError msg => msg
  | ProgrammingError msg => msg
  | LibraryError _ msg => msg
  end.

(** [bool(v)] *)
Definition truthy (v : pyval) : bool :=
  match v with
  | VNone => false
  | VBool b => b
  | VInt n => negb (n =? 0)
  | VStr s => negb (String.eqb s "")
  | VList l => match l with [] => false | _ => true end
  | VDict d => negb (bool_decide (d = ∅))
  end.

(** [a or b] *)
Definition or (a b : pyval) : pyval := if truthy a then a else b.

Definition type_name (v : pyval) : string :=
  match v with
  | VNone => "NoneType"
  | VBool _ => "bool"
  | VInt _ => "int"
  | VStr _ => "str"
  | VList _ => "list"
  | VDict _ => "dict"
  end.

(** [v[key]] for a string key. *)
Definition getitem (v : pyval) (key : string) : result pyval :=
  match v with
  | VDict d =>
      match d !! key with
      | Some x => Ok x
      | None => Err (KeyError key)
      end
  | VStr _ => Err (TypeError "string indices must be integers, not 'str'")
  | VList _ => Err (TypeError "list indices must be integers or slices, not str")
  | _ => Err (TypeError ("'" ++ type_name v ++ "' object is not subscriptable"))
  end.

(** [v.get(key, default)] *)
Definition get (v : pyval) (key : string) (default : pyval) : result pyval :=
  match v with
  | VDict d =>
      match d !! key with
      | Some x => Ok x
      | None => Ok default
      end
  | _ => Err (AttributeError
                ("'" ++ type_name v ++ "' object has no attribute 'get'"))
  end.

(** [row[i]] on a fetched row (a tuple). *)
Definition index (row : list pyval) (i : nat) : result pyval :=
  match row !! i with
  | Some x => Ok x
  | None => Err (IndexError "tuple index out of range")
  end.

(** [str(v)], as an f-string formats [v].  The text of a list or of a
    dictionary depends on [repr] and on insertion order and is left to
    [repr]. *)
Definition str (repr : pyval -> string) (v : pyval) : string :=
  match v with
  | VNone => "None"
  | VBool true => "True"
  | VBool false => "False"
  | VInt n => PyStr.of_Z n
  | VStr s => s
  | _ => repr v
  end.

End Py.

(** ** The pure helpers *)

(** [account_identifier_from_url], lines 154-174. *)
Definition strip_scheme (url : string) : string :=
  if PyStr.startswith "https://" url then PyStr.drop (String.length "https://") url
  else if PyStr.startswith "http://" url then PyStr.drop (String.length "http://") url
  else url.

(** The host portion: the URL without its scheme and without any path. *)
Definition host_portion (account_url : string) : string :=
  PyStr.before_first "/" (strip_scheme account_url).

Definition account_identifier_from_url (account_url : string) : string :=
  let url := strip_scheme account_url in
  let url := PyStr.before_first "/" url in
  if PyStr.contains ".snowflakecomputing.com" url
  then PyStr.before_first ".snowflakecomputing.com" url
  else url.

(** [normalize_where], the closure of [main] at lines 327-333.  [strip] on a
    truthy value that is not a string is an [AttributeError]. *)
Definition normalize_where (where_val : pyval) : result string :=
  match Py.or where_val (VStr "") with
  | VStr s =>
      let where_val := PyStr.strip s in
      if String.eqb where_val "" then Ok ""
      else if negb (PyStr.startswith "where " (PyStr.lstrip (PyStr.lower where_val)))
      then Ok ("WHERE " ++ where_val)
      else Ok where_val
  | v => Err (AttributeError
                ("'" ++ Py.type_name v ++ "' object has no attribute 'strip'"))
  end.

(** ** The platform and its events *)

(** The two connections [snowflake.connector.connect] opens, in order. *)
Inductive conn : Type := Provider | Reader.

(** A fetched row: a tuple of values. *)
Abbreviation row := (list pyval).

(** The [EmailMessage] handed to [send_message]. *)
Record email_message : Type := {
  msg_subject : string;
  msg_from : pyval;
  msg_to : pyval;
  msg_body : string
}.

(** The calls made on [smtplib]: the two constructors, the methods used on
    the session, and the [__exit__] of the [with] block. *)
Inductive smtp_action : Type :=
| SMTP_SSL (host port : pyval)
| SMTP (host port : pyval)
| Ehlo
| Starttls
| Login (user password : pyval)
| SendMessage (msg : email_message)
| SmtpExit.

(** Everything the script does that can be observed from outside. *)
Inductive event : Type :=
| EvPrint (line : string)
| EvLoadYaml (path : string)
| EvConnect (c : conn) (user password account role : pyval)
| EvExecute (c : conn) (sql : string)
| EvFetchAll (c : conn) (res : result (list row))
| EvFetchOne (c : conn) (res : result (option row))
| EvCloseCursor (c : conn)
| EvCloseConn (c : conn)
| EvSleep (seconds : Z)
| EvSmtp (a : smtp_action).

(** The world outside the script.  Each call is answered from the current
    state [Env]: a call either succeeds or raises.  [repr] is Python's
    [repr] on lists and dictionaries.  [message_error] is the making of the
    [EmailMessage], which touches nothing outside: whether the library
    accepts the headers and the content depends on them alone, and
    [Some (cls, text)] says that it raises the exception of class [cls]
    ([ValueError] for an address with an embedded line break). *)
Record platform : Type := {
  Env : Type;
  yaml_safe_load : string -> Env -> Env * result pyval;
  connect : conn -> pyval -> pyval -> pyval -> pyval -> Env -> Env * option exn;
  execute : conn -> string -> Env -> Env * option exn;
  fetchall : conn -> Env -> Env * result (list row);
  fetchone : conn -> Env -> Env * result (option row);
  smtp : smtp_action -> Env -> Env * option exn;
  message_error : email_message -> option (string * string);
  repr : pyval -> string
}.

(** The record [get_managed_account] returns. *)
Record managed_account : Type := {
  account_name : pyval;
  account_locator : pyval;
  account_url : pyval
}.

Section Provision.

Context (P : platform).

(** *** The monad: state of the platform, emitted events, exceptions *)

Definition M (A : Type) : Type := Env P -> Env P * list event * result A.

Definition ret {A} (a : A) : M A := fun env => (env, [], Ok a).

Definition bind {A B} (m : M A) (k : A -> M B) : M B :=
  fun env =>
    match m env with
    | (env1, evs1, Ok a) =>
        match k a env1 with
        | (env2, evs2, r) => (env2, (evs1 ++ evs2)%list, r)
        end
    | (env1, evs1, Err e) => (env1, evs1, Err e)
    end.

#[local] Instance M_ret : MRet M := @ret.
#[local] Instance M_bind : MBind M := fun A B k m => bind m k.

Definition raise {A} (e : exn) : M A := fun env => (env, [], Err e).

Definition lift {A} (r : result A) : M A := fun env => (env, [], r).

Definition emit (ev : event) : M unit := fun env => (env, [ev], Ok tt).

(** A platform call that returns nothing: its event, then its answer. *)
Definition call (ev : event) (f : Env P -> Env P * option exn) : M unit :=
  fun env =>
    match f env with
    | (env1, None) => (env1, [ev], Ok tt)
    | (env1, Some e) => (env1, [ev], Err e)
    end.

(** A platform call that returns a value, recorded in its event. *)
Definition query {A} (ev : result A -> event) (f : Env P -> Env P * result A)
  : M A :=
  fun env => match f env with (env1, r) => (env1, [ev r], r) end.

(** [try: m  except <h e is Some>: handler]: exceptions for which [h] is
    [None] propagate. *)
Definition try_except {A} (m : M A) (h : exn -> option (M A)) : M A :=
  fun env =>
    match m env with
    | (env1, evs1, Ok a) => (env1, evs1, Ok a)
    | (env1, evs1, Err e) =>
        match h e with
        | Some handler =>
            match handler env1 with
            | (env2, evs2, r) => (env2, (evs1 ++ evs2)%list, r)
            end
        | None => (env1, evs1, Err e)
        end
    end.

(** [try: m  finally: cleanup].  [cleanup] runs on every exit path; an
    exception of its own replaces the outcome of [m]. *)
Definition finally {A} (m : M A) (cleanup : M unit) : M A :=
  fun env =>
    match m env with
    | (env1, evs1, r) =>
        match cleanup env1 with
        | (env2, evs2, Ok _) => (env2, (evs1 ++ evs2)%list, r)
        | (env2, evs2, Err e) => (env2, (evs1 ++ evs2)%list, Err e)
        end
    end.

(** [for x in l: body x] *)
Fixpoint for_each {A} (l : list A) (body : A -> M unit) : M unit :=
  match l with
  | [] => ret tt
  | x :: l' => bind (body x) (fun _ => for_each l' body)
  end.

(** *** Primitive actions *)

(** An f-string field. *)
Definition fmt (v : pyval) : string := Py.str (repr P) v.

(** [log], lines 20-21. *)
Definition log (msg : string) : M unit := emit (EvPrint ("[provision] " ++ msg)).

Definition sys_exit {A} (code : Z) : M A := raise (SystemExit code).

Definition sleep (seconds : Z) : M unit := emit (EvSleep seconds).

Definition cur_execute (c : conn) (sql : string) : M unit :=
  call (EvExecute c sql) (execute P c sql).

Definition cur_fetchall (c : conn) : M (list row) :=
  query (EvFetchAll c) (fetchall P c).

Definition cur_fetchone (c : conn) : M (option row) :=
  query (EvFetchOne c) (fetchone P c).

Definition smtp_do (a : smtp_action) : M unit := call (EvSmtp a) (smtp P a).

(** [except Exception as e: h e] *)
Definition on_Exception {A} (h : exn -> M A) (e : exn) : option (M A) :=
  if Py.is_Exception e then Some (h e) else None.

(** [except ProgrammingError as e: h (str e)] *)
Definition on_ProgrammingError {A} (h : string -> M A) (e : exn) : option (M A) :=
  match e with
  | ProgrammingError msg => Some (h msg)
  | _ => None
  end.

(** *** load_config, lines 26-33 *)

Definition load_config (path : string) : M pyval :=
  try_except
    (query (fun _ => EvLoadYaml path) (yaml_safe_load P path))
    (on_Exception (fun e =>
       log ("ERROR: Failed to read config file '" ++ path ++ "': " ++ Py.exn_str e);;
       sys_exit 1)).

(** *** get_managed_account, lines 38-76 *)

Definition show_managed_accounts_sql (account_name : pyval) : string :=
  "SHOW MANAGED ACCOUNTS LIKE '" ++ fmt account_name ++ "'".

Definition get_managed_account (cur : conn) (account_name : pyval)
  : M (option managed_account) :=
  log ("SHOW MANAGED ACCOUNTS LIKE '" ++ fmt account_name ++ "' ...");;
  cur_execute cur (show_managed_accounts_sql account_name);;
  rows ← cur_fetchall cur;
  match rows with
  | [] => ret None
  | row :: _ =>
      account_name_val ← lift (Py.index row 0);
      account_locator_val ← lift (Py.index row 3);
      account_url_val ← lift (Py.index row 5);
      log ("Found managed account row: name=" ++ fmt account_name_val ++ ", "
           ++ "locator=" ++ fmt account_locator_val
           ++ ", url=" ++ fmt account_url_val);;
      ret (Some {| account_name := account_name_val;
                   account_locator := account_locator_val;
                   account_url := account_url_val |})
  end.

(** *** ensure_managed_account, lines 79-133 *)

Definition create_managed_account_sql (account_name admin_user admin_password : pyval)
  : string :=
  PyStr.nl
  ++ "            CREATE MANAGED ACCOUNT " ++ fmt account_name ++ PyStr.nl
  ++ "              TYPE = READER" ++ PyStr.nl
  ++ "              ADMIN_NAME = '" ++ fmt admin_user ++ "'" ++ PyStr.nl
  ++ "              ADMIN_PASSWORD = '" ++ fmt admin_password ++ "'" ++ PyStr.nl
  ++ "              COMMENT = 'Automated reader account for EXCLUDEDLISTS share'"
  ++ PyStr.nl
  ++ "        ".

(** What a miss is followed by: the log line and the creation request. *)
Definition creating_events (cur : conn) (account_name admin_user admin_password : pyval)
  : list event :=
  [EvPrint ("[provision] Managed account '" ++ fmt account_name
            ++ "' not found. Creating...");
   EvExecute cur (create_managed_account_sql account_name admin_user admin_password)].

Definition collision_message : string :=
  "Name collision: object exists but not visible as managed account. "
  ++ "Either drop/rename that object or use a different "
  ++ "reader.account_name in config.yaml.".

Definition ensure_managed_account
  (cur : conn) (account_name admin_user admin_password : pyval)
  : M managed_account :=
  info ← get_managed_account cur account_name;
  match info with
  | Some info =>
      log ("Managed account '" ++ fmt account_name ++ "' already exists. "
           ++ "Using locator " ++ fmt (account_locator info) ++ ".");;
      ret info
  | None =>
      log ("Managed account '" ++ fmt account_name ++ "' not found. Creating...");;
      early ← try_except
        (cur_execute cur
           (create_managed_account_sql account_name admin_user admin_password);;
         log "CREATE MANAGED ACCOUNT executed.";;
         ret None)
        (on_ProgrammingError (fun msg =>
           if PyStr.contains "already exists" msg then
             log ("CREATE MANAGED ACCOUNT says object already exists; "
                  ++ "assuming managed account was created previously. "
                  ++ "Re-checking SHOW MANAGED ACCOUNTS...");;
             info ← get_managed_account cur account_name;
             match info with
             | Some info =>
                 log ("Using existing managed account locator "
                      ++ fmt (account_locator info) ++ ".");;
                 ret (Some info)
             | None =>
                 log collision_message;;
                 sys_exit 1
             end
           else
             log ("ERROR creating managed account: " ++ msg);;
             sys_exit 1));
      match early with
      | Some info => ret info
      | None =>
          sleep 5;;
          info ← get_managed_account cur account_name;
          match info with
          | Some info => ret info
          | None =>
              log ("ERROR: Managed account creation succeeded but not found "
                   ++ "in SHOW MANAGED ACCOUNTS.");;
              sys_exit 1
          end
      end
  end.

(** *** ensure_share_has_account, lines 136-151 *)

Definition alter_share_sql (share_name locator : pyval) : string :=
  "ALTER SHARE " ++ fmt share_name ++ " ADD ACCOUNTS = " ++ fmt locator.

Definition ensure_share_has_account (cur : conn) (share_name locator : pyval)
  : M unit :=
  log ("Ensuring account " ++ fmt locator ++ " is added to share "
       ++ fmt share_name ++ "...");;
  try_except
    (cur_execute cur (alter_share_sql share_name locator);;
     log ("Account " ++ fmt locator ++ " added to share " ++ fmt share_name ++ "."))
    (on_ProgrammingError (fun msg =>
       if PyStr.contains "cannot be added to this share" msg then
         log ("Account " ++ fmt locator ++ " already present in share "
              ++ fmt share_name ++ "; continuing.")
       else
         log ("ERROR adding account to share: " ++ msg);;
         sys_exit 1)).

(** *** ensure_reader_user, lines 177-223 *)

Definition create_user_sql (name temp_pw default_wh email : pyval) : string :=
  PyStr.nl
  ++ "            CREATE USER " ++ fmt name ++ PyStr.nl
  ++ "              LOGIN_NAME = '" ++ fmt name ++ "'" ++ PyStr.nl
  ++ "              PASSWORD = '" ++ fmt temp_pw ++ "'" ++ PyStr.nl
  ++ "              MUST_CHANGE_PASSWORD = TRUE" ++ PyStr.nl
  ++ "              DEFAULT_ROLE = 'PUBLIC'" ++ PyStr.nl
  ++ "              DEFAULT_WAREHOUSE = '" ++ fmt default_wh ++ "'" ++ PyStr.nl
  ++ "              EMAIL = '" ++ fmt email ++ "'" ++ PyStr.nl
  ++ "        ".

Definition alter_user_sql (name email default_wh : pyval) : string :=
  PyStr.nl
  ++ "        ALTER USER " ++ fmt name ++ PyStr.nl
  ++ "          SET EMAIL = '" ++ fmt email ++ "'," ++ PyStr.nl
  ++ "              DEFAULT_WAREHOUSE = '" ++ fmt default_wh ++ "'," ++ PyStr.nl
  ++ "              DEFAULT_ROLE = 'PUBLIC'" ++ PyStr.nl
  ++ "    ".

Definition show_users_sql (name : pyval) : string :=
  "SHOW USERS LIKE '" ++ fmt name ++ "'".

Definition ensure_reader_user (cur : conn) (user_cfg default_wh : pyval) : M pyval :=
  if negb (Py.truthy user_cfg) then
    log "No reader_user section in config; skipping user creation.";;
    ret (VDict {[ "created" := VBool false ]})
  else
    name ← lift (Py.getitem user_cfg "name");
    email ← lift (Py.getitem user_cfg "email");
    temp_pw ← lift (Py.getitem user_cfg "temp_password");
    log ("Ensuring reader user '" ++ fmt name ++ "' exists...");;
    cur_execute cur (show_users_sql name);;
    rows ← cur_fetchall cur;
    match rows with
    | [] =>
        log ("User '" ++ fmt name ++ "' not found. Creating...");;
        cur_execute cur (create_user_sql name temp_pw default_wh email);;
        log ("User '" ++ fmt name ++ "' created with email " ++ fmt email ++ ".");;
        ret (VDict (<[ "created" := VBool true ]>
                   (<[ "name" := name ]>
                   (<[ "email" := email ]>
                   {[ "temp_password" := temp_pw ]}))))
    | _ :: _ =>
        log ("User '" ++ fmt name
             ++ "' already exists. Updating email and default warehouse...");;
        cur_execute cur (alter_user_sql name email default_wh);;
        log ("User '" ++ fmt name ++ "' updated (EMAIL=" ++ fmt email
             ++ ", DEFAULT_WAREHOUSE=" ++ fmt default_wh ++ ").");;
        ret (VDict (<[ "created" := VBool false ]>
                   (<[ "name" := name ]>
                   {[ "email" := email ]})))
    end.

(** *** send_credentials_email, lines 226-285 *)

(** Lines 243-248: the TLS flags and the port, read from a configuration
    that has a host. *)
Definition smtp_settings (smtp_cfg : pyval) : result (bool * bool * pyval) :=
  match Py.get smtp_cfg "use_ssl" (VBool false) with
  | Err e => Err e
  | Ok ssl_val =>
      let use_ssl := Py.truthy ssl_val in
      match (if negb use_ssl
             then match Py.get smtp_cfg "use_tls" (VBool true) with
                  | Ok tls_val => Ok (Py.truthy tls_val)
                  | Err e => Err e
                  end
             else Ok false) with
      | Err e => Err e
      | Ok use_tls =>
          match Py.getitem smtp_cfg "host" with
          | Err e => Err e
          | Ok _ =>
              match Py.get smtp_cfg "port" VNone with
              | Err e => Err e
              | Ok VNone =>
                  Ok (use_ssl, use_tls,
                      VInt (if use_ssl then 465 else if use_tls then 587 else 25))
              | Ok port => Ok (use_ssl, use_tls, port)
              end
          end
      end
  end.

Definition credentials_body (user_name temp_password login_url : pyval) : string :=
  "Hello," ++ PyStr.nl ++ PyStr.nl
  ++ "Your Snowflake reader account has been provisioned." ++ PyStr.nl ++ PyStr.nl
  ++ "Login URL: " ++ fmt login_url ++ PyStr.nl
  ++ "Username: " ++ fmt user_name ++ PyStr.nl
  ++ "Temporary Password: " ++ fmt temp_password ++ PyStr.nl ++ PyStr.nl
  ++ "You will be prompted to change your password on first login."
  ++ PyStr.nl ++ PyStr.nl
  ++ "If you did not expect this email, please contact the sender." ++ PyStr.nl.

(** [with server: body]: [__exit__] runs whatever [body] did, and an
    exception it raises replaces the outcome of [body]. *)
Definition with_server {A} (body : M A) : M A := finally body (smtp_do SmtpExit).

(** Lines 251-262: the message, from its sender, which is [from], else the
    SMTP user, else a fixed address. *)
Definition credentials_message
  (user_name user_email temp_password login_url from username : pyval)
  : email_message :=
  {| msg_subject := "Your Snowflake Reader Account Credentials";
     msg_from := Py.or (Py.or from username) (VStr "no-reply@snowflake");
     msg_to := user_email;
     msg_body := credentials_body user_name temp_password login_url |}.

(** Lines 264-268: the [EmailMessage] is made, its headers and its content
    set.  This comes before the [try] of line 270: what it raises is not
    caught here. *)
Definition make_message (msg : email_message) : M unit :=
  match message_error P msg with
  | Some (cls, text) => raise (LibraryError cls text)
  | None => ret tt
  end.

Definition send_credentials_email
  (user_name user_email temp_password login_url smtp_cfg : pyval) : M unit :=
  has_host ← (if Py.truthy smtp_cfg
              then host ← lift (Py.get smtp_cfg "host" VNone); ret (Py.truthy host)
              else ret false);
  if negb has_host : bool then
    log "SMTP config missing or incomplete; skipping email notification."
  else
    '(use_ssl, use_tls, port) ← lift (smtp_settings smtp_cfg);
    host ← lift (Py.getitem smtp_cfg "host");
    username ← lift (Py.get smtp_cfg "user" VNone);
    password ← lift (Py.get smtp_cfg "password" VNone);
    from ← lift (Py.get smtp_cfg "from" VNone);
    let msg :=
      credentials_message user_name user_email temp_password login_url from username in
    make_message msg;;
    try_except
      (smtp_do (if use_ssl then SMTP_SSL host port else SMTP host port);;
       with_server
         (smtp_do Ehlo;;
          (if use_tls && negb use_ssl
           then smtp_do Starttls;; smtp_do Ehlo
           else ret tt);;
          (if Py.truthy username && Py.truthy password
           then smtp_do (Login username password)
           else ret tt);;
          smtp_do (SendMessage msg));;
       log ("Credentials email sent to " ++ fmt user_email ++ "."))
      (on_Exception (fun e =>
         log ("WARNING: Failed to send credentials email to " ++ fmt user_email
              ++ ": " ++ Py.exn_str e))).

(** *** main, lines 290-496 *)

Definition secure_view_sql (provider_db shared_schema sv_name src_table : pyval)
  (view_where_sql : string) : string :=
  "CREATE OR REPLACE SECURE VIEW " ++ fmt provider_db ++ "." ++ fmt shared_schema
  ++ "." ++ fmt sv_name ++ " AS" ++ PyStr.nl
  ++ "SELECT *" ++ PyStr.nl
  ++ "FROM " ++ fmt provider_db ++ ".PUBLIC." ++ fmt src_table ++ PyStr.nl
  ++ (if negb (String.eqb view_where_sql "") then view_where_sql ++ PyStr.nl else "").

Definition grant_select_sql (provider_db shared_schema sv_name share_name : pyval)
  : string :=
  "GRANT SELECT ON VIEW " ++ fmt provider_db ++ "." ++ fmt shared_schema ++ "."
  ++ fmt sv_name ++ " TO SHARE " ++ fmt share_name.

Definition count_sql (sv_name : pyval) : string :=
  "SELECT COUNT(*) FROM " ++ fmt sv_name.

Definition create_warehouse_sql (reader_wh_name : pyval) : string :=
  PyStr.nl
  ++ "            CREATE OR REPLACE WAREHOUSE " ++ fmt reader_wh_name ++ PyStr.nl
  ++ "              WAREHOUSE_SIZE = 'XSMALL'" ++ PyStr.nl
  ++ "              AUTO_SUSPEND = 60" ++ PyStr.nl
  ++ "              AUTO_RESUME = TRUE" ++ PyStr.nl
  ++ "              INITIALLY_SUSPENDED = TRUE" ++ PyStr.nl
  ++ "        ".

Definition create_database_sql (reader_db_name provider_share_account_id share_name : pyval)
  : string :=
  PyStr.nl
  ++ "            CREATE OR REPLACE DATABASE " ++ fmt reader_db_name ++ PyStr.nl
  ++ "              FROM SHARE " ++ fmt provider_share_account_id ++ "."
  ++ fmt share_name ++ PyStr.nl
  ++ "        ".

(** [cur.fetchone()[0]] *)
Definition fetchone_0 (cur : conn) : M pyval :=
  r ← cur_fetchone cur;
  match r with
  | None => raise (TypeError "'NoneType' object is not subscriptable")
  | Some row => lift (Py.index row 0)
  end.

(** Lines 314-325: the configured objects, or the single legacy object. *)
Definition configured_objects (data_cfg : pyval) : result (list pyval) :=
  match Py.get data_cfg "objects" VNone with
  | Err e => Err e
  | Ok (VList (o :: l)) => Ok (o :: l)
  | Ok _ =>
      match Py.getitem data_cfg "shared_view_name" with
      | Err e => Err e
      | Ok sv =>
          match Py.getitem data_cfg "source_table" with
          | Err e => Err e
          | Ok src =>
              match Py.get data_cfg "view_where" VNone with
              | Err e => Err e
              | Ok w =>
                  Ok [VDict (<[ "shared_view_name" := sv ]>
                            (<[ "source_table" := src ]>
                            {[ "view_where" := w ]}))]
              end
          end
      end
  end.

(** [main] with the notification step as a parameter: [notify] stands for
    [send_credentials_email], called with its five arguments. *)
Definition main_with
  (notify : pyval -> pyval -> pyval -> pyval -> pyval -> M unit) : M unit :=
  cfg ← load_config "config.yaml";
  provider_cfg ← lift (Py.getitem cfg "provider");
  reader_cfg ← lift (Py.getitem cfg "reader");
  reader_user_cfg ← lift (Py.get cfg "reader_user" VNone);
  share_cfg ← lift (Py.getitem cfg "share");
  data_cfg ← lift (Py.getitem cfg "data");
  provider_account ← lift (Py.getitem provider_cfg "account");
  provider_user ← lift (Py.getitem provider_cfg "user");
  provider_password ← lift (Py.getitem provider_cfg "password");
  provider_role ← lift (Py.getitem provider_cfg "role");
  reader_account_name ← lift (Py.getitem reader_cfg "account_name");
  reader_admin_user ← lift (Py.getitem reader_cfg "admin_user");
  reader_admin_password ← lift (Py.getitem reader_cfg "admin_password");
  reader_wh_name ← lift (Py.getitem reader_cfg "warehouse_name");
  reader_db_name ← lift (Py.getitem reader_cfg "db_name");
  share_name ← lift (Py.getitem share_cfg "name");
  provider_db ← lift (Py.getitem data_cfg "provider_database");
  shared_schema ← lift (Py.getitem data_cfg "shared_schema");
  objects ← lift (configured_objects data_cfg);
  (* connect to provider *)
  log ("Connecting to provider account '" ++ fmt provider_account ++ "' as "
       ++ fmt provider_user ++ " " ++ "with role " ++ fmt provider_role ++ "...");;
  try_except
    (call (EvConnect Provider provider_user provider_password provider_account
             provider_role)
          (connect P Provider provider_user provider_password provider_account
             provider_role))
    (on_Exception (fun e =>
       log ("ERROR: Failed to connect to provider account: " ++ Py.exn_str e);;
       sys_exit 1));;
  log "Connected to provider.";;
  '(provider_share_account_id, account_url) ← finally
    (cur_execute Provider "SELECT CURRENT_ACCOUNT()";;
     provider_share_account_id ← fetchone_0 Provider;
     log ("Provider share account identifier (CURRENT_ACCOUNT) = "
          ++ fmt provider_share_account_id);;
     log "Ensuring shared schema and secure view(s) exist...";;
     cur_execute Provider
       ("CREATE SCHEMA IF NOT EXISTS " ++ fmt provider_db ++ "." ++ fmt shared_schema);;
     for_each objects (fun obj =>
       sv_name ← lift (Py.getitem obj "shared_view_name");
       src_table ← lift (Py.getitem obj "source_table");
       view_where ← lift (Py.get obj "view_where" VNone);
       view_where_sql ← lift (normalize_where view_where);
       cur_execute Provider
         (secure_view_sql provider_db shared_schema sv_name src_table view_where_sql);;
       log ("Secure view " ++ fmt provider_db ++ "." ++ fmt shared_schema ++ "."
            ++ fmt sv_name ++ " is ready."));;
     log ("Ensuring share " ++ fmt share_name ++ " exists with proper grants...");;
     cur_execute Provider ("CREATE OR REPLACE SHARE " ++ fmt share_name);;
     cur_execute Provider
       ("GRANT USAGE ON DATABASE " ++ fmt provider_db ++ " TO SHARE " ++ fmt share_name);;
     cur_execute Provider
       ("GRANT USAGE ON SCHEMA " ++ fmt provider_db ++ "." ++ fmt shared_schema
        ++ " TO SHARE " ++ fmt share_name);;
     for_each objects (fun obj =>
       sv_name ← lift (Py.getitem obj "shared_view_name");
       cur_execute Provider
         (grant_select_sql provider_db shared_schema sv_name share_name));;
     log "Share and privileges ensured.";;
     acct_info ← ensure_managed_account Provider reader_account_name
                   reader_admin_user reader_admin_password;
     let locator := account_locator acct_info in
     let account_url := account_url acct_info in
     log ("Using reader managed account: locator=" ++ fmt locator
          ++ ", url=" ++ fmt account_url);;
     ensure_share_has_account Provider share_name locator;;
     ret (provider_share_account_id, account_url))
    (emit (EvCloseCursor Provider);;
     emit (EvCloseConn Provider);;
     log "Closed provider connection.");
  (* connect to reader *)
  reader_account_identifier ←
    match account_url with
    | VStr url => ret (account_identifier_from_url url)
    | v => raise (AttributeError
                    ("'" ++ Py.type_name v ++ "' object has no attribute 'startswith'"))
    end;
  log ("Connecting to reader account '" ++ reader_account_identifier ++ "' as "
       ++ fmt reader_admin_user ++ "...");;
  try_except
    (call (EvConnect Reader reader_admin_user reader_admin_password
             (VStr reader_account_identifier) (VStr "ACCOUNTADMIN"))
          (connect P Reader reader_admin_user reader_admin_password
             (VStr reader_account_identifier) (VStr "ACCOUNTADMIN")))
    (on_Exception (fun e =>
       log ("ERROR: Failed to connect to reader account: " ++ Py.exn_str e);;
       sys_exit 1));;
  log "Connected to reader account.";;
  finally
    (log ("Ensuring warehouse " ++ fmt reader_wh_name ++ " exists in reader account...");;
     cur_execute Reader (create_warehouse_sql reader_wh_name);;
     log "Warehouse ensured.";;
     log ("Ensuring database " ++ fmt reader_db_name
          ++ " FROM SHARE is created in reader account...");;
     cur_execute Reader
       (create_database_sql reader_db_name provider_share_account_id share_name);;
     log "Shared database ensured.";;
     log "Applying grants in reader account (idempotent)...";;
     cur_execute Reader
       ("GRANT IMPORTED PRIVILEGES ON DATABASE " ++ fmt reader_db_name
        ++ " TO ROLE PUBLIC");;
     cur_execute Reader
       ("GRANT USAGE ON WAREHOUSE " ++ fmt reader_wh_name ++ " TO ROLE PUBLIC");;
     user_result ← ensure_reader_user Reader reader_user_cfg reader_wh_name;
     created ← (if Py.truthy user_result
                then c ← lift (Py.get user_result "created" VNone); ret (Py.truthy c)
                else ret false);
     (if created : bool then
        smtp0 ← lift (Py.get cfg "smtp" VNone);
        let smtp_cfg := Py.or smtp0 (VDict ∅) in
        try_except
          (user_name ← lift (Py.getitem user_result "name");
           user_email ← lift (Py.getitem user_result "email");
           temp_password ← lift (Py.getitem user_result "temp_password");
           notify user_name user_email temp_password account_url smtp_cfg)
          (on_Exception (fun e =>
             log ("WARNING: Error during email dispatch: " ++ Py.exn_str e)))
      else ret tt);;
     log "Running test query in reader account...";;
     cur_execute Reader ("USE WAREHOUSE " ++ fmt reader_wh_name);;
     cur_execute Reader ("USE DATABASE " ++ fmt reader_db_name);;
     cur_execute Reader ("USE SCHEMA " ++ fmt shared_schema);;
     for_each objects (fun obj =>
       sv_name ← lift (Py.getitem obj "shared_view_name");
       cur_execute Reader (count_sql sv_name);;
       count ← fetchone_0 Reader;
       log ("Test query OK. Row count from view " ++ fmt sv_name ++ ": "
            ++ fmt count)))
    (emit (EvCloseCursor Reader);;
     emit (EvCloseConn Reader);;
     log "Closed reader connection.");;
  log ("✅ DONE. Reader account, share, warehouse, DB, and reader user are fully "
       ++ "provisioned and idempotent.").

Definition main : M unit := main_with send_credentials_email.

End Provision.

(** ** A scripted platform

    A concrete platform whose answers are functions of the statements sent
    so far (newest first), and whose mail library refuses a sender or a
    recipient with a line feed in it.  It is used to run the script on
    examples. *)

Record scenario : Type := {
  sc_config : result pyval;
  sc_connect : conn -> option exn;
  sc_execute : list string -> string -> option exn;
  sc_fetchall : list string -> list row;
  sc_fetchone : list string -> option row;
  sc_smtp : smtp_action -> option exn
}.

(** A text with a line feed in it. *)
Definition has_line_feed (v : pyval) : bool :=
  match v with
  | VStr s => PyStr.contains PyStr.nl s
  | _ => false
  end.

Definition scripted (s : scenario) : platform := {|
  Env := list string;
  yaml_safe_load := fun _ h => (h, sc_config s);
  connect := fun c _ _ _ _ h => (h, sc_connect s c);
  execute := fun _ sql h => (sql :: h, sc_execute s h sql);
  fetchall := fun _ h => (h, Ok (sc_fetchall s h));
  fetchone := fun _ h => (h, Ok (sc_fetchone s h));
  smtp := fun a h => (h, sc_smtp s a);
  message_error := fun msg =>
    if has_line_feed (msg_from msg) || has_line_feed (msg_to msg)
    then Some ("ValueError",
               "Header values may not contain linefeed or carriage return characters")
    else None;
  repr := fun _ => "<object>"
|}.

(** The events and the outcome of a run from the empty history. *)
Definition run {A} (s : scenario) (m : M (scripted s) A) : list event * result A :=
  match m [] with
  | (_, evs, r) => (evs, r)
  end.

Module Demo.

Definition account_row : row :=
  [VStr "READER1"; VStr "aws"; VStr "us-east-1"; VStr "XY12345";
   VStr "2024-01-01"; VStr "https://orgx-reader1.snowflakecomputing.com"].

(** Nothing fails, nothing exists yet: accounts show up once created. *)
Definition fresh : scenario := {|
  sc_config := Ok VNone;
  sc_connect := fun _ => None;
  sc_execute := fun _ _ => None;
  sc_fetchall := fun h =>
    match h with
    | sql :: h' =>
        if PyStr.startswith "SHOW MANAGED" sql
           && existsb (PyStr.contains "CREATE MANAGED ACCOUNT") h'
        then [account_row] else []
    | [] => []
    end;
  sc_fetchone := fun h =>
    match h with
    | sql :: _ =>
        if PyStr.startswith "SELECT COUNT" sql then Some [VInt 42]
        else Some [VStr "PROV1"]
    | [] => None
    end;
  sc_smtp := fun _ => None
|}.

Definition with_execute (f : list string -> string -> option exn) (s : scenario)
  : scenario :=
  {| sc_config := sc_config s; sc_connect := sc_connect s; sc_execute := f;
     sc_fetchall := sc_fetchall s; sc_fetchone := sc_fetchone s;
     sc_smtp := sc_smtp s |}.

Definition with_fetchall (f : list string -> list row) (s : scenario) : scenario :=
  {| sc_config := sc_config s; sc_connect := sc_connect s;
     sc_execute := sc_execute s; sc_fetchall := f;
     sc_fetchone := sc_fetchone s; sc_smtp := sc_smtp s |}.

Definition with_config (cfg : pyval) (s : scenario) : scenario :=
  {| sc_config := Ok cfg; sc_connect := sc_connect s;
     sc_execute := sc_execute s; sc_fetchall := sc_fetchall s;
     sc_fetchone := sc_fetchone s; sc_smtp := sc_smtp s |}.

(** Every lookup finds a row. *)
Definition existing : scenario := with_fetchall (fun _ => [account_row]) fresh.

(** Statements starting with [p] fail with [e]. *)
Definition failing (p : string) (e : exn) (s : scenario) : scenario :=
  with_execute
    (fun h sql => if PyStr.contains p sql then Some e else sc_execute s h sql) s.

Definition object1 : pyval :=
  VDict (<[ "shared_view_name" := VStr "V_ONE" ]>
        (<[ "source_table" := VStr "T_ONE" ]>
        {[ "view_where" := VStr "x > 1" ]})).

Definition object2 : pyval :=
  VDict (<[ "shared_view_name" := VStr "V_TWO" ]>
        {[ "source_table" := VStr "T_TWO" ]}).

Definition reader_user_section : gmap string pyval :=
  <[ "name" := VStr "bob" ]>
  (<[ "email" := VStr "bob@example.com" ]>
  {[ "temp_password" := VStr "Temp#1" ]}).

Definition reader_user : pyval := VDict reader_user_section.

Definition smtp_map : gmap string pyval :=
  <[ "host" := VStr "mail.example.com" ]> {[ "user" := VStr "mailer" ]}.

Definition smtp_section : pyval := VDict smtp_map.

Definition data_section : gmap string pyval :=
  <[ "provider_database" := VStr "DB" ]>
  (<[ "shared_schema" := VStr "SHARED" ]>
  {[ "objects" := VList [object1; object2] ]}).

Definition base_config : gmap string pyval :=
  <[ "provider" := VDict (<[ "account" := VStr "PROV" ]>
                         (<[ "user" := VStr "admin" ]>
                         (<[ "password" := VStr "pw" ]>
                         {[ "role" := VStr "ACCOUNTADMIN" ]}))) ]>
 (<[ "reader" := VDict (<[ "account_name" := VStr "READER1" ]>
                       (<[ "admin_user" := VStr "radmin" ]>
                       (<[ "admin_password" := VStr "rpw" ]>
                       (<[ "warehouse_name" := VStr "WH" ]>
                       {[ "db_name" := VStr "SHARED_DB" ]})))) ]>
 (<[ "share" := VDict {[ "name" := VStr "SH" ]} ]>
 {[ "data" := VDict data_section ]})).

Definition full_section : gmap string pyval :=
  <[ "reader_user" := reader_user ]> (<[ "smtp" := smtp_section ]> base_config).

Definition full_config : pyval := VDict full_section.

End Demo.

(** ** Specification predicates *)

(** The prefix test of [normalize_where]: [where] in any case, then a space. *)
Definition has_where_prefix (s : string) : bool :=
  PyStr.startswith "where " (PyStr.lower s).

(** [s] begins with the word [where], in any case: the word is followed by
    white space or by the end of the text. *)
Definition where_word (s : string) : bool :=
  PyStr.startswith "where" (PyStr.lower s)
  && match PyStr.drop 5 s with
     | "" => true
     | String c _ => PyStr.is_space c
     end.

(** One [WHERE ] prefix, and no second [WHERE] word behind it. *)
Definition single_where (s : string) : bool :=
  has_where_prefix s && negb (where_word (PyStr.lstrip (PyStr.drop 6 s))).

(** The port an SMTP section configures, if it configures one. *)
Definition configured_port (d : gmap string pyval) : option pyval :=
  match d !! "port" with
  | Some VNone | None => None
  | Some p => Some p
  end.

Definition port_or (d : gmap string pyval) (n : Z) : pyval :=
  default (VInt n) (configured_port d).

Definition is_ProgrammingError (e : exn) : bool :=
  match e with
  | ProgrammingError _ => true
  | _ => false
  end.

(** All the statements of a run, on either connection, in order. *)
Fixpoint statements (evs : list event) : list string :=
  match evs with
  | [] => []
  | EvExecute _ sql :: evs' => sql :: statements evs'
  | _ :: evs' => statements evs'
  end.

(** The three kinds of statement sent once per configured object. *)
Definition is_secure_view (sql : string) : bool :=
  PyStr.startswith "CREATE OR REPLACE SECURE VIEW " sql.

Definition is_grant_select (sql : string) : bool :=
  PyStr.startswith "GRANT SELECT ON VIEW " sql.

Definition is_count (sql : string) : bool :=
  PyStr.startswith "SELECT COUNT(*) FROM " sql.

(** An event that is none of these three kinds of statement. *)
Definition plain (ev : event) : Prop :=
  match ev with
  | EvExecute _ sql =>
      is_secure_view sql = false /\ is_grant_select sql = false /\ is_count sql = false
  | _ => True
  end.

(** [s.endswith(suffix)]: the text carries the suffix. *)
Fixpoint ends_with (suffix s : string) : bool :=
  String.eqb s suffix
  || match s with
     | "" => false
     | String _ s' => ends_with suffix s'
     end.

(** No SMTP traffic. *)
Definition no_smtp (ev : event) : Prop :=
  match ev with
  | EvSmtp _ => False
  | _ => True
  end.

(** Every event of every run of [m] satisfies [Q]. *)
Definition emits (P : platform) (Q : event -> Prop) {A : Type} (m : M P A) : Prop :=
  forall env env' evs r, m env = (env', evs, r) -> Forall Q evs.

(** A smoke test: the count query, its row, and the line logged for it. *)
Definition count_events (P : platform) (sv_name : pyval) (r : row) (count : pyval)
  : list event :=
  [EvExecute Reader (count_sql P sv_name);
   EvFetchOne Reader (Ok (Some r));
   EvPrint ("[provision] Test query OK. Row count from view " ++ fmt P sv_name
            ++ ": " ++ fmt P count)].

(** How a complete run ends. *)
Definition closing_events : list event :=
  [EvCloseCursor Reader; EvCloseConn Reader;
   EvPrint "[provision] Closed reader connection.";
   EvPrint ("[provision] ✅ DONE. Reader account, share, warehouse, DB, and reader "
            ++ "user are fully provisioned and idempotent.")].

(** ** Predicates on traces and on errors *)

(** What [send_credentials_email] may do on SMTP with the section [d]: log in
    only with a user and a password that are both set, and send only the
    one message, to the given address, from the configured sender or else
    the SMTP user or else the fixed address. *)
Definition credentials_event (d : gmap string pyval) (user_email : pyval)
  (ev : event) : Prop :=
  match ev with
  | EvSmtp (Login u p) =>
      u = default VNone (d !! "user") /\ p = default VNone (d !! "password")
      /\ Py.truthy u = true /\ Py.truthy p = true
  | EvSmtp (SendMessage m) =>
      msg_to m = user_email
      /\ msg_subject m = "Your Snowflake Reader Account Credentials"
      /\ msg_from m = Py.or (Py.or (default VNone (d !! "from"))
                                   (default VNone (d !! "user")))
                            (VStr "no-reply@snowflake")
  | _ => True
  end.

(** An event on connection [c]: the attempt to open it, a statement or a
    fetch on its cursor, or the release of either. *)
Definition on_conn (c : conn) (ev : event) : Prop :=
  match ev with
  | EvConnect c' _ _ _ _ | EvExecute c' _ | EvFetchAll c' _ | EvFetchOne c' _
  | EvCloseCursor c' | EvCloseConn c' => c' = c
  | _ => False
  end.

(** How the provider block ends, lines 408-411. *)
Definition provider_closing : list event :=
  [EvCloseCursor Provider; EvCloseConn Provider;
   EvPrint "[provision] Closed provider connection."].

(** A run in two phases: nothing happens on the reader connection in the
    first, nothing on the provider connection in the second, and the second
    starts after the provider connection has been released. *)
Definition two_phases (evs : list event) : Prop :=
  exists evs1 evs2,
    evs = (evs1 ++ evs2)%list
    /\ Forall (fun ev => ~ on_conn Reader ev) evs1
    /\ Forall (fun ev => ~ on_conn Provider ev) evs2
    /\ (evs2 <> [] -> exists pre, evs1 = (pre ++ provider_closing)%list).

(** Every event of [evs] that satisfies [B] comes after one that satisfies
    [A]. *)
Definition preceded (A B : event -> Prop) (evs : list event) : Prop :=
  forall pre ev post, evs = (pre ++ ev :: post)%list -> B ev -> Exists A pre.

(** The statement that creates the reader user, sent on the reader
    connection. *)
Definition creates_user (P : platform) (ev : event) : Prop :=
  exists name temp_pw default_wh email,
    ev = EvExecute Reader (create_user_sql P name temp_pw default_wh email).

(** A call made on [smtplib]. *)
Definition is_smtp (ev : event) : Prop :=
  match ev with
  | EvSmtp _ => True
  | _ => False
  end.

(** The line logged once connection [c] and its cursor are open, lines 353
    and 429. *)
Definition connected_line (c : conn) : string :=
  match c with
  | Provider => "[provision] Connected to provider."
  | Reader => "[provision] Connected to reader account."
  end.

(** Every event of [evs] that satisfies [A] has one that satisfies [B]
    after it. *)
Definition followed (A B : event -> Prop) (evs : list event) : Prop :=
  forall pre ev post, evs = (pre ++ ev :: post)%list -> A ev -> Exists B post.

(** What the platform raises is an [Exception]: no call made on it ends in
    [SystemExit]. *)
Definition raises_exceptions (P : platform) : Prop :=
  (forall path env env' e,
     yaml_safe_load P path env = (env', Err e) -> Py.is_Exception e = true)
  /\ (forall c u p a r env env' e,
        connect P c u p a r env = (env', Some e) -> Py.is_Exception e = true)
  /\ (forall c sql env env' e,
        execute P c sql env = (env', Some e) -> Py.is_Exception e = true)
  /\ (forall c env env' e,
        fetchall P c env = (env', Err e) -> Py.is_Exception e = true)
  /\ (forall c env env' e,
        fetchone P c env = (env', Err e) -> Py.is_Exception e = true)
  /\ (forall a env env' e,
        smtp P a env = (env', Some e) -> Py.is_Exception e = true).

(** The ways the script may end in an error: [sys.exit(1)], or an
    [Exception] it does not handle. *)
Definition exit_1_or_Exception (e : exn) : Prop :=
  e = SystemExit 1 \/ Py.is_Exception e = true.

(** Every error of every run of [m] satisfies [E]. *)
Definition raises (P : platform) (E : exn -> Prop) {A : Type} (m : M P A) : Prop :=
  forall env env' evs e, m env = (env', evs, Err e) -> E e.

(** The complete configuration, on a platform where the reader account
    cannot be reached. *)
Definition reader_unreachable : scenario := {|
  sc_config := Ok Demo.full_config;
  sc_connect := fun c =>
    match c with
    | Provider => None
    | Reader => Some (LibraryError "DatabaseError" "250001: Could not connect")
    end;
  sc_execute := sc_execute Demo.fresh;
  sc_fetchall := sc_fetchall Demo.fresh;
  sc_fetchone := sc_fetchone Demo.fresh;
  sc_smtp := sc_smtp Demo.fresh
|}.

(** ** String facts *)

Section StringFacts.

Lemma lstrip_length (t : string) :
  (String.length (PyStr.lstrip t) <= String.length t)%nat.
Proof.
  induction t as [|a t IH]; cbn [PyStr.lstrip]; [lia|].
  destruct (PyStr.is_space a); cbn [String.length]; lia.
Qed.

Lemma lstrip_rstrip_fix (s : string) :
  PyStr.lstrip (PyStr.rstrip (PyStr.lstrip s)) = PyStr.rstrip (PyStr.lstrip s).
Proof.
  assert (H : forall t, PyStr.lstrip t = t -> PyStr.lstrip (PyStr.rstrip t) = PyStr.rstrip t).
  { intros [|c t]; [reflexivity|].
    cbn [PyStr.lstrip PyStr.rstrip].
    destruct (PyStr.is_space c) eqn:Hc.
    - intros Heq. exfalso.
      pose proof (lstrip_length t) as Hlen.
      rewrite Heq in Hlen. cbn [String.length] in Hlen. lia.
    - intros _. destruct (PyStr.rstrip t); cbn [PyStr.lstrip]; rewrite Hc; reflexivity. }
  apply H.
  induction s as [|c s IH]; [reflexivity|].
  cbn [PyStr.lstrip]. destruct (PyStr.is_space c) eqn:Hc; [exact IH|].
  cbn [PyStr.lstrip]. rewrite Hc. reflexivity.
Qed.

Lemma prefix_cons_true (a b : ascii) (s t : string) :
  String.prefix (String a s) (String b t) = true -> a = b /\ String.prefix s t = true.
Proof.
  cbn [String.prefix]. destruct (ascii_dec a b); [auto | discriminate].
Qed.

Lemma lower_ascii_space (c : ascii) :
  PyStr.lower_ascii c = " "%char -> c = " "%char.
Proof.
  destruct c as [[] [] [] [] [] [] [] []]; vm_compute; first [reflexivity | discriminate].
Qed.

Lemma is_space_lower_ascii (c : ascii) :
  PyStr.is_space (PyStr.lower_ascii c) = PyStr.is_space c.
Proof. destruct c as [[] [] [] [] [] [] [] []]; reflexivity. Qed.

Lemma startswith_lower_where_word (t : string) :
  PyStr.startswith "where " (PyStr.lower t) = true -> where_word t = true.
Proof.
  unfold where_word, PyStr.startswith.
  destruct t as [|c1 [|c2 [|c3 [|c4 [|c5 [|c6 t]]]]]]; cbn [PyStr.lower];
    intros H;
    repeat (apply prefix_cons_true in H; destruct H as [? H]);
    try discriminate.
  match goal with
  | Hs : " "%char = PyStr.lower_ascii ?c |- _ =>
      symmetry in Hs; apply lower_ascii_space in Hs; subst c
  end.
  cbn [PyStr.drop String.prefix].
  repeat match goal with
         | Hc : _ = PyStr.lower_ascii _ |- _ => rewrite <- Hc; clear Hc
         end.
  reflexivity.
Qed.

Lemma has_where_prefix_WHERE (t : string) :
  has_where_prefix ("WHERE " ++ t) = true.
Proof. destruct t; reflexivity. Qed.

End StringFacts.

(** ** Statements of a trace *)

Lemma statements_app (evs1 evs2 : list event) :
  statements (evs1 ++ evs2) = (statements evs1 ++ statements evs2)%list.
Proof.
  induction evs1 as [|[] evs1 IH]; cbn [statements app]; rewrite ?IH; reflexivity.
Qed.

(** ** account_identifier_from_url *)

(** C4, as the claim states it, fails: the domain is looked for anywhere in
    the host and the host is cut where it is first found.  A host that does
    not end with the domain but has it inside, followed by a port, is not
    returned unchanged. *)
Lemma account_identifier_from_url_cuts_inside_host :
  host_portion "https://orgx-acct1.snowflakecomputing.com:443/console"
  = "orgx-acct1.snowflakecomputing.com:443"
  /\ ends_with ".snowflakecomputing.com"
       (host_portion "https://orgx-acct1.snowflakecomputing.com:443/console") = false
  /\ account_identifier_from_url "https://orgx-acct1.snowflakecomputing.com:443/console"
     = "orgx-acct1"
  /\ account_identifier_from_url "https://orgx-acct1.snowflakecomputing.com:443/console"
     <> host_portion "https://orgx-acct1.snowflakecomputing.com:443/console".
Proof. repeat split; discriminate. Qed.

(** C4, amended.  [account_identifier_from_url] is a total function on
    strings; it maps the two test vectors of the specification to
    [orgx-acct1] (the scheme is optional, the path is dropped).  When the
    domain [.snowflakecomputing.com] occurs nowhere in the host portion, the
    result is that host portion, unchanged; when it occurs, the result is
    the part of the host portion before its first occurrence. *)
Theorem account_identifier_from_url_spec :
  account_identifier_from_url "https://orgx-acct1.snowflakecomputing.com" = "orgx-acct1"
  /\ account_identifier_from_url "orgx-acct1.snowflakecomputing.com/foo" = "orgx-acct1"
  /\ (forall url, exists acct, account_identifier_from_url url = acct)
  /\ (forall url,
        PyStr.contains ".snowflakecomputing.com" (host_portion url) = false ->
        account_identifier_from_url url = host_portion url)
  /\ (forall url,
        PyStr.contains ".snowflakecomputing.com" (host_portion url) = true ->
        account_identifier_from_url url
        = PyStr.before_first ".snowflakecomputing.com" (host_portion url)).
Proof.
  split; [reflexivity|]. split; [reflexivity|]. split; [|split].
  - intros url. eexists. reflexivity.
  - intros url H. unfold account_identifier_from_url, host_portion in *.
    cbv zeta. rewrite H. reflexivity.
  - intros url H. unfold account_identifier_from_url, host_portion in *.
    cbv zeta. rewrite H. reflexivity.
Qed.

Lemma account_identifier_from_url_spec_witness :
  (PyStr.contains ".snowflakecomputing.com" (host_portion "http://localhost:8080/x")
   = false
   /\ account_identifier_from_url "http://localhost:8080/x" = "localhost:8080")
  /\ account_identifier_from_url "orgx-acct1.snowflakecomputing.com.example.org/x"
     = PyStr.before_first ".snowflakecomputing.com"
         (host_portion "orgx-acct1.snowflakecomputing.com.example.org/x").
Proof.
  destruct account_identifier_from_url_spec as (_ & _ & _ & Habsent & Hpresent).
  split; [split; [reflexivity|]|].
  - exact (Habsent "http://localhost:8080/x" eq_refl).
  - exact (Hpresent "orgx-acct1.snowflakecomputing.com.example.org/x" eq_refl).
Defined.

(** ** normalize_where *)

(** C5, as the claim states it, fails: a filter that already carries two
    prefixes is returned as it is, so the result is neither empty nor a
    text with a single [WHERE] prefix. *)
Lemma normalize_where_keeps_doubled_prefix :
  normalize_where (VStr "WHERE WHERE x > 1") = Ok "WHERE WHERE x > 1"
  /\ "WHERE WHERE x > 1" <> ""
  /\ single_where "WHERE WHERE x > 1" = false.
Proof. repeat split; [discriminate]. Qed.

(** The prefix test looks for a space: a [WHERE] followed by a tab, or by
    nothing, is not seen and receives a second [WHERE]. *)
Example normalize_where_other_whitespace :
  normalize_where (VStr ("WHERE" ++ String (ascii_of_nat 9) "x > 1"))
    = Ok ("WHERE WHERE" ++ String (ascii_of_nat 9) "x > 1")
  /\ normalize_where (VStr "WHERE") = Ok "WHERE WHERE".
Proof. split; reflexivity. Qed.

Lemma normalize_where_str (s : string) :
  normalize_where (VStr s) =
    if String.eqb (PyStr.strip s) "" then Ok ""
    else if has_where_prefix (PyStr.strip s) then Ok (PyStr.strip s)
    else Ok ("WHERE " ++ PyStr.strip s).
Proof.
  unfold normalize_where, Py.or, has_where_prefix. cbn [Py.truthy].
  destruct (String.eqb s "") eqn:Hs; cbn [negb].
  - apply String.eqb_eq in Hs. subst s. reflexivity.
  - destruct (String.eqb (PyStr.strip s) ""); [reflexivity|].
    assert (Hl : PyStr.lstrip (PyStr.lower (PyStr.strip s)) = PyStr.lower (PyStr.strip s)).
    { unfold PyStr.strip.
      generalize (lstrip_rstrip_fix s). generalize (PyStr.rstrip (PyStr.lstrip s)).
      intros [|c t]; [reflexivity|]. cbn [PyStr.lstrip PyStr.lower].
      destruct (PyStr.is_space c) eqn:Hc.
      - intros Heq. exfalso.
        pose proof (lstrip_length t) as Hlen.
        rewrite Heq in Hlen. cbn [String.length] in Hlen. lia.
      - intros _.
        rewrite is_space_lower_ascii, Hc. reflexivity. }
    rewrite Hl. destruct (PyStr.startswith "where " _); reflexivity.
Qed.

(** C5, amended.  [normalize_where] maps [None] and the empty string to the
    empty string, ["x > 1"] to ["WHERE x > 1"], and returns
    ["WHERE x > 1"] (in any case of the keyword) unchanged.  For every input
    the result is empty or begins with [WHERE ] in some case.  An input that
    already begins with [WHERE ] is returned stripped and otherwise
    unchanged, and an input whose first word is not [WHERE] receives exactly
    one [WHERE ] in front of its stripped text. *)
Theorem normalize_where_spec :
  normalize_where VNone = Ok ""
  /\ normalize_where (VStr "") = Ok ""
  /\ normalize_where (VStr "x > 1") = Ok "WHERE x > 1"
  /\ normalize_where (VStr "WHERE x > 1") = Ok "WHERE x > 1"
  /\ normalize_where (VStr "where x > 1") = Ok "where x > 1"
  /\ (forall s, exists r,
        normalize_where (VStr s) = Ok r /\ (r = "" \/ has_where_prefix r = true))
  /\ (forall s,
        has_where_prefix (PyStr.strip s) = true ->
        normalize_where (VStr s) = Ok (PyStr.strip s))
  /\ (forall s,
        PyStr.strip s <> "" ->
        where_word (PyStr.strip s) = false ->
        normalize_where (VStr s) = Ok ("WHERE " ++ PyStr.strip s)
        /\ single_where ("WHERE " ++ PyStr.strip s) = true).
Proof.
  repeat split; try reflexivity.
  - intros s. rewrite normalize_where_str.
    destruct (String.eqb (PyStr.strip s) "") eqn:He; [eauto|].
    destruct (has_where_prefix (PyStr.strip s)) eqn:Hp; [eauto|].
    eexists; split; [reflexivity|]. right. apply has_where_prefix_WHERE.
  - intros s Hp. rewrite normalize_where_str, Hp.
    destruct (String.eqb (PyStr.strip s) "") eqn:He; [|reflexivity].
    apply String.eqb_eq in He. rewrite He in Hp. discriminate.
  - rewrite normalize_where_str.
    destruct (String.eqb (PyStr.strip s) "") eqn:He.
    { apply String.eqb_eq in He. contradiction. }
    destruct (has_where_prefix (PyStr.strip s)) eqn:Hp; [|reflexivity].
    apply startswith_lower_where_word in Hp. congruence.
  - unfold single_where.
    rewrite has_where_prefix_WHERE.
    replace (PyStr.drop 6 ("WHERE " ++ PyStr.strip s)) with (PyStr.strip s)
      by reflexivity.
    unfold PyStr.strip at 1. rewrite lstrip_rstrip_fix.
    fold (PyStr.strip s). rewrite H0. reflexivity.
Qed.

Lemma normalize_where_spec_witness :
  normalize_where (VStr "  Where x > 1 ") = Ok "Where x > 1"
  /\ normalize_where (VStr " status = 'A'  ") = Ok "WHERE status = 'A'"
  /\ single_where "WHERE status = 'A'" = true.
Proof.
  destruct normalize_where_spec as (_ & _ & _ & _ & _ & _ & Hkeep & Hadd).
  split.
  - exact (Hkeep "  Where x > 1 " eq_refl).
  - apply (Hadd " status = 'A'  "); [discriminate | reflexivity].
Defined.

(** ** Running the monad *)

Ltac munfold :=
  unfold mbind, M_bind, mret, M_ret, with_server, log, sleep, smtp_do, cur_execute,
    cur_fetchall, cur_fetchone, sys_exit, on_ProgrammingError, on_Exception;
  unfold bind, ret, try_except, finally, emit, call, query, lift, raise.

(** ** ensure_share_has_account *)

Section ShareAttachment.

Context (P : platform).

Lemma ensure_share_has_account_run (cur : conn) (share_name locator : pyval)
  (env env1 : Env P) (res : option exn) :
  execute P cur (alter_share_sql P share_name locator) env = (env1, res) ->
  ensure_share_has_account P cur share_name locator env =
    (env1,
     [EvPrint ("[provision] Ensuring account " ++ fmt P locator
               ++ " is added to share " ++ fmt P share_name ++ "...");
      EvExecute cur (alter_share_sql P share_name locator)]
     ++ match res with
        | None =>
            [EvPrint ("[provision] Account " ++ fmt P locator ++ " added to share "
                      ++ fmt P share_name ++ ".")]
        | Some (ProgrammingError msg) =>
            if PyStr.contains "cannot be added to this share" msg
            then [EvPrint ("[provision] Account " ++ fmt P locator
                           ++ " already present in share " ++ fmt P share_name
                           ++ "; continuing.")]
            else [EvPrint ("[provision] ERROR adding account to share: " ++ msg)]
        | Some _ => []
        end,
     match res with
     | None => Ok tt
     | Some (ProgrammingError msg) =>
         if PyStr.contains "cannot be added to this share" msg
         then Ok tt else Err (SystemExit 1)
     | Some e => Err e
     end)%list.
Proof.
  intros Hexec. unfold ensure_share_has_account. munfold. rewrite Hexec.
  destruct res as [[]|]; try reflexivity.
  destruct (PyStr.contains _ _); reflexivity.
Qed.

(** C2.  Whatever the platform answers to the [ALTER SHARE ... ADD ACCOUNTS]
    statement, [ensure_share_has_account] sends that one statement and
    returns normally exactly when the statement succeeded or failed with a
    platform error ([ProgrammingError]) whose message contains
    ["cannot be added to this share"]; any other platform error ends the run
    with [SystemExit 1], after the error has been logged. *)
Theorem ensure_share_has_account_outcome (cur : conn) (share_name locator : pyval)
  (env env1 : Env P) (res : option exn) :
  execute P cur (alter_share_sql P share_name locator) env = (env1, res) ->
  exists evs r,
    ensure_share_has_account P cur share_name locator env = (env1, evs, r)
    /\ statements evs = [alter_share_sql P share_name locator]
    /\ (r = Ok tt <->
        res = None
        \/ exists msg, res = Some (ProgrammingError msg)
                       /\ PyStr.contains "cannot be added to this share" msg = true)
    /\ (forall msg,
          res = Some (ProgrammingError msg) ->
          PyStr.contains "cannot be added to this share" msg = false ->
          r = Err (SystemExit 1)
          /\ last evs = Some (EvPrint ("[provision] ERROR adding account to share: "
                                       ++ msg))).
Proof.
  intros Hexec. rewrite (ensure_share_has_account_run _ _ _ _ _ _ Hexec).
  do 2 eexists. split; [reflexivity|]. split; [|split].
  - destruct res as [[]|]; try (destruct (PyStr.contains _ _)); reflexivity.
  - split.
    + destruct res as [e|]; [|auto]. destruct e; try discriminate.
      destruct (PyStr.contains _ msg) eqn:Hc; [|discriminate]. eauto.
    + intros [->|(msg & -> & ->)]; reflexivity.
  - intros msg -> ->. split; reflexivity.
Qed.

End ShareAttachment.

Lemma ensure_share_has_account_outcome_witness :
  exists evs r,
    run (Demo.failing "ALTER SHARE" (ProgrammingError "SQL access control error")
           Demo.fresh)
        (ensure_share_has_account _ Provider (VStr "SH") (VStr "XY12345")) = (evs, r)
    /\ r = Err (SystemExit 1).
Proof.
  destruct (ensure_share_has_account_outcome
              (scripted (Demo.failing "ALTER SHARE"
                           (ProgrammingError "SQL access control error") Demo.fresh))
              Provider (VStr "SH") (VStr "XY12345") [] _ _ eq_refl)
    as (evs & r & Hrun & _ & _ & Hfatal).
  exists evs, r. split.
  - unfold run. rewrite Hrun. reflexivity.
  - exact (proj1 (Hfatal _ eq_refl eq_refl)).
Defined.

(** ** get_managed_account and ensure_managed_account *)

Section ManagedAccount.

Context (P : platform).

(** A lookup sends the [SHOW MANAGED ACCOUNTS] statement and nothing else. *)
Lemma get_managed_account_statements (cur : conn) (name : pyval)
  (env env' : Env P) (evs : list event) (r : result (option managed_account)) :
  get_managed_account P cur name env = (env', evs, r) ->
  statements evs = [show_managed_accounts_sql P name].
Proof.
  unfold get_managed_account. munfold.
  destruct (execute P cur _ env) as [env1 [e|]].
  - intros [= <- <- <-]. reflexivity.
  - destruct (fetchall P cur env1) as [env2 [[|r0 rows]|e]].
    + intros [= <- <- <-]. reflexivity.
    + destruct (Py.index r0 0), (Py.index r0 3), (Py.index r0 5);
        intros [= <- <- <-]; reflexivity.
    + intros [= <- <- <-]. reflexivity.
Qed.

(** A lookup that returns has sent its statement and fetched the rows: it
    returns [None] when there is no row, and otherwise the record made of
    the columns 0, 3 and 5 of the first row. *)
Lemma get_managed_account_row (cur : conn) (name : pyval)
  (env env' : Env P) (evs : list event) (info : option managed_account) :
  get_managed_account P cur name env = (env', evs, Ok info) ->
  exists env1 rows,
    execute P cur (show_managed_accounts_sql P name) env = (env1, None)
    /\ fetchall P cur env1 = (env', Ok rows)
    /\ match info with
       | None => rows = []
       | Some i =>
           exists r0 rest,
             rows = r0 :: rest
             /\ Py.index r0 0 = Ok (account_name i)
             /\ Py.index r0 3 = Ok (account_locator i)
             /\ Py.index r0 5 = Ok (account_url i)
       end.
Proof.
  unfold get_managed_account. munfold.
  destruct (execute P cur _ env) as [env1 [e|]] eqn:Hexec; [discriminate|].
  destruct (fetchall P cur env1) as [env2 [[|r0 rows]|e]] eqn:Hrows; [| |discriminate].
  - intros [= <- <- <-]. exists env1, []. repeat split. exact Hrows.
  - destruct (Py.index r0 0) as [a|] eqn:H0; [|discriminate].
    destruct (Py.index r0 3) as [l|] eqn:H3; [|discriminate].
    destruct (Py.index r0 5) as [u|] eqn:H5; [|discriminate].
    intros [= <- <- <-]. exists env1, (r0 :: rows).
    split; [reflexivity|]. split; [exact Hrows|]. exists r0, rows.
    repeat split; assumption.
Qed.

(** The lookup on a platform that answers with at least one row. *)
Lemma get_managed_account_first_row (cur : conn) (name : pyval)
  (env env1 env2 : Env P) (r0 : row) (rest : list row) (a l u : pyval) :
  execute P cur (show_managed_accounts_sql P name) env = (env1, None) ->
  fetchall P cur env1 = (env2, Ok (r0 :: rest)) ->
  Py.index r0 0 = Ok a -> Py.index r0 3 = Ok l -> Py.index r0 5 = Ok u ->
  exists evs,
    get_managed_account P cur name env
    = (env2, evs,
       Ok (Some {| account_name := a; account_locator := l; account_url := u |})).
Proof.
  intros Hexec Hrows H0 H3 H5. unfold get_managed_account. munfold.
  rewrite Hexec, Hrows, H0, H3, H5. eexists. reflexivity.
Qed.

Variables (cur : conn) (name admin_user admin_password : pyval).

Lemma ensure_managed_account_lookup_error env env1 evs1 e :
  get_managed_account P cur name env = (env1, evs1, Err e) ->
  ensure_managed_account P cur name admin_user admin_password env = (env1, evs1, Err e).
Proof.
  intros Hget. unfold ensure_managed_account. unfold mbind, M_bind. unfold bind at 1.
  rewrite Hget. reflexivity.
Qed.

Lemma ensure_managed_account_found env env1 evs1 info :
  get_managed_account P cur name env = (env1, evs1, Ok (Some info)) ->
  ensure_managed_account P cur name admin_user admin_password env =
    (env1,
     evs1 ++ [EvPrint ("[provision] Managed account '" ++ fmt P name
                       ++ "' already exists. Using locator "
                       ++ fmt P (account_locator info) ++ ".")],
     Ok info)%list.
Proof.
  intros Hget. unfold ensure_managed_account. unfold mbind, M_bind. unfold bind at 1.
  rewrite Hget. munfold. reflexivity.
Qed.

(** The run after a miss, in terms of the answer to the creation request and
    of the second lookup. *)
Lemma ensure_managed_account_miss env env1 evs1 env2 res :
  get_managed_account P cur name env = (env1, evs1, Ok None) ->
  execute P cur (create_managed_account_sql P name admin_user admin_password) env1
    = (env2, res) ->
  ensure_managed_account P cur name admin_user admin_password env =
    match res with
    | None =>
        match get_managed_account P cur name env2 with
        | (env3, evs3, Ok (Some info)) =>
            (env3,
             evs1 ++ creating_events P cur name admin_user admin_password
             ++ [EvPrint "[provision] CREATE MANAGED ACCOUNT executed."; EvSleep 5]
             ++ evs3,
             Ok info)
        | (env3, evs3, Ok None) =>
            (env3,
             evs1 ++ creating_events P cur name admin_user admin_password
             ++ [EvPrint "[provision] CREATE MANAGED ACCOUNT executed."; EvSleep 5]
             ++ evs3
             ++ [EvPrint ("[provision] ERROR: Managed account creation succeeded "
                          ++ "but not found in SHOW MANAGED ACCOUNTS.")],
             Err (SystemExit 1))
        | (env3, evs3, Err e) =>
            (env3,
             evs1 ++ creating_events P cur name admin_user admin_password
             ++ [EvPrint "[provision] CREATE MANAGED ACCOUNT executed."; EvSleep 5]
             ++ evs3,
             Err e)
        end
    | Some (ProgrammingError msg) =>
        if PyStr.contains "already exists" msg then
          match get_managed_account P cur name env2 with
          | (env3, evs3, Ok (Some info)) =>
              (env3,
               evs1 ++ creating_events P cur name admin_user admin_password
               ++ [EvPrint ("[provision] CREATE MANAGED ACCOUNT says object already "
                            ++ "exists; assuming managed account was created "
                            ++ "previously. Re-checking SHOW MANAGED ACCOUNTS...")]
               ++ evs3
               ++ [EvPrint ("[provision] Using existing managed account locator "
                            ++ fmt P (account_locator info) ++ ".")],
               Ok info)
          | (env3, evs3, Ok None) =>
              (env3,
               evs1 ++ creating_events P cur name admin_user admin_password
               ++ [EvPrint ("[provision] CREATE MANAGED ACCOUNT says object already "
                            ++ "exists; assuming managed account was created "
                            ++ "previously. Re-checking SHOW MANAGED ACCOUNTS...")]
               ++ evs3
               ++ [EvPrint ("[provision] " ++ collision_message)],
               Err (SystemExit 1))
          | (env3, evs3, Err e) =>
              (env3,
               evs1 ++ creating_events P cur name admin_user admin_password
               ++ [EvPrint ("[provision] CREATE MANAGED ACCOUNT says object already "
                            ++ "exists; assuming managed account was created "
                            ++ "previously. Re-checking SHOW MANAGED ACCOUNTS...")]
               ++ evs3,
               Err e)
          end
        else
          (env2,
           evs1 ++ creating_events P cur name admin_user admin_password
           ++ [EvPrint ("[provision] ERROR creating managed account: " ++ msg)],
           Err (SystemExit 1))
    | Some e =>
        (env2, evs1 ++ creating_events P cur name admin_user admin_password, Err e)
    end%list.
Proof.
  intros Hget Hexec. unfold ensure_managed_account. unfold mbind, M_bind.
  unfold bind at 1. rewrite Hget.
  unfold creating_events.
  munfold. rewrite Hexec.
  destruct res as [e|].
  - destruct e; try reflexivity.
    destruct (PyStr.contains "already exists" msg); [|reflexivity].
    destruct (get_managed_account P cur name env2) as [[env3 evs3] [[info|]|e]];
      cbn [app]; rewrite <- ?app_assoc; reflexivity.
  - destruct (get_managed_account P cur name env2) as [[env3 evs3] [[info|]|e]];
      cbn [app]; rewrite <- ?app_assoc, ?app_nil_r; reflexivity.
Qed.

(** C1.  [ensure_managed_account] starts with the lookup, which sends the
    [SHOW] statement and reads the rows.  When a row comes back, the record
    returned is made of the columns 0, 3 and 5 of the first row, the name,
    the locator and the URL of the account, and the [SHOW] of the lookup is
    the only statement sent.  On a miss the creation request is sent next.
    When that request fails with an ["already exists"] error the lookup is
    run again and its result returned; when this second lookup finds nothing
    the run ends with [SystemExit 1], the last line logged being the
    diagnostic that names [reader.account_name]. *)
Theorem ensure_managed_account_lookup_or_create (env : Env P) :
  (forall env1 env2 r0 rest a l u,
      execute P cur (show_managed_accounts_sql P name) env = (env1, None) ->
      fetchall P cur env1 = (env2, Ok (r0 :: rest)) ->
      Py.index r0 0 = Ok a -> Py.index r0 3 = Ok l -> Py.index r0 5 = Ok u ->
      exists evs,
        ensure_managed_account P cur name admin_user admin_password env
          = (env2, evs,
             Ok {| account_name := a; account_locator := l; account_url := u |})
        /\ statements evs = [show_managed_accounts_sql P name])
  /\ (forall env0 env' evs info,
        get_managed_account P cur name env0 = (env', evs, Ok info) ->
        statements evs = [show_managed_accounts_sql P name]
        /\ exists env1 rows,
             execute P cur (show_managed_accounts_sql P name) env0 = (env1, None)
             /\ fetchall P cur env1 = (env', Ok rows)
             /\ match info with
                | None => rows = []
                | Some i =>
                    exists r0 rest,
                      rows = r0 :: rest
                      /\ Py.index r0 0 = Ok (account_name i)
                      /\ Py.index r0 3 = Ok (account_locator i)
                      /\ Py.index r0 5 = Ok (account_url i)
                end)
  /\ (forall env1 evs1 info,
      get_managed_account P cur name env = (env1, evs1, Ok (Some info)) ->
      exists evs,
        ensure_managed_account P cur name admin_user admin_password env
          = (env1, evs1 ++ evs, Ok info)%list
        /\ statements (evs1 ++ evs) = [show_managed_accounts_sql P name])
  /\ (forall env1 evs1,
        get_managed_account P cur name env = (env1, evs1, Ok None) ->
        exists env' evs r,
          ensure_managed_account P cur name admin_user admin_password env
            = (env', evs1 ++ creating_events P cur name admin_user admin_password
                     ++ evs, r)%list)
  /\ (forall env1 evs1 env2 msg env3 evs3 again,
        get_managed_account P cur name env = (env1, evs1, Ok None) ->
        execute P cur (create_managed_account_sql P name admin_user admin_password)
          env1 = (env2, Some (ProgrammingError msg)) ->
        PyStr.contains "already exists" msg = true ->
        get_managed_account P cur name env2 = (env3, evs3, Ok again) ->
        exists pre post,
          ensure_managed_account P cur name admin_user admin_password env
            = (env3, pre ++ evs3 ++ post,
               match again with
               | Some info => Ok info
               | None => Err (SystemExit 1)
               end)%list
          /\ (again = None ->
              post = [EvPrint ("[provision] " ++ collision_message)]
              /\ PyStr.contains "reader.account_name" collision_message = true)).
Proof.
  split; [|split].
  { intros env1 env2 r0 rest a l u Hexec Hrows H0 H3 H5.
    destruct (get_managed_account_first_row _ _ _ _ _ _ _ _ _ _ Hexec Hrows H0 H3 H5)
      as (evs1 & Hget).
    eexists. split.
    - apply ensure_managed_account_found. exact Hget.
    - rewrite statements_app, (get_managed_account_statements _ _ _ _ _ _ Hget).
      reflexivity. }
  { intros env0 env' evs info Hget. split.
    - eapply get_managed_account_statements. exact Hget.
    - eapply get_managed_account_row. exact Hget. }
  split; [|split].
  - intros env1 evs1 info Hget. eexists. split.
    + apply ensure_managed_account_found. exact Hget.
    + rewrite statements_app, (get_managed_account_statements _ _ _ _ _ _ Hget).
      reflexivity.
  - intros env1 evs1 Hget.
    destruct (execute P cur (create_managed_account_sql P name admin_user admin_password)
                env1) as [env2 res] eqn:Hexec.
    rewrite (ensure_managed_account_miss _ _ _ _ _ Hget Hexec).
    destruct res as [e|].
    + destruct e; try (do 3 eexists; rewrite app_nil_r; reflexivity).
      destruct (PyStr.contains "already exists" msg);
        [destruct (get_managed_account P cur name env2) as [[env3 evs3] [[info|]|e]]|];
        do 3 eexists; reflexivity.
    + destruct (get_managed_account P cur name env2) as [[env3 evs3] [[info|]|e]];
        do 3 eexists; reflexivity.
  - intros env1 evs1 env2 msg env3 evs3 again Hget Hexec Hmsg Hagain.
    rewrite (ensure_managed_account_miss _ _ _ _ _ Hget Hexec), Hmsg, Hagain.
    destruct again as [info|].
    + eexists (evs1 ++ creating_events P cur name admin_user admin_password ++ [_])%list,
        _.
      split; [|discriminate]. rewrite <- !app_assoc. reflexivity.
    + eexists (evs1 ++ creating_events P cur name admin_user admin_password ++ [_])%list,
        _.
      split; [rewrite <- !app_assoc; reflexivity|]. intros _. split; reflexivity.
Qed.

(** An exception of the creation request that is not a [ProgrammingError]
    leaves [ensure_managed_account] as it came: nothing is logged after the
    request and the run is not turned into an exit. *)
Lemma ensure_managed_account_propagates env env1 evs1 env2 e :
  is_ProgrammingError e = false ->
  get_managed_account P cur name env = (env1, evs1, Ok None) ->
  execute P cur (create_managed_account_sql P name admin_user admin_password) env1
    = (env2, Some e) ->
  ensure_managed_account P cur name admin_user admin_password env
    = (env2, evs1 ++ creating_events P cur name admin_user admin_password, Err e)%list.
Proof.
  intros He Hget Hexec. rewrite (ensure_managed_account_miss _ _ _ _ _ Hget Hexec).
  destruct e; first [discriminate | reflexivity].
Qed.

End ManagedAccount.

(** C10.  The recovery from a duplicate applies to [ProgrammingError] only.
    When the creation request of [ensure_managed_account] or the [ALTER SHARE]
    of [ensure_share_has_account] raises any other exception, the helper
    stops at the failed statement: the statement is its last event (no
    diagnostic is logged), and its outcome is that very exception. *)
Theorem other_exceptions_propagate (P : platform) (cur : conn) (e : exn) :
  is_ProgrammingError e = false ->
  (forall name admin_user admin_password env env1 evs1 env2,
      get_managed_account P cur name env = (env1, evs1, Ok None) ->
      execute P cur (create_managed_account_sql P name admin_user admin_password) env1
        = (env2, Some e) ->
      ensure_managed_account P cur name admin_user admin_password env
        = (env2,
           evs1 ++ creating_events P cur name admin_user admin_password,
           Err e)%list)
  /\ (forall share_name locator env env1,
        execute P cur (alter_share_sql P share_name locator) env = (env1, Some e) ->
        ensure_share_has_account P cur share_name locator env
          = (env1,
             [EvPrint ("[provision] Ensuring account " ++ fmt P locator
                       ++ " is added to share " ++ fmt P share_name ++ "...");
              EvExecute cur (alter_share_sql P share_name locator)],
             Err e)).
Proof.
  intros He. split.
  - intros. eapply ensure_managed_account_propagates; eassumption.
  - intros share_name locator env env1 Hexec.
    rewrite (ensure_share_has_account_run _ _ _ _ _ _ _ Hexec).
    destruct e; first [discriminate | reflexivity].
Qed.


Lemma ensure_managed_account_lookup_or_create_witness :
  let call P :=
    ensure_managed_account P Provider (VStr "READER1") (VStr "radmin") (VStr "rpw") in
  let raced :=
    Demo.failing "CREATE MANAGED"
      (ProgrammingError "002002: Object 'READER1' already exists.") Demo.fresh in
  let collided := Demo.with_fetchall (fun _ => []) raced in
  snd (run Demo.existing (call _))
  = Ok {| account_name := VStr "READER1";
          account_locator := VStr "XY12345";
          account_url := VStr "https://orgx-reader1.snowflakecomputing.com" |}
  /\ (exists info, snd (run raced (call _)) = Ok info)
  /\ snd (run collided (call _)) = Err (SystemExit 1).
Proof.
  intros call raced collided. unfold call, run. split; [|split].
  - destruct (ensure_managed_account_lookup_or_create (scripted Demo.existing)
                Provider (VStr "READER1") (VStr "radmin") (VStr "rpw") [])
      as (Hfound & _).
    destruct (Hfound _ _ Demo.account_row [] _ _ _ eq_refl eq_refl eq_refl eq_refl
                eq_refl) as (evs & Hrun & _).
    rewrite Hrun. reflexivity.
  - destruct (ensure_managed_account_lookup_or_create (scripted raced)
                Provider (VStr "READER1") (VStr "radmin") (VStr "rpw") [])
      as (_ & _ & _ & _ & Hexists).
    destruct (Hexists _ _ _ _ _ _ (Some _) eq_refl eq_refl eq_refl eq_refl)
      as (pre & post & Hrun & _).
    rewrite Hrun. eexists. reflexivity.
  - destruct (ensure_managed_account_lookup_or_create (scripted collided)
                Provider (VStr "READER1") (VStr "radmin") (VStr "rpw") [])
      as (_ & _ & _ & _ & Hexists).
    destruct (Hexists _ _ _ _ _ _ None eq_refl eq_refl eq_refl eq_refl)
      as (pre & post & Hrun & _).
    rewrite Hrun. reflexivity.
Defined.

Lemma other_exceptions_propagate_witness :
  let lost := LibraryError "OperationalError" "250001: connection lost" in
  snd (run (Demo.failing "CREATE MANAGED" lost Demo.fresh)
         (ensure_managed_account _ Provider (VStr "READER1") (VStr "radmin")
            (VStr "rpw"))) = Err lost
  /\ snd (run (Demo.failing "ALTER SHARE" lost Demo.fresh)
            (ensure_share_has_account _ Provider (VStr "SH") (VStr "XY12345")))
     = Err lost.
Proof.
  intros lost. unfold run. split.
  - rewrite (proj1 (other_exceptions_propagate
                      (scripted (Demo.failing "CREATE MANAGED" lost Demo.fresh))
                      Provider lost eq_refl)
               (VStr "READER1") (VStr "radmin") (VStr "rpw") [] _ _ _ eq_refl eq_refl).
    reflexivity.
  - rewrite (proj2 (other_exceptions_propagate
                      (scripted (Demo.failing "ALTER SHARE" lost Demo.fresh))
                      Provider lost eq_refl)
               (VStr "SH") (VStr "XY12345") [] _ eq_refl).
    reflexivity.
Defined.

(** ** ensure_reader_user *)

(** A word is found in two texts joined by a character that the word does
    not have only where it is found in one of the two: no occurrence can
    straddle the joint. *)
Section JoinedTexts.

Variables (word : string) (c : ascii).
Hypothesis Hc : ~ In c (list_ascii_of_string word).



End JoinedTexts.



Section ReaderUser.

Context (P : platform).
Variables (cur : conn) (default_wh : pyval).

(** The empty configuration, and any other falsy value: nothing is sent. *)
Lemma ensure_reader_user_skip (user_cfg : pyval) (env : Env P) :
  Py.truthy user_cfg = false ->
  ensure_reader_user P cur user_cfg default_wh env =
    (env,
     [EvPrint "[provision] No reader_user section in config; skipping user creation."],
     Ok (VDict {[ "created" := VBool false ]})).
Proof. intros H. unfold ensure_reader_user. rewrite H. reflexivity. Qed.

Lemma truthy_dict (d : gmap string pyval) : d <> ∅ -> Py.truthy (VDict d) = true.
Proof. intros H. cbn. by rewrite bool_decide_eq_false_2. Qed.

(** The three keys are read before anything else happens. *)
Lemma ensure_reader_user_keys (d : gmap string pyval) (env : Env P) :
  d <> ∅ ->
  ensure_reader_user P cur (VDict d) default_wh env =
    match d !! "name", d !! "email", d !! "temp_password" with
    | None, _, _ => (env, [], Err (KeyError "name"))
    | Some _, None, _ => (env, [], Err (KeyError "email"))
    | Some _, Some _, None => (env, [], Err (KeyError "temp_password"))
    | Some name, Some email, Some temp_pw =>
        match execute P cur (show_users_sql P name) env with
        | (env1, Some e) =>
            (env1,
             [EvPrint ("[provision] Ensuring reader user '" ++ fmt P name
                       ++ "' exists...");
              EvExecute cur (show_users_sql P name)],
             Err e)
        | (env1, None) =>
            match fetchall P cur env1 with
            | (env2, Err e) =>
                (env2,
                 [EvPrint ("[provision] Ensuring reader user '" ++ fmt P name
                           ++ "' exists...");
                  EvExecute cur (show_users_sql P name);
                  EvFetchAll cur (Err e)],
                 Err e)
            | (env2, Ok []) =>
                match execute P cur (create_user_sql P name temp_pw default_wh email)
                        env2 with
                | (env3, res) =>
                    (env3,
                     [EvPrint ("[provision] Ensuring reader user '" ++ fmt P name
                               ++ "' exists...");
                      EvExecute cur (show_users_sql P name);
                      EvFetchAll cur (Ok []);
                      EvPrint ("[provision] User '" ++ fmt P name
                               ++ "' not found. Creating...");
                      EvExecute cur (create_user_sql P name temp_pw default_wh email)]
                     ++ match res with
                        | None =>
                            [EvPrint ("[provision] User '" ++ fmt P name
                                      ++ "' created with email " ++ fmt P email
                                      ++ ".")]
                        | Some _ => []
                        end,
                     match res with
                     | None =>
                         Ok (VDict (<[ "created" := VBool true ]>
                                   (<[ "name" := name ]>
                                   (<[ "email" := email ]>
                                   {[ "temp_password" := temp_pw ]}))))
                     | Some e => Err e
                     end)
                end
            | (env2, Ok (row :: rows)) =>
                match execute P cur (alter_user_sql P name email default_wh) env2 with
                | (env3, res) =>
                    (env3,
                     [EvPrint ("[provision] Ensuring reader user '" ++ fmt P name
                               ++ "' exists...");
                      EvExecute cur (show_users_sql P name);
                      EvFetchAll cur (Ok (row :: rows));
                      EvPrint ("[provision] User '" ++ fmt P name
                               ++ "' already exists. Updating email and default "
                               ++ "warehouse...");
                      EvExecute cur (alter_user_sql P name email default_wh)]
                     ++ match res with
                        | None =>
                            [EvPrint ("[provision] User '" ++ fmt P name
                                      ++ "' updated (EMAIL=" ++ fmt P email
                                      ++ ", DEFAULT_WAREHOUSE=" ++ fmt P default_wh
                                      ++ ").")]
                        | Some _ => []
                        end,
                     match res with
                     | None =>
                         Ok (VDict (<[ "created" := VBool false ]>
                                   (<[ "name" := name ]>
                                   {[ "email" := email ]})))
                     | Some e => Err e
                     end)
                end
            end
        end
    end%list.
Proof.
  intros Hd. unfold ensure_reader_user. rewrite (truthy_dict _ Hd). cbn [negb].
  unfold Py.getitem. munfold.
  destruct (d !! "name") as [name|]; [|reflexivity].
  destruct (d !! "email") as [email|]; [|reflexivity].
  destruct (d !! "temp_password") as [temp_pw|]; [|reflexivity].
  destruct (execute P cur (show_users_sql P name) env) as [env1 [e|]]; [reflexivity|].
  destruct (fetchall P cur env1) as [env2 [[|row rows]|e]]; [| |reflexivity].
  - destruct (execute P cur _ env2) as [env3 [e|]]; reflexivity.
  - destruct (execute P cur _ env2) as [env3 [e|]]; reflexivity.
Qed.



(** C9.  For a non-empty user configuration the keys [name], [email] and
    [temp_password] are read before anything is logged or sent.  A missing
    key is a [KeyError] raised with no event at all, whatever the state of
    the platform; in particular a configuration without [temp_password]
    fails so even when the user exists and the password would not be used.
    A run that returns normally is a run on a configuration with all three
    keys. *)
Theorem ensure_reader_user_reads_keys_first (d : gmap string pyval) (env : Env P) :
  d <> ∅ ->
  (d !! "name" = None \/ d !! "email" = None \/ d !! "temp_password" = None ->
   exists key,
     ensure_reader_user P cur (VDict d) default_wh env = (env, [], Err (KeyError key)))
  /\ (is_Some (d !! "name") -> is_Some (d !! "email") -> d !! "temp_password" = None ->
      ensure_reader_user P cur (VDict d) default_wh env
        = (env, [], Err (KeyError "temp_password")))
  /\ (forall env' evs v,
        ensure_reader_user P cur (VDict d) default_wh env = (env', evs, Ok v) ->
        is_Some (d !! "name") /\ is_Some (d !! "email")
        /\ is_Some (d !! "temp_password")).
Proof.
  intros Hd. rewrite (ensure_reader_user_keys d env Hd). split; [|split].
  - intros Hmiss.
    destruct (d !! "name"); [|eauto].
    destruct (d !! "email"); [|eauto].
    destruct (d !! "temp_password"); [|eauto].
    destruct Hmiss as [|[|]]; discriminate.
  - intros [name ->] [email ->] ->. reflexivity.
  - intros env' evs v.
    destruct (d !! "name"); [|discriminate].
    destruct (d !! "email"); [|discriminate].
    destruct (d !! "temp_password"); [|discriminate].
    intros _. eauto.
Qed.

End ReaderUser.



Lemma ensure_reader_user_reads_keys_first_witness :
  let exists_already := Demo.with_fetchall (fun _ => [[VStr "bob"]]) Demo.fresh in
  let cfg : gmap string pyval :=
    <[ "name" := VStr "bob" ]> {[ "email" := VStr "bob@example.com" ]} in
  run exists_already (ensure_reader_user _ Reader (VDict cfg) (VStr "WH"))
  = ([], Err (KeyError "temp_password")).
Proof.
  intros exists_already cfg. unfold run.
  assert (Hcfg : cfg <> ∅).
  { intros Hempty. apply (f_equal (fun m => m !! "name")) in Hempty.
    vm_compute in Hempty. discriminate. }
  rewrite (proj1 (proj2 (ensure_reader_user_reads_keys_first
                           (scripted exists_already) Reader (VStr "WH") cfg [] Hcfg))
             (ex_intro _ _ eq_refl) (ex_intro _ _ eq_refl) eq_refl).
  reflexivity.
Defined.

(** ** What a computation can emit *)

Section Emits.

Context (P : platform) (Q : event -> Prop).

Lemma emits_ret {A} (a : A) : emits P Q (ret P a).
Proof. intros env env' evs r [= <- <- <-]. constructor. Qed.

Lemma emits_raise {A} (e : exn) : emits P Q (@raise P A e).
Proof. intros env env' evs r [= <- <- <-]. constructor. Qed.

Lemma emits_lift {A} (x : result A) : emits P Q (lift P x).
Proof. intros env env' evs r [= <- <- <-]. constructor. Qed.

Lemma emits_emit (ev : event) : Q ev -> emits P Q (emit P ev).
Proof. intros HQ env env' evs r [= <- <- <-]. by repeat constructor. Qed.

Lemma emits_call (ev : event) f : Q ev -> emits P Q (call P ev f).
Proof.
  intros HQ env env' evs r. unfold call.
  destruct (f env) as [env1 [e|]]; intros [= <- <- <-]; by repeat constructor.
Qed.

Lemma emits_query {A} (ev : result A -> event) f :
  (forall x, Q (ev x)) -> emits P Q (query P ev f).
Proof.
  intros HQ env env' evs r. unfold query.
  destruct (f env) as [env1 x]. intros [= <- <- <-]. by repeat constructor.
Qed.

Lemma emits_bind {A B} (m : M P A) (k : A -> M P B) :
  emits P Q m -> (forall a, emits P Q (k a)) -> emits P Q (bind P m k).
Proof.
  intros Hm Hk env env' evs r. unfold bind.
  destruct (m env) as [[env1 evs1] [a|e]] eqn:Em.
  - destruct (k a env1) as [[env2 evs2] r2] eqn:Ek. intros [= <- <- <-].
    apply Forall_app. split; [eapply Hm | eapply Hk]; eassumption.
  - intros [= <- <- <-]. eapply Hm; eassumption.
Qed.

Lemma emits_try_except {A} (m : M P A) (h : exn -> option (M P A)) :
  emits P Q m -> (forall e m', h e = Some m' -> emits P Q m') ->
  emits P Q (try_except P m h).
Proof.
  intros Hm Hh env env' evs r. unfold try_except.
  destruct (m env) as [[env1 evs1] [a|e]] eqn:Em.
  - intros [= <- <- <-]. eapply Hm; eassumption.
  - destruct (h e) as [m'|] eqn:Eh.
    + destruct (m' env1) as [[env2 evs2] r2] eqn:Em'. intros [= <- <- <-].
      apply Forall_app. split; [eapply Hm | eapply Hh]; eassumption.
    + intros [= <- <- <-]. eapply Hm; eassumption.
Qed.

Lemma emits_on_Exception {A} (h : exn -> M P A) :
  (forall e, emits P Q (h e)) ->
  forall e m', on_Exception P h e = Some m' -> emits P Q m'.
Proof.
  intros Hh e m'. unfold on_Exception. destruct (Py.is_Exception e); [|discriminate].
  intros [= <-]. apply Hh.
Qed.

Lemma emits_on_ProgrammingError {A} (h : string -> M P A) :
  (forall msg, emits P Q (h msg)) ->
  forall e m', on_ProgrammingError P h e = Some m' -> emits P Q m'.
Proof.
  intros Hh e m'. unfold on_ProgrammingError. destruct e; try discriminate.
  intros [= <-]. apply Hh.
Qed.

Lemma emits_finally {A} (m : M P A) (cleanup : M P unit) :
  emits P Q m -> emits P Q cleanup -> emits P Q (finally P m cleanup).
Proof.
  intros Hm Hc env env' evs r. unfold finally.
  destruct (m env) as [[env1 evs1] r1] eqn:Em.
  destruct (cleanup env1) as [[env2 evs2] [[]|e]] eqn:Ec; intros [= <- <- <-];
    apply Forall_app; (split; [eapply Hm | eapply Hc]; eassumption).
Qed.

Lemma emits_for_each {A} (l : list A) (body : A -> M P unit) :
  (forall x, emits P Q (body x)) -> emits P Q (for_each P l body).
Proof.
  intros Hb. induction l as [|x l IH]; cbn [for_each].
  - apply emits_ret.
  - apply emits_bind; [apply Hb | intros _; exact IH].
Qed.

End Emits.

(** One structural step of a proof of [emits]. *)
Ltac emits_step :=
  lazymatch goal with
  | |- emits _ _ (ret _ _) => apply emits_ret
  | |- emits _ _ (mret _) => apply emits_ret
  | |- emits _ _ (raise _ _) => apply emits_raise
  | |- emits _ _ (sys_exit _ _) => apply emits_raise
  | |- emits _ _ (lift _ _) => apply emits_lift
  | |- emits _ _ (bind _ _ _) => apply emits_bind; [|intros ?]
  | |- emits _ _ (mbind _ _) => apply emits_bind; [|intros ?]
  | |- emits _ _ (try_except _ _ (on_Exception _ _)) =>
      apply emits_try_except; [|apply emits_on_Exception; intros ?]
  | |- emits _ _ (try_except _ _ (on_ProgrammingError _ _)) =>
      apply emits_try_except; [|apply emits_on_ProgrammingError; intros ?]
  | |- emits _ _ (finally _ _ _) => apply emits_finally
  | |- emits _ _ (with_server _ _) => apply emits_finally
  | |- emits _ _ (for_each _ _ _) => apply emits_for_each; intros ?
  | |- emits _ _ (log _ _) => apply emits_emit
  | |- emits _ _ (sleep _ _) => apply emits_emit
  | |- emits _ _ (emit _ _) => apply emits_emit
  | |- emits _ _ (cur_execute _ _ _) => apply emits_call
  | |- emits _ _ (smtp_do _ _) => apply emits_call
  | |- emits _ _ (call _ _ _) => apply emits_call
  | |- emits _ _ (cur_fetchall _ _) => apply emits_query; intros ?
  | |- emits _ _ (cur_fetchone _ _) => apply emits_query; intros ?
  | |- emits _ _ (query _ _ _) => apply emits_query; intros ?
  | |- emits _ _ (match ?x with _ => _ end) => destruct x
  end.


(** ** main *)

Section Main.

Context (P : platform).

Lemma bind_cong {A B} (m : M P A) (k1 k2 : A -> M P B) (env : Env P) :
  (forall env1 evs1 a, m env = (env1, evs1, Ok a) -> k1 a env1 = k2 a env1) ->
  bind P m k1 env = bind P m k2 env.
Proof.
  intros H. unfold bind. destruct (m env) as [[env1 evs1] [a|e]]; [|reflexivity].
  by rewrite (H _ _ _ eq_refl).
Qed.

Lemma bind_cong_l {A B} (m1 m2 : M P A) (k : A -> M P B) (env : Env P) :
  m1 env = m2 env -> bind P m1 k env = bind P m2 k env.
Proof. intros H. unfold bind. by rewrite H. Qed.

Lemma finally_cong {A} (m1 m2 : M P A) (cleanup : M P unit) (env : Env P) :
  m1 env = m2 env -> finally P m1 cleanup env = finally P m2 cleanup env.
Proof. intros H. unfold finally. by rewrite H. Qed.

Lemma load_config_run (path : string) (env env0 : Env P) (cfg : pyval) :
  yaml_safe_load P path env = (env0, Ok cfg) ->
  load_config P path env = (env0, [EvLoadYaml path], Ok cfg).
Proof. intros H. unfold load_config. munfold. rewrite H. reflexivity. Qed.

Lemma lift_Ok_inv {A} (x : result A) (env env' : Env P) evs (a : A) :
  lift P x env = (env', evs, Ok a) -> x = Ok a /\ env' = env /\ evs = [].
Proof. by intros [= -> -> ->]. Qed.

(** Without a [reader_user] section the notification step is not reached:
    the run is the same whatever the notification function is. *)
Lemma main_with_independent
  (notify1 notify2 : pyval -> pyval -> pyval -> pyval -> pyval -> M P unit)
  (d : gmap string pyval) (env env0 : Env P) :
  yaml_safe_load P "config.yaml" env = (env0, Ok (VDict d)) ->
  Py.truthy (default VNone (d !! "reader_user")) = false ->
  main_with P notify1 env = main_with P notify2 env.
Proof.
  intros Hload Hru. unfold main_with, mbind, M_bind.
  apply bind_cong. intros env1 evs1 cfg Hcfg.
  rewrite (load_config_run _ _ _ _ Hload) in Hcfg. injection Hcfg as <- <- <-.
  repeat first
    [ apply bind_cong; intros ? ? ? ?
    | apply bind_cong_l
    | apply finally_cong
    | match goal with
      | |- context [let '(_, _) := ?p in _] => destruct p
      end ].
  lazymatch goal with
  | H : lift P (Py.get (VDict d) "reader_user" VNone) _ = (_, _, Ok ?ru) |- _ =>
      apply lift_Ok_inv in H; destruct H as (Hget & _ & _);
      assert (ru = default VNone (d !! "reader_user")) as ->
        by (cbn in Hget; destruct (d !! "reader_user"); by injection Hget)
  end.
  lazymatch goal with
  | H : ensure_reader_user P Reader _ _ _ = _ |- _ =>
      rewrite (ensure_reader_user_skip P Reader _ _ _ Hru) in H;
      injection H as <- <- <-
  end.
  lazymatch goal with
  | H : _ = (_, _, Ok ?c) |- (if ?c then _ else _) _ = _ =>
      vm_compute in H; injection H as <- <- <-
  end.
  reflexivity.
Qed.

Lemma main_with_no_smtp
  (notify : pyval -> pyval -> pyval -> pyval -> pyval -> M P unit) :
  (forall a b c d e, emits P no_smtp (notify a b c d e)) ->
  emits P no_smtp (main_with P notify).
Proof.
  intros Hnotify.
  unfold main_with, load_config, fetchone_0, ensure_managed_account,
    get_managed_account, ensure_share_has_account, ensure_reader_user.
  repeat emits_step; try exact I; try apply Hnotify.
Qed.

(** C8.  When the loaded configuration has no [reader_user] section (or an
    empty one), [ensure_reader_user] sends no statement and returns a result
    whose [created] is [False]; [main] then never calls
    [send_credentials_email] (the run is the same with any other function in
    its place) and the run has no SMTP event. *)
Theorem no_reader_user_no_email (d : gmap string pyval) (env env0 : Env P) :
  yaml_safe_load P "config.yaml" env = (env0, Ok (VDict d)) ->
  Py.truthy (default VNone (d !! "reader_user")) = false ->
  (forall cur default_wh env1,
      ensure_reader_user P cur (default VNone (d !! "reader_user")) default_wh env1
      = (env1,
         [EvPrint "[provision] No reader_user section in config; skipping user creation."],
         Ok (VDict {[ "created" := VBool false ]})))
  /\ (forall notify, main_with P notify env = main P env)
  /\ (forall env' evs r, main P env = (env', evs, r) -> Forall no_smtp evs).
Proof.
  intros Hload Hru. split; [|split].
  - intros cur default_wh env1. by apply ensure_reader_user_skip.
  - intros notify. unfold main. eapply main_with_independent; eassumption.
  - intros env' evs r.
    unfold main.
    rewrite (main_with_independent _ (fun _ _ _ _ _ => ret P tt) d env env0 Hload Hru).
    apply main_with_no_smtp. intros. apply emits_ret.
Qed.

End Main.

Lemma no_reader_user_no_email_witness :
  let s := Demo.with_config (VDict Demo.base_config) Demo.fresh in
  snd (run s (main _)) = Ok tt
  /\ Forall no_smtp (fst (run s (main _))).
Proof.
  intros s.
  destruct (no_reader_user_no_email (scripted s) Demo.base_config [] _ eq_refl eq_refl)
    as (_ & _ & Hquiet).
  split; [vm_compute; reflexivity|].
  unfold run. destruct (main (scripted s) []) as [[env' evs] r].
  exact (Hquiet _ _ _ eq_refl).
Defined.

(** ** send_credentials_email *)

Lemma get_dict (d : gmap string pyval) (key : string) (dflt : pyval) :
  Py.get (VDict d) key dflt = Ok (default dflt (d !! key)).
Proof. cbn. by destruct (d !! key). Qed.

Section Credentials.

Context (P : platform).

Lemma smtp_settings_dict (d : gmap string pyval) (host : pyval) :
  d !! "host" = Some host ->
  smtp_settings (VDict d) =
    let use_ssl := Py.truthy (default (VBool false) (d !! "use_ssl")) in
    let use_tls := negb use_ssl && Py.truthy (default (VBool true) (d !! "use_tls")) in
    Ok (use_ssl, use_tls,
        port_or d (if use_ssl then 465 else if use_tls then 587 else 25)).
Proof.
  intros Hhost. unfold smtp_settings, port_or, configured_port, Py.get, Py.getitem.
  rewrite Hhost.
  destruct (d !! "use_ssl") as [ssl|]; cbn [default from_option id];
    [destruct (Py.truthy ssl)|cbn [Py.truthy]]; cbn [negb andb];
    try (destruct (d !! "use_tls") as [tls|]; cbn [default from_option id];
         [destruct (Py.truthy tls)|cbn [Py.truthy]]);
    destruct (d !! "port") as [[]|]; reflexivity.
Qed.

(** C6.  For an SMTP section with a host, the TLS mode and the port are
    derived in this order: a truthy [use_ssl] gives implicit TLS
    ([SMTP_SSL]), no STARTTLS, port 465; otherwise a truthy [use_tls], which
    is [True] when the key is absent, gives STARTTLS on port 587; otherwise
    the session is plain, on port 25.  In each of the three modes a
    configured port replaces the derived one.  Once the message is made,
    [send_credentials_email] opens the session with the constructor and the
    port so derived, and sends [STARTTLS] only in the second mode, where it
    follows the first [EHLO]; a message the library refuses is raised before
    any session is opened. *)
Theorem send_credentials_email_mode (d : gmap string pyval) (host : pyval) :
  d !! "host" = Some host ->
  Py.truthy host = true ->
  let ssl_flag := Py.truthy (default (VBool false) (d !! "use_ssl")) in
  let tls_flag := Py.truthy (default (VBool true) (d !! "use_tls")) in
  exists use_ssl use_tls port,
    smtp_settings (VDict d) = Ok (use_ssl, use_tls, port)
    /\ (ssl_flag = true ->
        use_ssl = true /\ use_tls = false /\ port = port_or d 465)
    /\ (ssl_flag = false -> tls_flag = true ->
        use_ssl = false /\ use_tls = true /\ port = port_or d 587)
    /\ (ssl_flag = false -> tls_flag = false ->
        use_ssl = false /\ use_tls = false /\ port = port_or d 25)
    /\ (d !! "use_tls" = None -> tls_flag = true)
    /\ (forall p n, d !! "port" = Some p -> p <> VNone -> port_or d n = p)
    /\ (forall n, d !! "port" = None -> port_or d n = VInt n)
    /\ (forall user_name user_email temp_password login_url env,
          let msg :=
            credentials_message P user_name user_email temp_password login_url
              (default VNone (d !! "from")) (default VNone (d !! "user")) in
          let open := if use_ssl then SMTP_SSL host port else SMTP host port in
          (forall cls text,
              message_error P msg = Some (cls, text) ->
              send_credentials_email P user_name user_email temp_password login_url
                (VDict d) env = (env, [], Err (LibraryError cls text)))
          /\ (message_error P msg = None ->
              exists env' rest r,
                send_credentials_email P user_name user_email temp_password login_url
                  (VDict d) env = (env', EvSmtp open :: rest, r)
                /\ (In (EvSmtp Starttls) rest -> use_tls = true)
                /\ (forall env1 env2,
                      use_tls = true ->
                      smtp P open env = (env1, None) ->
                      smtp P Ehlo env1 = (env2, None) ->
                      exists rest', rest = EvSmtp Ehlo :: EvSmtp Starttls :: rest'))).
Proof.
  intros Hhost Hthost ssl_flag tls_flag.
  do 3 eexists. split; [apply (smtp_settings_dict d host Hhost)|].
  fold ssl_flag. fold tls_flag.
  split; [intros ->; auto|]. split; [intros -> ->; auto|].
  split; [intros -> ->; auto|].
  split; [intros Hn; unfold tls_flag; rewrite Hn; reflexivity|].
  split.
  { intros p n Hp Hne. unfold port_or, configured_port. rewrite Hp.
    destruct p; first [reflexivity | contradiction]. }
  split.
  { intros n Hp. unfold port_or, configured_port. rewrite Hp. reflexivity. }
  intros user_name user_email temp_password login_url env msg.
  assert (Hd : d <> ∅) by (intros ->; by rewrite lookup_empty in Hhost).
  unfold send_credentials_email.
  rewrite (truthy_dict d Hd), (smtp_settings_dict d host Hhost), !get_dict.
  cbv zeta. fold ssl_flag. fold tls_flag. fold msg.
  generalize (port_or d (if ssl_flag then 465
                         else if negb ssl_flag && tls_flag then 587 else 25)).
  intros port.
  unfold Py.getitem. rewrite Hhost.
  cbn [default from_option id].
  unfold make_message. munfold. rewrite Hthost. cbn [negb].
  fold msg.
  destruct (message_error P msg) as [[cls text]|].
  { split; [|discriminate]. by intros cls' text' [= <- <-]. }
  split; [discriminate|]. intros _. clearbody msg.
  generalize (default VNone (d !! "user")), (default VNone (d !! "password")).
  intros user password.
  destruct ssl_flag, tls_flag; cbn [negb andb];
    repeat match goal with
      | |- context [smtp P ?a ?e] =>
          lazymatch e with
          | context [smtp] => fail
          | _ => destruct (smtp P a e) as [? [?|]] eqn:?
          end
      | |- context [Py.is_Exception ?e] => destruct (Py.is_Exception e)
      | |- context [Py.truthy ?v && _] => destruct (Py.truthy v)
      | |- context [if Py.truthy ?v then _ else _] => destruct (Py.truthy v)
      | |- _ => progress cbn [andb negb]
      end;
    (do 3 eexists; split; [reflexivity|]; split;
     [ intros Hin;
       first [ reflexivity
             | cbn [In] in Hin;
               repeat (destruct Hin as [Hin|Hin]; [discriminate|]);
               contradiction ]
     | intros env1 env2 Htls Hopen Hehlo;
       first [ discriminate
             | injection Hopen as <-;
               first [ match goal with
                       | H : smtp P Ehlo _ = (_, Some _) |- _ =>
                           rewrite H in Hehlo; discriminate
                       end
                     | eexists; reflexivity ] ] ]).
Qed.

End Credentials.

Lemma send_credentials_email_mode_witness :
  (exists rest r,
      run Demo.fresh
        (send_credentials_email _ (VStr "bob") (VStr "bob@example.com") (VStr "Temp#1")
           (VStr "https://orgx-reader1.snowflakecomputing.com") (VDict Demo.smtp_map))
      = (EvSmtp (SMTP (VStr "mail.example.com") (VInt 587))
           :: EvSmtp Ehlo :: EvSmtp Starttls :: rest, r))
  /\ exists text,
       run Demo.fresh
         (send_credentials_email _ (VStr "bob")
            (VStr ("bob@example.com" ++ PyStr.nl ++ "Bcc: eve@example.com"))
            (VStr "Temp#1") (VStr "https://orgx-reader1.snowflakecomputing.com")
            (VDict Demo.smtp_map))
       = ([], Err (LibraryError "ValueError" text)).
Proof.
  destruct (send_credentials_email_mode (scripted Demo.fresh) Demo.smtp_map
              (VStr "mail.example.com") eq_refl eq_refl)
    as (use_ssl & use_tls & port & _ & _ & Hmode & _ & _ & _ & Hport & Hsend).
  destruct (Hmode eq_refl eq_refl) as (-> & -> & ->).
  rewrite (Hport 587 eq_refl) in Hsend.
  split.
  - destruct (proj2 (Hsend (VStr "bob") (VStr "bob@example.com") (VStr "Temp#1")
                       (VStr "https://orgx-reader1.snowflakecomputing.com") [])
                eq_refl)
      as (env' & rest & r & Hrun & _ & Hstarttls).
    destruct (Hstarttls [] [] eq_refl eq_refl eq_refl) as (rest' & ->).
    exists rest', r. unfold run. rewrite Hrun. reflexivity.
  - eexists. unfold run.
    rewrite (proj1 (Hsend (VStr "bob")
                      (VStr ("bob@example.com" ++ PyStr.nl ++ "Bcc: eve@example.com"))
                      (VStr "Temp#1")
                      (VStr "https://orgx-reader1.snowflakecomputing.com") [])
               _ _ eq_refl).
    reflexivity.
Defined.

(** ** A complete run *)

Section MainRun.

Context (P : platform).

Lemma plain_statements (evs : list event) :
  Forall plain evs ->
  List.filter is_secure_view (statements evs) = []
  /\ List.filter is_grant_select (statements evs) = []
  /\ List.filter is_count (statements evs) = [].
Proof.
  induction 1 as [|ev evs Hev _ IH]; [done|].
  destruct ev; cbn [statements]; try exact IH.
  destruct Hev as (Hv & Hg & Hc). cbn [List.filter]. rewrite Hv, Hg, Hc. exact IH.
Qed.

Lemma startswith_app (p x : string) : PyStr.startswith p (p ++ x) = true.
Proof.
  unfold PyStr.startswith. induction p as [|c p IH].
  - by destruct x.
  - change (String c p ++ x) with (String c (p ++ x)). cbn [String.prefix].
    destruct (ascii_dec c c); [exact IH | done].
Qed.

Lemma ensure_managed_account_plain cur name au ap :
  emits P plain (ensure_managed_account P cur name au ap).
Proof.
  unfold ensure_managed_account, get_managed_account.
  repeat emits_step; try exact I; repeat split; reflexivity.
Qed.

Lemma ensure_share_has_account_plain cur share locator :
  emits P plain (ensure_share_has_account P cur share locator).
Proof.
  unfold ensure_share_has_account.
  repeat emits_step; try exact I; repeat split; reflexivity.
Qed.

Lemma ensure_reader_user_plain cur cfg wh :
  emits P plain (ensure_reader_user P cur cfg wh).
Proof.
  unfold ensure_reader_user.
  repeat emits_step; try exact I; repeat split; reflexivity.
Qed.

Lemma send_credentials_email_plain a b c d e :
  emits P plain (send_credentials_email P a b c d e).
Proof.
  unfold send_credentials_email, make_message.
  repeat emits_step; try exact I.
Qed.


Lemma bind_Ok_inv {A B} (m : M P A) (k : A -> M P B) env env' evs (b : B) :
  bind P m k env = (env', evs, Ok b) ->
  exists env1 evs1 a evs2,
    m env = (env1, evs1, Ok a) /\ k a env1 = (env', evs2, Ok b)
    /\ evs = (evs1 ++ evs2)%list.
Proof.
  unfold bind. destruct (m env) as [[env1 evs1] [a|e]]; [|discriminate].
  destruct (k a env1) as [[env2 evs2] r] eqn:Ek. intros [= <- <- ->].
  eauto 10.
Qed.

Lemma finally_Ok_inv {A} (m : M P A) (cleanup : M P unit) env env' evs (a : A) :
  finally P m cleanup env = (env', evs, Ok a) ->
  exists env1 evs1 evs2,
    m env = (env1, evs1, Ok a) /\ cleanup env1 = (env', evs2, Ok tt)
    /\ evs = (evs1 ++ evs2)%list.
Proof.
  unfold finally. destruct (m env) as [[env1 evs1] r].
  destruct (cleanup env1) as [[env2 evs2] [[]|e]] eqn:Ec; [|discriminate].
  intros [= <- <- ->]. by eexists _, _, _.
Qed.

Lemma emit_Ok_inv (ev : event) env env' evs (u : unit) :
  emit P ev env = (env', evs, Ok u) -> env' = env /\ evs = [ev].
Proof. by intros [= -> ->]. Qed.

Lemma call_Ok_inv (ev : event) f env env' evs (u : unit) :
  call P ev f env = (env', evs, Ok u) -> evs = [ev].
Proof. unfold call. destruct (f env) as [env1 [e|]]; by intros [= <- <-]. Qed.

Lemma query_Ok_inv {A} (ev : result A -> event) f env env' evs (a : A) :
  query P ev f env = (env', evs, Ok a) -> evs = [ev (Ok a)].
Proof. unfold query. destruct (f env) as [env1 r]. by intros [= <- <- ->]. Qed.

Lemma ret_Ok_inv {A} (a b : A) env env' evs :
  ret P a env = (env', evs, Ok b) -> a = b /\ env' = env /\ evs = [].
Proof. by intros [= -> -> ->]. Qed.

(** A connection attempt that lets the run go on has succeeded: the handler
    ends in [sys.exit]. *)
Lemma connect_Ok_inv (ev : event) f msg env env' evs (u : unit) :
  try_except P (call P ev f)
    (on_Exception P (fun e => bind P (log P (msg e)) (fun _ => sys_exit P 1)))
    env = (env', evs, Ok u) ->
  evs = [ev].
Proof.
  unfold try_except, call. destruct (f env) as [env1 [e|]].
  - unfold on_Exception. destruct (Py.is_Exception e); [|discriminate].
    unfold bind, log, emit, sys_exit, raise. discriminate.
  - by intros [= <- <-].
Qed.

Lemma fetchone_0_Ok_inv (c : conn) env env' evs (v : pyval) :
  fetchone_0 P c env = (env', evs, Ok v) ->
  exists r, evs = [EvFetchOne c (Ok (Some r))] /\ Py.index r 0 = Ok v.
Proof.
  unfold fetchone_0, mbind, M_bind. intros H.
  apply bind_Ok_inv in H. destruct H as (env1 & evs1 & [r|] & evs2 & Hq & Hk & ->).
  - apply query_Ok_inv in Hq. apply lift_Ok_inv in Hk. destruct Hk as (Hi & _ & ->).
    subst evs1. eauto.
  - discriminate.
Qed.

End MainRun.

(** One step of the inversion of a successful run. *)
Ltac inv_run :=
  match goal with
  | H : lift _ _ _ = (_, _, Ok _) |- _ =>
      apply lift_Ok_inv in H; destruct H as (H & -> & ->)
  | H : ret _ _ _ = (_, _, Ok _) |- _ =>
      apply ret_Ok_inv in H; destruct H as (? & -> & ->)
  | H : log _ _ _ = (_, _, Ok _) |- _ =>
      apply emit_Ok_inv in H; destruct H as (-> & ->)
  | H : emit _ _ _ = (_, _, Ok _) |- _ =>
      apply emit_Ok_inv in H; destruct H as (-> & ->)
  | H : cur_execute _ _ _ _ = (_, _, Ok _) |- _ =>
      apply call_Ok_inv in H; subst
  | H : try_except _ (call _ _ _) _ _ = (_, _, Ok _) |- _ =>
      apply connect_Ok_inv in H; subst
  | H : fetchone_0 _ _ _ = (_, _, Ok _) |- _ =>
      apply fetchone_0_Ok_inv in H; destruct H as (? & -> & H)
  | H : (let '(_, _) := ?p in _) _ = _ |- _ => destruct p
  | H : bind _ _ _ _ = (_, _, Ok _) |- _ =>
      apply bind_Ok_inv in H;
      let Hm := fresh "Hm" in
      destruct H as (? & ? & ? & ? & Hm & H & ->); cbv beta in H
  | H : finally _ _ _ _ = (_, _, Ok _) |- _ =>
      apply finally_Ok_inv in H;
      let Hc := fresh "Hc" in
      destruct H as (? & ? & ? & H & Hc & ->)
  end.

Section MainTheorem.

Context (P : platform).

Lemma is_secure_view_sql db schema sv src w :
  is_secure_view (secure_view_sql P db schema sv src w) = true.
Proof. apply startswith_app. Qed.

Lemma is_grant_select_sql db schema sv share :
  is_grant_select (grant_select_sql P db schema sv share) = true.
Proof. apply startswith_app. Qed.

Lemma is_count_sql sv : is_count (count_sql P sv) = true.
Proof. apply startswith_app. Qed.

Lemma app_peel {A} (a rest pre tail : list A) :
  rest = (pre ++ tail)%list -> (a ++ rest = (a ++ pre) ++ tail)%list.
Proof. intros ->. by rewrite app_assoc. Qed.

Lemma getitem_dict_Ok (m : gmap string pyval) (key : string) (v : pyval) :
  Py.getitem (VDict m) key = Ok v -> m !! key = Some v.
Proof. cbn. destruct (m !! key); by intros [= ->]. Qed.

Lemma cons_peel {A} (x : A) (rest pre tail : list A) :
  rest = (pre ++ tail)%list -> (x :: rest = (x :: pre) ++ tail)%list.
Proof. by intros ->. Qed.

Lemma filter_cons_true {A} (f : A -> bool) (x : A) (l : list A) :
  f x = true -> List.filter f (x :: l) = x :: List.filter f l.
Proof. intros H. cbn. by rewrite H. Qed.

Lemma filter_cons_false {A} (f : A -> bool) (x : A) (l : list A) :
  f x = false -> List.filter f (x :: l) = List.filter f l.
Proof. intros H. cbn. by rewrite H. Qed.

(** C7.  Take a configuration whose [data.objects] is a list of two entries
    and a run of [main] that completes.  Among all the statements of the run
    there are exactly two [CREATE OR REPLACE SECURE VIEW] statements, exactly
    two [GRANT SELECT ON VIEW ... TO SHARE] statements and exactly two
    [SELECT COUNT] queries, one per entry and in the order of the list; and
    the run ends with the two smoke tests, each made of the count query, the
    row fetched for it and the line that logs the first column of that row. *)
Theorem main_two_objects (d data : gmap string pyval) (o1 o2 : pyval)
  (env env0 env' : Env P) (evs : list event) :
  yaml_safe_load P "config.yaml" env = (env0, Ok (VDict d)) ->
  d !! "data" = Some (VDict data) ->
  data !! "objects" = Some (VList [o1; o2]) ->
  main P env = (env', evs, Ok tt) ->
  exists db schema share sv1 src1 where1 sv2 src2 where2,
    (data !! "provider_database" = Some db
     /\ data !! "shared_schema" = Some schema
     /\ (exists share_cfg,
           d !! "share" = Some share_cfg /\ Py.getitem share_cfg "name" = Ok share)
     /\ Py.getitem o1 "shared_view_name" = Ok sv1
     /\ Py.getitem o1 "source_table" = Ok src1
     /\ (exists w, Py.get o1 "view_where" VNone = Ok w
                   /\ normalize_where w = Ok where1)
     /\ Py.getitem o2 "shared_view_name" = Ok sv2
     /\ Py.getitem o2 "source_table" = Ok src2
     /\ (exists w, Py.get o2 "view_where" VNone = Ok w
                   /\ normalize_where w = Ok where2))
    /\ List.filter is_secure_view (statements evs)
       = [secure_view_sql P db schema sv1 src1 where1;
          secure_view_sql P db schema sv2 src2 where2]
    /\ List.filter is_grant_select (statements evs)
       = [grant_select_sql P db schema sv1 share;
          grant_select_sql P db schema sv2 share]
    /\ List.filter is_count (statements evs) = [count_sql P sv1; count_sql P sv2]
    /\ exists pre row1 count1 row2 count2,
         Py.index row1 0 = Ok count1
         /\ Py.index row2 0 = Ok count2
         /\ evs = (pre ++ count_events P sv1 row1 count1
                       ++ count_events P sv2 row2 count2
                       ++ closing_events)%list.
Proof.
  intros Hload Hdata Hobjects Hmain.
  unfold main, main_with, mbind, M_bind in Hmain.
  inv_run. rewrite (load_config_run _ _ _ _ _ Hload) in Hm. injection Hm as <- <- <-.
  do 36 inv_run.
  lazymatch goal with
  | H : Py.getitem (VDict d) "data" = Ok ?v |- _ =>
      cbn in H; rewrite Hdata in H; injection H as <-
  end.
  lazymatch goal with
  | H : configured_objects (VDict data) = Ok ?v |- _ =>
      unfold configured_objects, Py.get in H; rewrite Hobjects in H; injection H as <-
  end.
  cbn [for_each] in Hmain.
  repeat inv_run.
  lazymatch goal with
  | H : (_, _) = (_, _) |- _ => injection H as <- <-
  end.
  lazymatch goal with
  | H : match ?u with VStr _ => _ | _ => _ end _ = (_, _, Ok _) |- _ =>
      destruct u; try discriminate H; inv_run
  end.
  (* the same key read twice gives the same value *)
  repeat match goal with
         | H1 : ?t = Ok ?a, H2 : ?t = Ok ?b |- _ =>
             rewrite H1 in H2; injection H2 as <-
         end.
  (* the blocks that send none of the three kinds of statement *)
  repeat match goal with
         | H : ?m ?e = (_, ?evs, _) |- _ =>
             is_var evs;
             assert (Forall plain evs)
               by (refine ((_ : emits P plain m) _ _ _ _ H);
                   first [ apply ensure_managed_account_plain
                         | apply ensure_share_has_account_plain
                         | apply ensure_reader_user_plain
                         | repeat first [ apply send_credentials_email_plain
                                        | emits_step ]; try exact I ]);
             clear H
         end.
  repeat match goal with
         | H : Forall plain _ |- _ =>
             apply plain_statements in H; destruct H as (? & ? & ?)
         end.
  lazymatch goal with
  | |- context [statements ?E] => remember E as run_events eqn:Hevents
  end.
  rewrite <- ?app_assoc in Hevents. cbn [app] in Hevents.
  eassert (Hstatements : statements run_events = _).
  { rewrite Hevents.
    repeat first [ progress cbn [statements app] | rewrite statements_app ].
    reflexivity. }
  rewrite Hstatements.
  lazymatch goal with
  | Hdb : Py.getitem (VDict data) "provider_database" = Ok ?db,
    Hschema : Py.getitem (VDict data) "shared_schema" = Ok ?schema,
    Hshare : Py.getitem _ "name" = Ok ?share,
    Hsv1 : Py.getitem o1 "shared_view_name" = Ok ?sv1,
    Hsrc1 : Py.getitem o1 "source_table" = Ok ?src1,
    Hw1 : Py.get o1 "view_where" VNone = Ok ?w1,
    Hn1 : normalize_where ?w1 = Ok ?where1,
    Hsv2 : Py.getitem o2 "shared_view_name" = Ok ?sv2,
    Hsrc2 : Py.getitem o2 "source_table" = Ok ?src2,
    Hw2 : Py.get o2 "view_where" VNone = Ok ?w2,
    Hn2 : normalize_where ?w2 = Ok ?where2 |- _ =>
      exists db, schema, share, sv1, src1, where1, sv2, src2, where2
  end.
  split.
  { repeat lazymatch goal with
           | |- _ /\ _ => split
           | |- exists _, _ => eexists
           end;
      first [ eassumption | apply getitem_dict_Ok; eassumption ]. }
  split; [|split; [|split]].
  1-3: repeat match goal with
         | |- context [List.filter ?f (?x :: ?l)] =>
             first [ rewrite (filter_cons_true f x l)
                       by first [ apply is_secure_view_sql
                                | apply is_grant_select_sql
                                | apply is_count_sql ]
                   | rewrite (filter_cons_false f x l) by reflexivity ]
         | |- context [List.filter ?f (statements ?b ++ ?l)] =>
             rewrite (List.filter_app f (statements b) l)
         | H : List.filter ?f (statements ?b) = []
           |- context [List.filter ?f (statements ?b)] => rewrite H
         | |- _ => progress cbn [app List.filter]
         end;
       reflexivity.
  eexists _, _, _, _, _. split; [|split]; cycle 2.
  { rewrite Hevents. unfold count_events, closing_events. cbn [app].
    repeat first [ refine (eq_refl : _ = ([] ++ _)%list)
                 | apply cons_peel
                 | apply app_peel ]. }
  all: eassumption.
Qed.

End MainTheorem.

Lemma main_two_objects_witness :
  let s := Demo.with_config Demo.full_config Demo.fresh in
  let evs := fst (run s (main _)) in
  snd (run s (main _)) = Ok tt
  /\ List.filter is_secure_view (statements evs)
     = [secure_view_sql (scripted s) (VStr "DB") (VStr "SHARED") (VStr "V_ONE")
          (VStr "T_ONE") "WHERE x > 1";
        secure_view_sql (scripted s) (VStr "DB") (VStr "SHARED") (VStr "V_TWO")
          (VStr "T_TWO") ""]
  /\ List.filter is_grant_select (statements evs)
     = ["GRANT SELECT ON VIEW DB.SHARED.V_ONE TO SHARE SH";
        "GRANT SELECT ON VIEW DB.SHARED.V_TWO TO SHARE SH"]
  /\ List.filter is_count (statements evs)
     = ["SELECT COUNT(*) FROM V_ONE"; "SELECT COUNT(*) FROM V_TWO"].
Proof.
  intros s evs. subst evs. unfold run.
  assert (Hok : snd (main (scripted s) []) = Ok tt) by (vm_compute; reflexivity).
  destruct (main (scripted s) []) as [[env' evs] r] eqn:Hmain.
  cbn [fst snd] in Hok |- *. subst r. split; [reflexivity|].
  destruct (main_two_objects (scripted s) Demo.full_section Demo.data_section
              Demo.object1 Demo.object2 [] [] env' evs eq_refl eq_refl eq_refl Hmain)
    as (db & schema & share & sv1 & src1 & where1 & sv2 & src2 & where2
        & Hcfg & Hviews & Hgrants & Hcounts & _).
  destruct Hcfg as (Hdb & Hschema & (share_cfg & Hsc & Hshare) & Hsv1 & Hsrc1
                    & (w1 & Hw1 & Hn1) & Hsv2 & Hsrc2 & (w2 & Hw2 & Hn2)).
  vm_compute in Hdb, Hschema, Hsc, Hsv1, Hsrc1, Hw1, Hsv2, Hsrc2, Hw2.
  injection Hdb as <-. injection Hschema as <-. injection Hsc as <-.
  injection Hsv1 as <-. injection Hsrc1 as <-. injection Hw1 as <-.
  injection Hsv2 as <-. injection Hsrc2 as <-. injection Hw2 as <-.
  vm_compute in Hshare, Hn1, Hn2.
  injection Hshare as <-. injection Hn1 as <-. injection Hn2 as <-.
  rewrite Hviews, Hgrants, Hcounts. repeat split; reflexivity.
Defined.

Section MoreStringFacts.

Lemma prefix_nil_l (s : string) : String.prefix "" s = true.
Proof. by destruct s. Qed.

Lemma prefix_refl (s : string) : String.prefix s s = true.
Proof.
  induction s as [|c s IH]; [done|]. cbn [String.prefix].
  destruct (ascii_dec c c); [exact IH | done].
Qed.

Lemma prefix_cons_iff (a b : ascii) (s t : string) :
  String.prefix (String a s) (String b t) = true <-> a = b /\ String.prefix s t = true.
Proof.
  cbn [String.prefix]. destruct (ascii_dec a b) as [Heq|Hne]; split.
  - auto.
  - tauto.
  - discriminate.
  - intros [? _]. contradiction.
Qed.

Lemma prefix_trans (a b c : string) :
  String.prefix a b = true -> String.prefix b c = true -> String.prefix a c = true.
Proof.
  revert b c. induction a as [|x a IH]; intros b c; [intros; apply prefix_nil_l|].
  destruct b as [|y b]; [discriminate|]. destruct c as [|z c]; [discriminate|].
  rewrite !prefix_cons_iff. intros [-> Hab] [-> Hbc]. eauto.
Qed.

(** The text before the first separator is a prefix of the text. *)
Lemma before_first_prefix (sep s : string) :
  String.prefix (PyStr.before_first sep s) s = true.
Proof.
  induction s as [|c s IH]; cbn [PyStr.before_first].
  - by destruct (String.prefix sep "").
  - destruct (String.prefix sep (String c s)); [done|].
    apply prefix_cons_iff. done.
Qed.

Lemma contains_nil_r (sep : string) :
  PyStr.contains sep "" = String.prefix sep "".
Proof. cbn. by rewrite orb_false_r. Qed.

(** A text without the separator is left whole. *)
Lemma before_first_none (sep s : string) :
  PyStr.contains sep s = false -> PyStr.before_first sep s = s.
Proof.
  induction s as [|c s IH]; cbn [PyStr.contains PyStr.before_first]; intros H;
    apply orb_false_iff in H; destruct H as [Hp Hc]; rewrite Hp; [done|].
  by rewrite IH.
Qed.

(** What is found in a prefix is found in the whole. *)
Lemma contains_prefix_mono (sep a x : string) :
  String.prefix a x = true -> PyStr.contains sep a = true -> PyStr.contains sep x = true.
Proof.
  revert x. induction a as [|c a IH]; intros x Hax.
  - rewrite contains_nil_r. intros Hsep. destruct sep; [|discriminate].
    destruct x; reflexivity.
  - destruct x as [|y x]; [discriminate|]. apply prefix_cons_iff in Hax.
    destruct Hax as [<- Hax]. cbn [PyStr.contains]. intros H.
    apply orb_true_iff in H. apply orb_true_iff. destruct H as [H|H].
    + left. eapply prefix_trans; [exact H|]. by apply prefix_cons_iff.
    + right. eauto.
Qed.

(** The text before the first separator does not contain the separator. *)
Lemma before_first_no_sep (sep s : string) :
  sep <> "" -> PyStr.contains sep (PyStr.before_first sep s) = false.
Proof.
  intros Hsep. induction s as [|c s IH]; cbn [PyStr.before_first].
  - assert (String.prefix sep "" = false) as Hp by (by destruct sep).
    rewrite Hp. by rewrite contains_nil_r.
  - destruct (String.prefix sep (String c s)) eqn:Hp.
    + rewrite contains_nil_r. by destruct sep.
    + cbn [PyStr.contains]. rewrite IH, orb_false_r.
      destruct (String.prefix sep (String c (PyStr.before_first sep s))) eqn:Hq; [|done].
      rewrite <- Hp. symmetry. eapply prefix_trans; [exact Hq|].
      apply prefix_cons_iff. split; [done|]. apply before_first_prefix.
Qed.

Lemma contains_cons (sep : string) (x : ascii) (s : string) :
  PyStr.contains sep (String x s)
  = String.prefix sep (String x s) || PyStr.contains sep s.
Proof. reflexivity. Qed.

Lemma before_first_cons (sep : string) (x : ascii) (s : string) :
  PyStr.before_first sep (String x s)
  = if String.prefix sep (String x s) then ""
    else String x (PyStr.before_first sep s).
Proof. reflexivity. Qed.

Lemma prefix_single (c x : ascii) (s : string) :
  String.prefix (String c "") (String x s) = if ascii_dec c x then true else false.
Proof. cbn [String.prefix]. destruct (ascii_dec c x); [apply prefix_nil_l | done]. Qed.

(** A separator of one character: no occurrence can straddle two texts. *)
Lemma contains_single_app (c : ascii) (a b : string) :
  PyStr.contains (String c "") (a ++ b)
  = PyStr.contains (String c "") a || PyStr.contains (String c "") b.
Proof.
  induction a as [|x a IH].
  - cbn [String.append]. rewrite contains_nil_r. reflexivity.
  - change (String x a ++ b) with (String x (a ++ b)).
    rewrite !contains_cons, !prefix_single, IH. apply orb_assoc.
Qed.

Lemma before_first_single_app (c : ascii) (a b : string) :
  PyStr.contains (String c "") a = false ->
  PyStr.before_first (String c "") (a ++ b) = a ++ PyStr.before_first (String c "") b.
Proof.
  induction a as [|x a IH]; [reflexivity|].
  change (String x a ++ b) with (String x (a ++ b)).
  rewrite contains_cons, before_first_cons, !prefix_single.
  destruct (ascii_dec c x); [discriminate|].
  cbn [orb]. intros H. by rewrite IH.
Qed.

Lemma contains_of_prefix (sep x : string) :
  String.prefix sep x = true -> PyStr.contains sep x = true.
Proof.
  intros H. destruct x; [by rewrite contains_nil_r|].
  by rewrite contains_cons, H.
Qed.

Lemma before_first_of_prefix (sep x : string) :
  String.prefix sep x = true -> PyStr.before_first sep x = "".
Proof.
  intros H. destruct x; [by destruct sep|].
  by rewrite before_first_cons, H.
Qed.

Lemma contains_app_r (sep a b : string) :
  PyStr.contains sep (a ++ sep ++ b) = true.
Proof.
  induction a as [|x a IH].
  - change ("" ++ sep ++ b) with (sep ++ b).
    apply contains_of_prefix, (startswith_app sep b).
  - change (String x a ++ sep ++ b) with (String x (a ++ sep ++ b)).
    rewrite contains_cons, IH. apply orb_true_r.
Qed.

(** The domain does not overlap itself: an occurrence that starts inside [t]
    and ends inside a following domain lies inside [t]. *)
Lemma domain_no_overlap (t w : string) :
  String.prefix ".snowflakecomputing.com" (t ++ ".snowflakecomputing.com" ++ w) = true ->
  t = "" \/ String.prefix ".snowflakecomputing.com" t = true.
Proof.
  intros H. destruct t as [|c t]; [by left | right].
  cbn [String.append] in H.
  do 22 (apply prefix_cons_iff in H; destruct H as [<- H];
         apply prefix_cons_iff; split; [reflexivity|];
         (destruct t as [|c t]; [exfalso; vm_compute in H; discriminate|]);
         cbn [String.append] in H).
  apply prefix_cons_iff in H. destruct H as [<- H].
  apply prefix_cons_iff. split; [reflexivity | apply prefix_nil_l].
Qed.

Lemma before_first_domain_app (id w : string) :
  PyStr.contains ".snowflakecomputing.com" id = false ->
  PyStr.before_first ".snowflakecomputing.com" (id ++ ".snowflakecomputing.com" ++ w)
  = id.
Proof.
  induction id as [|c id IH]; intros Hid.
  - change ("" ++ ".snowflakecomputing.com" ++ w)
      with (".snowflakecomputing.com" ++ w).
    apply before_first_of_prefix, (startswith_app ".snowflakecomputing.com" w).
  - rewrite contains_cons in Hid. apply orb_false_iff in Hid. destruct Hid as [Hp Hc].
    change (String c id ++ ".snowflakecomputing.com" ++ w)
      with (String c (id ++ ".snowflakecomputing.com" ++ w)).
    rewrite before_first_cons.
    destruct (String.prefix ".snowflakecomputing.com"
                (String c (id ++ ".snowflakecomputing.com" ++ w))) eqn:Hq.
    + apply (domain_no_overlap (String c id) w) in Hq.
      destruct Hq as [|Hq]; [discriminate | congruence].
    + by rewrite IH.
Qed.

End MoreStringFacts.

(** ** account_identifier_from_url, continued *)

(** X1.  The identifier is a fixed point: it has no path separator and no
    domain left, and deriving an identifier from it gives it back. *)
Theorem account_identifier_from_url_idempotent (url : string) :
  PyStr.contains "/" (account_identifier_from_url url) = false
  /\ PyStr.contains ".snowflakecomputing.com" (account_identifier_from_url url) = false
  /\ account_identifier_from_url (account_identifier_from_url url)
     = account_identifier_from_url url.
Proof.
  assert (Hslash : PyStr.contains "/" (account_identifier_from_url url) = false).
  { unfold account_identifier_from_url. cbv zeta.
    set (h := PyStr.before_first "/" (strip_scheme url)).
    assert (Hh : PyStr.contains "/" h = false) by (by apply before_first_no_sep).
    destruct (PyStr.contains ".snowflakecomputing.com" h); [|exact Hh].
    destruct (PyStr.contains "/" (PyStr.before_first ".snowflakecomputing.com" h))
      eqn:Hc; [|reflexivity].
    rewrite <- Hh. symmetry.
    eapply contains_prefix_mono; [apply before_first_prefix | exact Hc]. }
  assert (Hdom : PyStr.contains ".snowflakecomputing.com"
                   (account_identifier_from_url url) = false).
  { unfold account_identifier_from_url. cbv zeta.
    set (h := PyStr.before_first "/" (strip_scheme url)).
    destruct (PyStr.contains ".snowflakecomputing.com" h) eqn:Hc; [|exact Hc].
    by apply before_first_no_sep. }
  split; [exact Hslash|]. split; [exact Hdom|].
  set (r := account_identifier_from_url url) in *.
  assert (Hscheme : strip_scheme r = r).
  { unfold strip_scheme, PyStr.startswith.
    destruct (String.prefix "https://" r) eqn:H1.
    { rewrite (contains_prefix_mono "/" "https://" r H1 eq_refl) in Hslash.
      discriminate. }
    destruct (String.prefix "http://" r) eqn:H2; [|reflexivity].
    rewrite (contains_prefix_mono "/" "http://" r H2 eq_refl) in Hslash.
    discriminate. }
  unfold account_identifier_from_url at 1. cbv zeta.
  rewrite Hscheme, (before_first_none "/" r Hslash), Hdom. reflexivity.
Qed.

(** X2.  Round trip: the URL of an account, with either scheme and whatever
    follows the domain (a port, a path), gives the identifier back, as long
    as the identifier has no ["/"] and does not itself contain the domain. *)
Theorem account_identifier_from_url_round_trip (id tail : string) :
  PyStr.contains "/" id = false ->
  PyStr.contains ".snowflakecomputing.com" id = false ->
  account_identifier_from_url ("https://" ++ id ++ ".snowflakecomputing.com" ++ tail)
  = id
  /\ account_identifier_from_url ("http://" ++ id ++ ".snowflakecomputing.com" ++ tail)
     = id.
Proof.
  intros Hslash Hdom.
  assert (Hcut : PyStr.before_first "/" (id ++ ".snowflakecomputing.com" ++ tail)
                 = id ++ ".snowflakecomputing.com" ++ PyStr.before_first "/" tail).
  { rewrite (before_first_single_app "/" id _ Hslash).
    rewrite (before_first_single_app "/" ".snowflakecomputing.com" tail eq_refl).
    reflexivity. }
  assert (Hid : forall x,
             strip_scheme x = id ++ ".snowflakecomputing.com" ++ tail ->
             account_identifier_from_url x = id).
  { intros x Hx. unfold account_identifier_from_url. cbv zeta.
    rewrite Hx, Hcut, contains_app_r. by apply before_first_domain_app. }
  split; apply Hid.
  - unfold strip_scheme.
    rewrite (startswith_app "https://"). reflexivity.
  - unfold strip_scheme.
    replace (PyStr.startswith "https://" ("http://" ++ _)) with false by reflexivity.
    rewrite (startswith_app "http://"). reflexivity.
Qed.

Lemma account_identifier_from_url_round_trip_witness :
  account_identifier_from_url
    "https://xy12345.us-east-1.aws.snowflakecomputing.com:443/console/login"
  = "xy12345.us-east-1.aws".
Proof.
  exact (proj1 (account_identifier_from_url_round_trip "xy12345.us-east-1.aws"
                  ":443/console/login" eq_refl eq_refl)).
Defined.

Section StripFacts.

Lemma rstrip_cons (c : ascii) (s : string) :
  PyStr.rstrip (String c s)
  = match PyStr.rstrip s with
    | "" => if PyStr.is_space c then "" else String c ""
    | r => String c r
    end.
Proof. reflexivity. Qed.

Lemma rstrip_idem (s : string) : PyStr.rstrip (PyStr.rstrip s) = PyStr.rstrip s.
Proof.
  induction s as [|c s IH]; [reflexivity|].
  rewrite rstrip_cons. destruct (PyStr.rstrip s) as [|x r] eqn:E.
  - destruct (PyStr.is_space c) eqn:Hc; [reflexivity|].
    rewrite rstrip_cons. cbn [PyStr.rstrip]. by rewrite Hc.
  - rewrite rstrip_cons, IH. reflexivity.
Qed.

Lemma strip_idem (s : string) : PyStr.strip (PyStr.strip s) = PyStr.strip s.
Proof.
  unfold PyStr.strip. rewrite lstrip_rstrip_fix. apply rstrip_idem.
Qed.

Lemma rstrip_app (x t : string) :
  PyStr.rstrip t <> "" -> PyStr.rstrip (x ++ t) = x ++ PyStr.rstrip t.
Proof.
  intros Ht. induction x as [|c x IH]; [reflexivity|].
  change (String c x ++ t) with (String c (x ++ t)).
  rewrite rstrip_cons, IH.
  change (String c x ++ PyStr.rstrip t) with (String c (x ++ PyStr.rstrip t)).
  destruct (x ++ PyStr.rstrip t) eqn:E; [|reflexivity].
  destruct x; [contradiction | discriminate].
Qed.

Lemma strip_WHERE (t : string) :
  PyStr.strip t = t -> t <> "" -> PyStr.strip ("WHERE " ++ t) = "WHERE " ++ t.
Proof.
  intros Ht Hne. unfold PyStr.strip.
  change (PyStr.lstrip ("WHERE " ++ t)) with ("WHERE " ++ t).
  assert (Hr : PyStr.rstrip t = t).
  { rewrite <- Ht. unfold PyStr.strip. apply rstrip_idem. }
  rewrite rstrip_app by (by rewrite Hr). by rewrite Hr.
Qed.

End StripFacts.

(** ** normalize_where, continued *)

(** X3.  [normalize_where] is idempotent: a filter that has been normalised
    is left as it is by a second normalisation, and it carries no white
    space at either end. *)
Theorem normalize_where_idempotent (v : pyval) (r : string) :
  normalize_where v = Ok r ->
  normalize_where (VStr r) = Ok r /\ PyStr.strip r = r.
Proof.
  assert (Hstr : forall s, normalize_where (VStr s) = Ok r ->
                           normalize_where (VStr r) = Ok r /\ PyStr.strip r = r).
  { intros s. rewrite !normalize_where_str.
    destruct (String.eqb (PyStr.strip s) "") eqn:He.
    { intros [= <-]. split; reflexivity. }
    apply String.eqb_neq in He.
    destruct (has_where_prefix (PyStr.strip s)) eqn:Hp; intros [= <-].
    - rewrite strip_idem, Hp.
      destruct (String.eqb_spec (PyStr.strip s) ""); [contradiction|].
      split; reflexivity.
    - rewrite (strip_WHERE (PyStr.strip s) (strip_idem s) He).
      rewrite has_where_prefix_WHERE. split; reflexivity. }
  unfold normalize_where at 1, Py.or.
  destruct (Py.truthy v) eqn:Hv.
  - destruct v; try discriminate. intros H. apply (Hstr s).
    unfold normalize_where, Py.or. rewrite Hv. exact H.
  - intros H. apply (Hstr ""). exact H.
Qed.

Lemma normalize_where_idempotent_witness :
  normalize_where (VStr "WHERE status = 'A'") = Ok "WHERE status = 'A'"
  /\ PyStr.strip "WHERE status = 'A'" = "WHERE status = 'A'".
Proof.
  exact (normalize_where_idempotent (VStr "  status = 'A' ") "WHERE status = 'A'"
           eq_refl).
Defined.

(** ** The configured objects *)

(** X5.  The objects [main] works on are never an empty list.  A non-empty
    list under [objects] is used as it is; an empty list or a value that is
    not a list counts as no [objects] at all, and the single legacy object
    is then built from [shared_view_name] and [source_table], whose absence
    is a [KeyError], and from the optional [view_where]. *)
Theorem configured_objects_spec (d : gmap string pyval) :
  (forall objects, configured_objects (VDict d) = Ok objects -> objects <> [])
  /\ (forall o l, d !! "objects" = Some (VList (o :: l)) ->
                  configured_objects (VDict d) = Ok (o :: l))
  /\ (forall v, d !! "objects" = Some v -> (forall o l, v <> VList (o :: l)) ->
                configured_objects (VDict d)
                = configured_objects (VDict (delete "objects" d)))
  /\ (d !! "objects" = None ->
      configured_objects (VDict d)
      = match d !! "shared_view_name", d !! "source_table" with
        | None, _ => Err (KeyError "shared_view_name")
        | Some _, None => Err (KeyError "source_table")
        | Some sv, Some src =>
            Ok [VDict (<[ "shared_view_name" := sv ]>
                      (<[ "source_table" := src ]>
                      {[ "view_where" := default VNone (d !! "view_where") ]}))]
        end).
Proof.
  assert (Hlegacy : d !! "objects" = None ->
      configured_objects (VDict d)
      = match d !! "shared_view_name", d !! "source_table" with
        | None, _ => Err (KeyError "shared_view_name")
        | Some _, None => Err (KeyError "source_table")
        | Some sv, Some src =>
            Ok [VDict (<[ "shared_view_name" := sv ]>
                      (<[ "source_table" := src ]>
                      {[ "view_where" := default VNone (d !! "view_where") ]}))]
        end).
  { intros Hnone. unfold configured_objects. rewrite !get_dict, Hnone.
    cbn [default from_option id Py.getitem].
    destruct (d !! "shared_view_name"); [|reflexivity].
    destruct (d !! "source_table"); reflexivity. }
  assert (Hother : forall v, d !! "objects" = Some v ->
                             (forall o l, v <> VList (o :: l)) ->
      configured_objects (VDict d)
      = configured_objects (VDict (delete "objects" d))).
  { intros v Hv Hnot. unfold configured_objects. rewrite !get_dict.
    rewrite lookup_delete_eq, Hv. cbn [default from_option id Py.getitem].
    rewrite !lookup_delete_ne by done.
    destruct v as [| | | |[|o l]|]; try reflexivity. by destruct (Hnot o l). }
  split; [|split; [|split]]; [| |exact Hother|exact Hlegacy].
  - intros objects. unfold configured_objects. rewrite !get_dict.
    cbn [Py.getitem].
    destruct (default VNone (d !! "objects")) as [| | | |[|o l]|];
      repeat case_match; intros [= <-]; discriminate.
  - intros o l Hobjects. unfold configured_objects. rewrite get_dict, Hobjects.
    reflexivity.
Qed.

Lemma configured_objects_spec_witness :
  let legacy : gmap string pyval :=
    <[ "objects" := VList [] ]>
    (<[ "shared_view_name" := VStr "V" ]> {[ "source_table" := VStr "T" ]}) in
  configured_objects (VDict legacy)
  = Ok [VDict (<[ "shared_view_name" := VStr "V" ]>
              (<[ "source_table" := VStr "T" ]> {[ "view_where" := VNone ]}))].
Proof.
  intros legacy.
  destruct (configured_objects_spec legacy) as (_ & _ & Hempty & _).
  rewrite (Hempty (VList []) eq_refl) by discriminate.
  destruct (configured_objects_spec (delete "objects" legacy)) as (_ & _ & _ & Hlegacy).
  rewrite (Hlegacy eq_refl). reflexivity.
Defined.

(** ** load_config, the lookup and the account, continued *)

Section Helpers.

Context (P : platform).

(** X6.  An unreadable or invalid configuration file is fatal: the error is
    logged with the path of the file and the run ends with [SystemExit 1]; a
    configuration that loads is returned without a line of log. *)
Theorem load_config_outcome (path : string) (env env0 : Env P) (res : result pyval) :
  yaml_safe_load P path env = (env0, res) ->
  (forall cfg, res = Ok cfg ->
               load_config P path env = (env0, [EvLoadYaml path], Ok cfg))
  /\ (forall e, res = Err e -> Py.is_Exception e = true ->
        load_config P path env
        = (env0,
           [EvLoadYaml path;
            EvPrint ("[provision] ERROR: Failed to read config file '" ++ path
                     ++ "': " ++ Py.exn_str e)],
           Err (SystemExit 1))).
Proof.
  intros Hload. split.
  - intros cfg ->. by apply load_config_run.
  - intros e -> He. unfold load_config. munfold. rewrite Hload, He. reflexivity.
Qed.

(** X7.  A first row with fewer than six columns cannot be read: the lookup
    fails with [IndexError] once its statement has been sent, and
    [ensure_managed_account] fails with it, without any creation request. *)
Theorem ensure_managed_account_short_row
  (cur : conn) (name admin_user admin_password : pyval)
  (env env1 env2 : Env P) (r0 : row) (rows : list row) :
  execute P cur (show_managed_accounts_sql P name) env = (env1, None) ->
  fetchall P cur env1 = (env2, Ok (r0 :: rows)) ->
  (length r0 < 6)%nat ->
  exists msg evs,
    get_managed_account P cur name env = (env2, evs, Err (IndexError msg))
    /\ ensure_managed_account P cur name admin_user admin_password env
       = (env2, evs, Err (IndexError msg))
    /\ statements evs = [show_managed_accounts_sql P name].
Proof.
  intros Hexec Hfetch Hlen.
  assert (H5 : Py.index r0 5 = Err (IndexError "tuple index out of range")).
  { unfold Py.index. rewrite (lookup_ge_None_2 r0 5) by lia. reflexivity. }
  assert (Hget : exists msg evs,
             get_managed_account P cur name env = (env2, evs, Err (IndexError msg))).
  { unfold get_managed_account. munfold. rewrite Hexec, Hfetch, H5.
    unfold Py.index.
    destruct (r0 !! 0%nat), (r0 !! 3%nat); eauto. }
  destruct Hget as (msg & evs & Hget). exists msg, evs.
  split; [exact Hget|]. split.
  - by apply ensure_managed_account_lookup_error.
  - eapply get_managed_account_statements. exact Hget.
Qed.

(** X8.  Whatever happens, [ensure_managed_account] sends at most three
    statements, a lookup, the creation request after it and a second lookup;
    the creation request is sent at most once.  A record it returns is one
    that a lookup has read back from the platform. *)
Theorem ensure_managed_account_statements
  (cur : conn) (name admin_user admin_password : pyval)
  (env env' : Env P) (evs : list event) (r : result managed_account) :
  ensure_managed_account P cur name admin_user admin_password env = (env', evs, r) ->
  let show := show_managed_accounts_sql P name in
  let create := create_managed_account_sql P name admin_user admin_password in
  (statements evs = [show] \/ statements evs = [show; create]
   \/ statements evs = [show; create; show])
  /\ (forall info, r = Ok info ->
        exists env1 env2 evs1,
          get_managed_account P cur name env1 = (env2, evs1, Ok (Some info))).
Proof.
  intros Hrun show create.
  destruct (get_managed_account P cur name env) as [[env1 evs1] [[info|]|e]] eqn:Hget.
  - rewrite (ensure_managed_account_found _ _ _ _ _ _ _ _ _ Hget) in Hrun.
    injection Hrun as <- <- <-. split.
    + left. rewrite statements_app, (get_managed_account_statements _ _ _ _ _ _ _ Hget).
      reflexivity.
    + intros info' [= <-]. eauto.
  - destruct (execute P cur create env1) as [env2 res] eqn:Hexec.
    rewrite (ensure_managed_account_miss _ _ _ _ _ _ _ _ _ _ Hget Hexec) in Hrun.
    pose proof (get_managed_account_statements _ _ _ _ _ _ _ Hget) as Hs1.
    unfold creating_events in Hrun.
    destruct res as [e|].
    + destruct e;
        try (injection Hrun as <- <- <-; split;
             [right; left; rewrite statements_app, Hs1; reflexivity | discriminate]).
      destruct (PyStr.contains "already exists" msg).
      * destruct (get_managed_account P cur name env2) as [[env3 evs3] [[info|]|e]]
          eqn:Hget2;
          pose proof (get_managed_account_statements _ _ _ _ _ _ _ Hget2) as Hs2;
          injection Hrun as <- <- <-; (split;
            [ right; right;
              rewrite ?statements_app, Hs1; cbn [statements app];
              rewrite ?statements_app, Hs2; reflexivity
            | first [discriminate | intros info' [= <-]; eauto] ]).
      * injection Hrun as <- <- <-. split;
          [right; left; rewrite statements_app, Hs1; reflexivity | discriminate].
    + destruct (get_managed_account P cur name env2) as [[env3 evs3] [[info|]|e]]
        eqn:Hget2;
        pose proof (get_managed_account_statements _ _ _ _ _ _ _ Hget2) as Hs2;
        injection Hrun as <- <- <-; (split;
          [ right; right;
            rewrite ?statements_app, Hs1; cbn [statements app];
            rewrite ?statements_app, Hs2; reflexivity
          | first [discriminate | intros info' [= <-]; eauto] ]).
  - rewrite (ensure_managed_account_lookup_error _ _ _ _ _ _ _ _ _ Hget) in Hrun.
    injection Hrun as <- <- <-. split; [|discriminate].
    left. eapply get_managed_account_statements. exact Hget.
Qed.

(** X9.  After a creation request that the platform accepts, the helper
    waits five seconds and looks the account up once more; the record found
    is returned, and an account that still does not show up ends the run
    with [SystemExit 1].  A creation request refused with a
    [ProgrammingError] that does not say ["already exists"] is logged and
    fatal, too. *)
Theorem ensure_managed_account_creation
  (cur : conn) (name admin_user admin_password : pyval)
  (env env1 env2 : Env P) (evs1 : list event) (res : option exn) :
  get_managed_account P cur name env = (env1, evs1, Ok None) ->
  execute P cur (create_managed_account_sql P name admin_user admin_password) env1
    = (env2, res) ->
  (res = None ->
   forall env3 evs3 again,
     get_managed_account P cur name env2 = (env3, evs3, Ok again) ->
     exists post,
       ensure_managed_account P cur name admin_user admin_password env
       = (env3,
          evs1 ++ creating_events P cur name admin_user admin_password
          ++ [EvPrint "[provision] CREATE MANAGED ACCOUNT executed."; EvSleep 5]
          ++ evs3 ++ post,
          match again with
          | Some info => Ok info
          | None => Err (SystemExit 1)
          end)%list)
  /\ (forall msg,
        res = Some (ProgrammingError msg) ->
        PyStr.contains "already exists" msg = false ->
        ensure_managed_account P cur name admin_user admin_password env
        = (env2,
           evs1 ++ creating_events P cur name admin_user admin_password
           ++ [EvPrint ("[provision] ERROR creating managed account: " ++ msg)],
           Err (SystemExit 1))%list).
Proof.
  intros Hget Hexec.
  rewrite (ensure_managed_account_miss _ _ _ _ _ _ _ _ _ _ Hget Hexec). split.
  - intros -> env3 evs3 again Hagain. rewrite Hagain.
    destruct again; eexists; [by rewrite app_nil_r | reflexivity].
  - intros msg -> ->. reflexivity.
Qed.

(** X10.  The administrator's name and password are used by the creation
    request only: when the account is found by the first lookup, the run is
    the same whatever credentials are passed. *)
Theorem ensure_managed_account_credentials_unused
  (cur : conn) (name : pyval) (env env1 : Env P) (evs1 : list event)
  (info : managed_account) :
  get_managed_account P cur name env = (env1, evs1, Ok (Some info)) ->
  forall user1 password1 user2 password2,
    ensure_managed_account P cur name user1 password1 env
    = ensure_managed_account P cur name user2 password2 env.
Proof.
  intros Hget user1 password1 user2 password2.
  by rewrite !(ensure_managed_account_found _ _ _ _ _ _ _ _ _ Hget).
Qed.

(** ** ensure_reader_user, continued *)

(** X11.  A call of [ensure_reader_user] that returns has taken one of three
    paths.  Without a configuration nothing is sent.  When the user was
    missing, the lookup and one [CREATE USER] carrying the temporary
    password were sent, and the result has [created] [True] with that
    password.  When the user existed, the lookup and one [ALTER USER] were
    sent, and the result has [created] [False] and no password. *)
Theorem ensure_reader_user_paths (cur : conn) (user_cfg default_wh : pyval)
  (env env' : Env P) (evs : list event) (v : pyval) :
  ensure_reader_user P cur user_cfg default_wh env = (env', evs, Ok v) ->
  (Py.truthy user_cfg = false /\ statements evs = []
   /\ v = VDict {[ "created" := VBool false ]})
  \/ (exists name email temp_pw,
        Py.getitem user_cfg "name" = Ok name
        /\ Py.getitem user_cfg "email" = Ok email
        /\ Py.getitem user_cfg "temp_password" = Ok temp_pw
        /\ ((statements evs
             = [show_users_sql P name; create_user_sql P name temp_pw default_wh email]
             /\ v = VDict (<[ "created" := VBool true ]>
                          (<[ "name" := name ]>
                          (<[ "email" := email ]>
                          {[ "temp_password" := temp_pw ]}))))
            \/ (statements evs
                = [show_users_sql P name; alter_user_sql P name email default_wh]
                /\ v = VDict (<[ "created" := VBool false ]>
                             (<[ "name" := name ]> {[ "email" := email ]}))))).
Proof.
  destruct (Py.truthy user_cfg) eqn:Ht.
  - destruct user_cfg as [| | | | |d]; try discriminate;
      try (unfold ensure_reader_user; rewrite Ht; cbn [negb Py.getitem];
           munfold; discriminate).
    assert (Hd : d <> ∅).
    { intros ->. cbn in Ht. by rewrite bool_decide_eq_true_2 in Ht. }
    rewrite (ensure_reader_user_keys P cur default_wh d env Hd).
    cbn [Py.getitem].
    destruct (d !! "name") as [name|]; [|discriminate].
    destruct (d !! "email") as [email|]; [|discriminate].
    destruct (d !! "temp_password") as [temp_pw|]; [|discriminate].
    destruct (execute P cur (show_users_sql P name) env) as [env1 [e|]];
      [discriminate|].
    destruct (fetchall P cur env1) as [env2 [[|r0 rows]|e]]; [| |discriminate].
    + destruct (execute P cur _ env2) as [env3 [e|]]; [discriminate|].
      intros [= <- <- <-]. right. exists name, email, temp_pw.
      repeat split; try reflexivity. left. split; reflexivity.
    + destruct (execute P cur _ env2) as [env3 [e|]]; [discriminate|].
      intros [= <- <- <-]. right. exists name, email, temp_pw.
      repeat split; try reflexivity. right. split; reflexivity.
  - rewrite (ensure_reader_user_skip P cur default_wh user_cfg env Ht).
    intros [= <- <- <-]. left. repeat split; reflexivity.
Qed.

End Helpers.

Lemma load_config_outcome_witness :
  let missing :=
    {| sc_config := Err (LibraryError "FileNotFoundError"
                           "[Errno 2] No such file or directory: 'config.yaml'");
       sc_connect := sc_connect Demo.fresh; sc_execute := sc_execute Demo.fresh;
       sc_fetchall := sc_fetchall Demo.fresh; sc_fetchone := sc_fetchone Demo.fresh;
       sc_smtp := sc_smtp Demo.fresh |} in
  snd (run missing (load_config _ "config.yaml")) = Err (SystemExit 1).
Proof.
  intros missing. unfold run.
  rewrite (proj2 (load_config_outcome (scripted missing) "config.yaml" [] _ _ eq_refl)
             _ eq_refl eq_refl).
  reflexivity.
Defined.

Lemma ensure_managed_account_short_row_witness :
  let short := Demo.with_fetchall (fun _ => [[VStr "READER1"; VStr "aws"]]) Demo.fresh in
  exists msg evs,
    run short (ensure_managed_account _ Provider (VStr "READER1") (VStr "radmin")
                 (VStr "rpw")) = (evs, Err (IndexError msg))
    /\ statements evs = [show_managed_accounts_sql (scripted short) (VStr "READER1")].
Proof.
  intros short.
  destruct (ensure_managed_account_short_row (scripted short) Provider (VStr "READER1")
              (VStr "radmin") (VStr "rpw") [] _ _ _ _ eq_refl eq_refl
              ltac:(cbn; lia))
    as (msg & evs & _ & Hrun & Hsent).
  exists msg, evs. unfold run. rewrite Hrun. split; [reflexivity | exact Hsent].
Defined.

Lemma ensure_managed_account_statements_witness :
  let sent := statements (fst (run Demo.fresh
                (ensure_managed_account _ Provider (VStr "READER1") (VStr "radmin")
                   (VStr "rpw")))) in
  sent = [show_managed_accounts_sql (scripted Demo.fresh) (VStr "READER1")]
  \/ sent = [show_managed_accounts_sql (scripted Demo.fresh) (VStr "READER1");
             create_managed_account_sql (scripted Demo.fresh) (VStr "READER1")
               (VStr "radmin") (VStr "rpw")]
  \/ sent = [show_managed_accounts_sql (scripted Demo.fresh) (VStr "READER1");
             create_managed_account_sql (scripted Demo.fresh) (VStr "READER1")
               (VStr "radmin") (VStr "rpw");
             show_managed_accounts_sql (scripted Demo.fresh) (VStr "READER1")].
Proof.
  intros sent. subst sent. unfold run.
  destruct (ensure_managed_account (scripted Demo.fresh) Provider (VStr "READER1")
              (VStr "radmin") (VStr "rpw") []) as [[env' evs] r] eqn:Hrun.
  exact (proj1 (ensure_managed_account_statements (scripted Demo.fresh) Provider
                  (VStr "READER1") (VStr "radmin") (VStr "rpw") [] env' evs r Hrun)).
Defined.

Lemma ensure_managed_account_creation_witness :
  exists evs info,
    run Demo.fresh
      (ensure_managed_account _ Provider (VStr "READER1") (VStr "radmin") (VStr "rpw"))
    = (evs, Ok info)
    /\ In (EvSleep 5) evs.
Proof.
  destruct (proj1 (ensure_managed_account_creation (scripted Demo.fresh) Provider
                     (VStr "READER1") (VStr "radmin") (VStr "rpw")
                     [] _ _ _ _ eq_refl eq_refl)
              eq_refl _ _ (Some _) eq_refl) as (post & Hrun).
  do 2 eexists. unfold run. rewrite Hrun. split; [reflexivity|].
  apply in_or_app. right. apply in_or_app. right. right. left. reflexivity.
Defined.

Lemma ensure_managed_account_credentials_unused_witness :
  run Demo.existing
    (ensure_managed_account _ Provider (VStr "READER1") (VStr "radmin") (VStr "rpw"))
  = run Demo.existing
      (ensure_managed_account _ Provider (VStr "READER1") (VStr "other") (VStr "secret")).
Proof.
  unfold run.
  rewrite (ensure_managed_account_credentials_unused (scripted Demo.existing) Provider
             (VStr "READER1") [] _ _ _ eq_refl
             (VStr "radmin") (VStr "rpw") (VStr "other") (VStr "secret")).
  reflexivity.
Defined.

Lemma ensure_reader_user_paths_witness :
  exists evs v,
    run Demo.fresh (ensure_reader_user _ Reader Demo.reader_user (VStr "WH"))
    = (evs, Ok v)
    /\ length (statements evs) = 2%nat.
Proof.
  destruct (ensure_reader_user (scripted Demo.fresh) Reader Demo.reader_user
              (VStr "WH") []) as [[env' evs] [v|e]] eqn:Hrun;
    [|vm_compute in Hrun; discriminate].
  exists evs, v. unfold run. rewrite Hrun. split; [reflexivity|].
  destruct (ensure_reader_user_paths (scripted Demo.fresh) Reader Demo.reader_user
              (VStr "WH") [] env' evs v Hrun)
    as [(Hfalsy & _)|(name & email & temp_pw & _ & _ & _ & [(-> & _)|(-> & _)])].
  - vm_compute in Hfalsy. discriminate.
  - reflexivity.
  - reflexivity.
Defined.

Section Credentials2.

Context (P : platform).

Lemma emits_bind_lift (Q : event -> Prop) {A B} (x : result A) (k : A -> M P B) :
  (forall a, x = Ok a -> emits P Q (k a)) -> emits P Q (bind P (lift P x) k).
Proof.
  intros Hk env env' evs r. unfold bind, lift. destruct x as [a|e].
  - destruct (k a env) as [[env2 evs2] r2] eqn:Ek. intros [= <- <- <-].
    cbn [app]. eapply (Hk a eq_refl). exact Ek.
  - intros [= <- <- <-]. constructor.
Qed.

(** X12.  Every SMTP login and every message of [send_credentials_email] is
    as [credentials_event] says. *)
Theorem send_credentials_email_events (d : gmap string pyval)
  (user_name user_email temp_password login_url : pyval)
  (env env' : Env P) (evs : list event) (r : result unit) :
  send_credentials_email P user_name user_email temp_password login_url (VDict d) env
    = (env', evs, r) ->
  Forall (credentials_event d user_email) evs.
Proof.
  revert env env' evs r.
  change (emits P (credentials_event d user_email)
            (send_credentials_email P user_name user_email temp_password login_url
               (VDict d))).
  unfold send_credentials_email, mbind, M_bind. rewrite !get_dict.
  apply emits_bind; [repeat emits_step|]. intros has_host.
  destruct (negb has_host); [apply emits_emit; exact I|].
  apply emits_bind; [apply emits_lift|]. intros [[use_ssl use_tls] port].
  unfold Py.getitem.
  apply emits_bind; [apply emits_lift|]. intros host.
  apply emits_bind_lift. intros username [= <-].
  apply emits_bind_lift. intros password [= <-].
  apply emits_bind_lift. intros from [= <-].
  apply emits_bind; [unfold make_message; repeat emits_step|]. intros _.
  apply emits_try_except; [|apply emits_on_Exception; intros e; apply emits_emit; exact I].
  apply emits_bind; [destruct use_ssl; apply emits_call; exact I|]. intros _.
  apply emits_bind; [|intros _; apply emits_emit; exact I].
  apply emits_finally; [|apply emits_call; exact I].
  apply emits_bind; [apply emits_call; exact I|]. intros _.
  apply emits_bind; [destruct (use_tls && negb use_ssl); repeat emits_step; exact I|].
  intros _.
  apply emits_bind.
  - destruct (Py.truthy (default VNone (d !! "user"))
              && Py.truthy (default VNone (d !! "password"))) eqn:Hboth.
    + apply andb_true_iff in Hboth. apply emits_call. cbn. tauto.
    + apply emits_ret.
  - intros _. apply emits_call. cbn. tauto.
Qed.


End Credentials2.

Lemma send_credentials_email_events_witness :
  Forall (credentials_event Demo.smtp_map (VStr "bob@example.com"))
    (fst (run Demo.fresh
            (send_credentials_email _ (VStr "bob") (VStr "bob@example.com")
               (VStr "Temp#1") (VStr "https://orgx-reader1.snowflakecomputing.com")
               (VDict Demo.smtp_map)))).
Proof.
  unfold run.
  destruct (send_credentials_email (scripted Demo.fresh) (VStr "bob")
              (VStr "bob@example.com") (VStr "Temp#1")
              (VStr "https://orgx-reader1.snowflakecomputing.com")
              (VDict Demo.smtp_map) []) as [[env' evs] r] eqn:Hrun.
  exact (send_credentials_email_events (scripted Demo.fresh) Demo.smtp_map _ _ _ _
           [] env' evs r Hrun).
Defined.


(** The statements of one turn of a loop of [main]. *)
Ltac loop_body :=
  let Hx := fresh "Hx" in
  intros ? ? ? ? Hx; repeat inv_run;
  repeat first [ progress cbn [statements app] | rewrite statements_app ];
  repeat first
    [ rewrite filter_cons_true
        by first [ apply is_secure_view_sql
                 | apply is_grant_select_sql
                 | apply is_count_sql ]
    | rewrite filter_cons_false by reflexivity ];
  done.

Section MainMore.

Context (P : platform).

Lemma bind_lift_Err {A B} (e : exn) (k : A -> M P B) (env : Env P) :
  bind P (lift P (Err e)) k env = (env, [], Err e).
Proof. reflexivity. Qed.

Lemma bind_lift_Ok {A B} (a : A) (k : A -> M P B) (env : Env P) :
  bind P (lift P (Ok a)) k env = k a env.
Proof. unfold bind, lift. by destruct (k a env) as [[env2 evs2] r]. Qed.

Lemma bind_run_Ok {A B} (m : M P A) (k : A -> M P B) (env env1 : Env P) evs1 a :
  m env = (env1, evs1, Ok a) ->
  bind P m k env = let '(env2, evs2, r) := k a env1 in (env2, (evs1 ++ evs2)%list, r).
Proof. intros H. unfold bind. rewrite H. by destruct (k a env1) as [[env2 evs2] r]. Qed.

(** X14.  A configuration that lacks one of its four sections (an empty
    file, for one) stops the run at once, with the error of the first
    failing read: nothing has been logged, no connection opened, no
    statement sent. *)
Theorem main_missing_section (cfg : pyval) (env env0 : Env P) (e : exn) :
  yaml_safe_load P "config.yaml" env = (env0, Ok cfg) ->
  Py.getitem cfg "provider" = Err e
  \/ (Py.getitem cfg "reader" = Err e /\ exists v, Py.getitem cfg "provider" = Ok v)
  \/ (Py.getitem cfg "share" = Err e
      /\ exists v1 v2, Py.getitem cfg "provider" = Ok v1
                       /\ Py.getitem cfg "reader" = Ok v2)
  \/ (Py.getitem cfg "data" = Err e
      /\ exists v1 v2 v3, Py.getitem cfg "provider" = Ok v1
                          /\ Py.getitem cfg "reader" = Ok v2
                          /\ Py.getitem cfg "share" = Ok v3) ->
  main P env = (env0, [EvLoadYaml "config.yaml"], Err e).
Proof.
  intros Hload Hmiss. unfold main, main_with, mbind, M_bind.
  rewrite (bind_run_Ok _ _ _ _ _ _ (load_config_run P _ _ _ _ Hload)).
  destruct Hmiss as [H|[(H & v1 & H1)|[(H & v1 & v2 & H1 & H2)
                                      |(H & v1 & v2 & v3 & H1 & H2 & H3)]]].
  - rewrite H, bind_lift_Err. reflexivity.
  - rewrite H1, bind_lift_Ok, H, bind_lift_Err. reflexivity.
  - assert (exists d, cfg = VDict d) as [d ->] by (destruct cfg; try discriminate; eauto).
    rewrite H1, bind_lift_Ok, H2, bind_lift_Ok, get_dict, bind_lift_Ok, H,
      bind_lift_Err.
    reflexivity.
  - assert (exists d, cfg = VDict d) as [d ->] by (destruct cfg; try discriminate; eauto).
    rewrite H1, bind_lift_Ok, H2, bind_lift_Ok, get_dict, bind_lift_Ok, H3,
      bind_lift_Ok, H, bind_lift_Err.
    reflexivity.
Qed.


Lemma for_each_count (nv ng nc : nat) {A} (body : A -> M P unit) :
  (forall x env env' evs,
     body x env = (env', evs, Ok tt) ->
     length (List.filter is_secure_view (statements evs)) = nv
     /\ length (List.filter is_grant_select (statements evs)) = ng
     /\ length (List.filter is_count (statements evs)) = nc) ->
  forall l env env' evs,
    for_each P l body env = (env', evs, Ok tt) ->
    length (List.filter is_secure_view (statements evs)) = (nv * length l)%nat
    /\ length (List.filter is_grant_select (statements evs)) = (ng * length l)%nat
    /\ length (List.filter is_count (statements evs)) = (nc * length l)%nat.
Proof.
  intros Hbody l. induction l as [|x l IH]; intros env env' evs H; cbn [for_each] in H.
  - injection H as <- <-. cbn. lia.
  - apply bind_Ok_inv in H. destruct H as (env1 & evs1 & [] & evs2 & Hx & Hl & ->).
    rewrite statements_app, !List.filter_app, !length_app.
    destruct (Hbody _ _ _ _ Hx) as (-> & -> & ->).
    destruct (IH _ _ _ Hl) as (-> & -> & ->). cbn [length]. lia.
Qed.

(** X15.  A run that completes sends one secure-view statement, one grant of
    select and one count query for each configured object, whatever their
    number (the legacy keys standing for a single object). *)
Theorem main_statement_per_object (d : gmap string pyval) (data : pyval)
  (objects : list pyval) (env env0 env' : Env P) (evs : list event) :
  yaml_safe_load P "config.yaml" env = (env0, Ok (VDict d)) ->
  d !! "data" = Some data ->
  configured_objects data = Ok objects ->
  main P env = (env', evs, Ok tt) ->
  length (List.filter is_secure_view (statements evs)) = length objects
  /\ length (List.filter is_grant_select (statements evs)) = length objects
  /\ length (List.filter is_count (statements evs)) = length objects.
Proof.
  intros Hload Hdata Hobjects Hmain.
  unfold main, main_with, mbind, M_bind in Hmain.
  inv_run. rewrite (load_config_run _ _ _ _ _ Hload) in Hm. injection Hm as <- <- <-.
  do 36 inv_run.
  lazymatch goal with
  | H : Py.getitem (VDict d) "data" = Ok ?v |- _ =>
      cbn in H; rewrite Hdata in H; injection H as <-
  end.
  lazymatch goal with
  | H : configured_objects data = Ok ?v |- _ =>
      rewrite Hobjects in H; injection H as <-
  end.
  repeat inv_run.
  lazymatch goal with
  | H : (_, _) = (_, _) |- _ => injection H as <- <-
  end.
  lazymatch goal with
  | H : match ?u with VStr _ => _ | _ => _ end _ = (_, _, Ok _) |- _ =>
      destruct u; try discriminate H; inv_run
  end.
  (* the three loops: each sends one statement of its kind per object *)
  repeat match goal with
         | H : for_each P objects ?body ?e = (_, ?evs, Ok ?u) |- _ =>
             destruct u;
             first [ apply (for_each_count 1 0 0 body) in H; [|solve [loop_body]]
                   | apply (for_each_count 0 1 0 body) in H; [|solve [loop_body]]
                   | apply (for_each_count 0 0 1 body) in H; [|solve [loop_body]] ];
             destruct H as (? & ? & ?)
         end.
  (* the blocks that send none of the three kinds of statement *)
  repeat match goal with
         | H : ?m ?e = (_, ?evs, _) |- _ =>
             is_var evs;
             assert (Forall plain evs)
               by (refine ((_ : emits P plain m) _ _ _ _ H);
                   first [ apply ensure_managed_account_plain
                         | apply ensure_share_has_account_plain
                         | apply ensure_reader_user_plain
                         | repeat first [ apply send_credentials_email_plain
                                        | emits_step ]; try exact I ]);
             clear H
         end.
  repeat match goal with
         | H : Forall plain _ |- _ =>
             apply plain_statements in H; destruct H as (? & ? & ?)
         end.
  lazymatch goal with
  | |- context [statements ?E] => remember E as run_events eqn:Hevents
  end.
  rewrite <- ?app_assoc in Hevents. cbn [app] in Hevents.
  eassert (Hstatements : statements run_events = _).
  { rewrite Hevents.
    repeat first [ progress cbn [statements app] | rewrite statements_app ].
    reflexivity. }
  rewrite Hstatements.
  split; [|split].
  all: repeat match goal with
         | |- context [List.filter ?f (?x :: ?l)] =>
             first [ rewrite (filter_cons_true f x l)
                       by first [ apply is_secure_view_sql
                                | apply is_grant_select_sql
                                | apply is_count_sql ]
                   | rewrite (filter_cons_false f x l) by reflexivity ]
         | |- context [List.filter ?f (statements ?b ++ ?l)] =>
             rewrite (List.filter_app f (statements b) l)
         | H : List.filter ?f (statements ?b) = []
           |- context [List.filter ?f (statements ?b)] => rewrite H
         | |- _ => progress cbn [app List.filter]
         end.
  all: rewrite !length_app; cbn [length]; lia.
Qed.

End MainMore.

Lemma main_statement_per_object_witness :
  let s := Demo.with_config Demo.full_config Demo.fresh in
  let evs := fst (run s (main _)) in
  snd (run s (main _)) = Ok tt
  /\ length (List.filter is_secure_view (statements evs)) = 2%nat
  /\ length (List.filter is_grant_select (statements evs)) = 2%nat
  /\ length (List.filter is_count (statements evs)) = 2%nat.
Proof.
  intros s evs. subst evs. unfold run.
  assert (Hok : snd (main (scripted s) []) = Ok tt) by (vm_compute; reflexivity).
  destruct (main (scripted s) []) as [[env' evs] r] eqn:Hmain.
  cbn [fst snd] in Hok |- *. subst r. split; [reflexivity|].
  exact (main_statement_per_object (scripted s) Demo.full_section
           (VDict Demo.data_section) [Demo.object1; Demo.object2] [] [] env' evs
           eq_refl eq_refl eq_refl Hmain).
Defined.

Lemma main_missing_section_witness :
  let empty_file :=
    {| sc_config := Ok VNone;
       sc_connect := sc_connect Demo.fresh; sc_execute := sc_execute Demo.fresh;
       sc_fetchall := sc_fetchall Demo.fresh; sc_fetchone := sc_fetchone Demo.fresh;
       sc_smtp := sc_smtp Demo.fresh |} in
  run empty_file (main _)
  = ([EvLoadYaml "config.yaml"],
     Err (TypeError "'NoneType' object is not subscriptable")).
Proof.
  intros empty_file. unfold run.
  rewrite (main_missing_section (scripted empty_file) VNone [] []
             (TypeError "'NoneType' object is not subscriptable")
             eq_refl (or_introl eq_refl)).
  reflexivity.
Defined.

Ltac emits_all :=
  repeat emits_step; try (cbn [on_conn]; first [ exact id | discriminate ]).

Section Phases.

Context (P : platform).

Lemma two_phases_first (evs : list event) :
  Forall (fun ev => ~ on_conn Reader ev) evs -> two_phases evs.
Proof.
  intros H. exists evs, []. rewrite app_nil_r. repeat split; [done|constructor|done].
Qed.

Lemma two_phases_bind {A B} (m : M P A) (k : A -> M P B) :
  emits P (fun ev => ~ on_conn Reader ev) m ->
  (forall a env env' evs r, k a env = (env', evs, r) -> two_phases evs) ->
  forall env env' evs r, bind P m k env = (env', evs, r) -> two_phases evs.
Proof.
  intros Hm Hk env env' evs r. unfold bind.
  destruct (m env) as [[env1 evs1] [a|e]] eqn:Em.
  - destruct (k a env1) as [[env2 evs2] r2] eqn:Ek. intros [= <- <- <-].
    destruct (Hk _ _ _ _ _ Ek) as (l1 & l2 & -> & H1 & H2 & Hc).
    exists (evs1 ++ l1)%list, l2. rewrite app_assoc. repeat split; [|done|].
    + apply Forall_app. split; [eapply Hm; eassumption | done].
    + intros Hne. destruct (Hc Hne) as (pre & ->). exists (evs1 ++ pre)%list.
      by rewrite app_assoc.
  - intros [= <- <- <-]. apply two_phases_first. eapply Hm; eassumption.
Qed.

Lemma two_phases_switch {A B} (m : M P A) (cleanup : M P unit) (k : A -> M P B) :
  emits P (fun ev => ~ on_conn Reader ev) (finally P m cleanup) ->
  (forall env, cleanup env = (env, provider_closing, Ok tt)) ->
  (forall a, emits P (fun ev => ~ on_conn Provider ev) (k a)) ->
  forall env env' evs r,
    bind P (finally P m cleanup) k env = (env', evs, r) -> two_phases evs.
Proof.
  intros Hm Hc Hk env env' evs r. unfold bind.
  destruct (finally P m cleanup env) as [[env1 evs1] [a|e]] eqn:Em.
  - destruct (k a env1) as [[env2 evs2] r2] eqn:Ek. intros [= <- <- <-].
    exists evs1, evs2. repeat split.
    + eapply Hm; eassumption.
    + eapply Hk; eassumption.
    + intros _. apply finally_Ok_inv in Em.
      destruct Em as (env3 & l1 & l2 & _ & Ec & ->). rewrite Hc in Ec.
      injection Ec as <- <-. by exists l1.
  - intros [= <- <- <-]. apply two_phases_first. eapply Hm; eassumption.
Qed.

(** X16.  Whatever happens, a run is in two phases: every event on the
    provider connection comes before every event on the reader connection,
    and the reader phase starts only once the provider cursor and connection
    have been closed. *)
Theorem main_two_phases (env env' : Env P) (evs : list event) (r : result unit) :
  main P env = (env', evs, r) -> two_phases evs.
Proof.
  revert env env' evs r. unfold main, main_with, load_config, mbind, M_bind.
  repeat lazymatch goal with
         | |- forall env env' evs r,
                bind P (finally P _ _) _ env = (env', evs, r) -> two_phases evs =>
             fail
         | |- forall env env' evs r, bind P _ _ env = (env', evs, r) -> two_phases evs =>
             apply two_phases_bind; [solve [emits_all] | intros ?]
         end.
  apply two_phases_switch.
  - unfold ensure_managed_account, get_managed_account, ensure_share_has_account,
      fetchone_0, mbind, M_bind.
    emits_all.
  - reflexivity.
  - intros [provider_share_account_id account_url].
    unfold ensure_reader_user, send_credentials_email, make_message, with_server,
      fetchone_0, mbind, M_bind.
    emits_all.
Qed.

End Phases.

Section Precedence.

Context (P : platform) (A : event -> Prop).

Lemma preceded_no_smtp (evs : list event) :
  Forall no_smtp evs -> preceded A is_smtp evs.
Proof.
  intros H pre ev post -> HB. apply Forall_app in H. destruct H as [_ H].
  apply Forall_cons in H. destruct H as [H _]. by destruct ev.
Qed.

Lemma preceded_app (evs1 evs2 : list event) :
  preceded A is_smtp evs1 ->
  Exists A evs1 \/ preceded A is_smtp evs2 ->
  preceded A is_smtp (evs1 ++ evs2).
Proof.
  intros H1 H2 pre ev post Heq HB.
  apply app_eq_app in Heq. destruct Heq as [l [[-> Heq]|[-> ->]]].
  - destruct l as [|x l].
    + cbn in Heq. rewrite app_nil_r in *. destruct H2 as [H2|H2]; [done|].
      subst evs2. specialize (H2 [] ev post eq_refl HB). by apply Exists_nil in H2.
    + injection Heq as -> _. eapply (H1 pre); [|exact HB]. reflexivity.
  - apply Exists_app. destruct H2 as [H2|H2]; [by left|].
    right. eapply (H2 l); [|exact HB]. reflexivity.
Qed.

Lemma preceded_bind {X Y} (m : M P X) (k : X -> M P Y) :
  emits P no_smtp m ->
  (forall env env1 evs1 a,
     m env = (env1, evs1, Ok a) ->
     Exists A evs1
     \/ forall env2 env3 evs2 r,
          k a env2 = (env3, evs2, r) -> preceded A is_smtp evs2) ->
  forall env env' evs r, bind P m k env = (env', evs, r) -> preceded A is_smtp evs.
Proof.
  intros Hm Hk env env' evs r. unfold bind.
  destruct (m env) as [[env1 evs1] [a|e]] eqn:Em.
  - destruct (k a env1) as [[env2 evs2] r2] eqn:Ek. intros [= <- <- <-].
    apply preceded_app.
    + apply preceded_no_smtp. eapply Hm; eassumption.
    + destruct (Hk _ _ _ _ Em) as [H|H]; [by left | right; eapply H; eassumption].
  - intros [= <- <- <-]. apply preceded_no_smtp. eapply Hm; eassumption.
Qed.

Lemma preceded_then {X Y} (m : M P X) (k : X -> M P Y) :
  (forall env env' evs r, m env = (env', evs, r) -> preceded A is_smtp evs) ->
  (forall a, emits P no_smtp (k a)) ->
  forall env env' evs r, bind P m k env = (env', evs, r) -> preceded A is_smtp evs.
Proof.
  intros Hm Hk env env' evs r. unfold bind.
  destruct (m env) as [[env1 evs1] [a|e]] eqn:Em.
  - destruct (k a env1) as [[env2 evs2] r2] eqn:Ek. intros [= <- <- <-].
    apply preceded_app; [eapply Hm; eassumption|].
    right. apply preceded_no_smtp. eapply Hk; eassumption.
  - intros [= <- <- <-]. eapply Hm; eassumption.
Qed.

Lemma preceded_finally {X} (m : M P X) (cleanup : M P unit) :
  (forall env env' evs r, m env = (env', evs, r) -> preceded A is_smtp evs) ->
  emits P no_smtp cleanup ->
  forall env env' evs r,
    finally P m cleanup env = (env', evs, r) -> preceded A is_smtp evs.
Proof.
  intros Hm Hc env env' evs r. unfold finally.
  destruct (m env) as [[env1 evs1] r1] eqn:Em.
  destruct (cleanup env1) as [[env2 evs2] [[]|e]] eqn:Ec; intros [= <- <- <-];
    (apply preceded_app;
     [ eapply Hm; eassumption
     | right; apply preceded_no_smtp; eapply Hc; eassumption ]).
Qed.

Lemma preceded_emits {X} (m : M P X) :
  emits P no_smtp m ->
  forall env env' evs r, m env = (env', evs, r) -> preceded A is_smtp evs.
Proof. intros Hm env env' evs r H. apply preceded_no_smtp. eapply Hm. eassumption. Qed.

End Precedence.

Section EmailAfterCreate.

Context (P : platform).

(** What a call of [ensure_reader_user] that returns has done: it has sent
    the [CREATE USER] statement, or its result says [created] is false. *)
Lemma ensure_reader_user_created (user_cfg default_wh : pyval)
  (env env' : Env P) (evs : list event) (v : pyval) :
  ensure_reader_user P Reader user_cfg default_wh env = (env', evs, Ok v) ->
  Exists (creates_user P) evs
  \/ (Py.truthy v = true /\ Py.get v "created" VNone = Ok (VBool false)).
Proof.
  destruct (Py.truthy user_cfg) eqn:Ht.
  - destruct user_cfg as [| | | | |d]; try discriminate;
      try (unfold ensure_reader_user; rewrite Ht; cbn [negb Py.getitem];
           munfold; discriminate).
    assert (Hd : d <> ∅).
    { intros ->. cbn in Ht. by rewrite bool_decide_eq_true_2 in Ht. }
    rewrite (ensure_reader_user_keys P Reader default_wh d env Hd).
    cbn [Py.getitem].
    destruct (d !! "name") as [name|]; [|discriminate].
    destruct (d !! "email") as [email|]; [|discriminate].
    destruct (d !! "temp_password") as [temp_pw|]; [|discriminate].
    destruct (execute P Reader (show_users_sql P name) env) as [env1 [e|]];
      [discriminate|].
    destruct (fetchall P Reader env1) as [env2 [[|r0 rows]|e]]; [| |discriminate].
    + destruct (execute P Reader _ env2) as [env3 [e|]]; [discriminate|].
      intros [= <- <- <-]. left.
      do 4 apply Exists_cons_tl. apply Exists_cons_hd.
      by exists name, temp_pw, default_wh, email.
    + destruct (execute P Reader _ env2) as [env3 [e|]]; [discriminate|].
      intros [= <- <- <-]. right. split; [|reflexivity].
      cbn. rewrite bool_decide_eq_false_2; [reflexivity | apply insert_non_empty].
  - rewrite (ensure_reader_user_skip P Reader default_wh user_cfg env Ht).
    intros [= <- <- <-]. right. split; reflexivity.
Qed.

Lemma bind_ret {X Y} (a : X) (k : X -> M P Y) (env : Env P) :
  bind P (ret P a) k env = k a env.
Proof. unfold bind, ret. by destruct (k a env) as [[env2 evs2] r]. Qed.

(** X17.  No mail without a new user: in every run, whatever is done on
    [smtplib] comes after a [CREATE USER] statement sent on the reader
    connection in that same run. *)
Theorem main_email_after_create (env env' : Env P) (evs : list event)
  (r : result unit) (pre post : list event) (a : smtp_action) :
  main P env = (env', evs, r) ->
  evs = (pre ++ EvSmtp a :: post)%list ->
  exists name temp_pw default_wh email,
    In (EvExecute Reader (create_user_sql P name temp_pw default_wh email)) pre.
Proof.
  intros Hmain Hevs.
  enough (Hp : preceded (creates_user P) is_smtp evs).
  { specialize (Hp pre (EvSmtp a) post Hevs I). apply List.Exists_exists in Hp.
    destruct Hp as (ev & Hin & name & pw & wh & email & ->).
    by exists name, pw, wh, email. }
  clear Hevs. revert env env' evs r Hmain.
  unfold main, main_with, load_config, mbind, M_bind.
  repeat lazymatch goal with
         | |- forall env env' evs r,
                bind P (ensure_reader_user P _ _ _) _ env = (env', evs, r) -> _ =>
             fail
         | |- forall env env' evs r, bind P ?m _ env = (env', evs, r) -> _ =>
             apply preceded_bind;
             [ unfold ensure_managed_account, get_managed_account,
                 ensure_share_has_account, fetchone_0, mbind, M_bind;
               solve [repeat emits_step; exact I]
             | intros ? ? ? ? _; right ]
         | |- forall env env' evs r, (let '(_, _) := ?p in _) env = (env', evs, r) -> _ =>
             destruct p
         end.
  apply preceded_then; [|intros ?; repeat emits_step; exact I].
  apply preceded_finally; [|repeat emits_step; exact I].
  repeat lazymatch goal with
         | |- forall env env' evs r,
                bind P (ensure_reader_user P _ _ _) _ env = (env', evs, r) -> _ =>
             fail
         | |- forall env env' evs r, bind P ?m _ env = (env', evs, r) -> _ =>
             apply preceded_bind;
             [ solve [repeat emits_step; exact I]
             | intros ? ? ? ? _; right ]
         end.
  apply preceded_bind.
  { unfold ensure_reader_user, mbind, M_bind. repeat emits_step; exact I. }
  intros e0 e1 l1 user_result Huser.
  destruct (ensure_reader_user_created _ _ _ _ _ _ Huser) as [Hcreated|[Ht Hc]];
    [by left | right].
  rewrite Ht, Hc. intros e2 e3 l2 r2.
  rewrite (bind_cong_l P _ (ret P false)) by reflexivity.
  rewrite bind_ret. cbv beta iota.
  revert e2 e3 l2 r2. apply preceded_emits.
  unfold fetchone_0, mbind, M_bind. repeat emits_step; exact I.
Qed.

End EmailAfterCreate.

Lemma main_two_phases_witness :
  snd (run reader_unreachable (main _)) = Err (SystemExit 1)
  /\ two_phases (fst (run reader_unreachable (main _))).
Proof.
  unfold run.
  assert (Hr : snd (main (scripted reader_unreachable) []) = Err (SystemExit 1))
    by (vm_compute; reflexivity).
  destruct (main (scripted reader_unreachable) []) as [[env' evs] r] eqn:Hmain.
  cbn [fst snd] in Hr |- *. split; [exact Hr|].
  exact (main_two_phases (scripted reader_unreachable) [] env' evs r Hmain).
Defined.

Lemma main_email_after_create_witness :
  let s := Demo.with_config Demo.full_config Demo.fresh in
  let evs := fst (run s (main _)) in
  evs = (firstn 57 evs ++ EvSmtp Ehlo :: skipn 58 evs)%list
  /\ exists name temp_pw default_wh email,
       In (EvExecute Reader (create_user_sql (scripted s) name temp_pw default_wh email))
          (firstn 57 evs).
Proof.
  intros s evs. subst evs. unfold run.
  destruct (main (scripted s) []) as [[env' evs] r] eqn:Hmain. cbn [fst].
  assert (Hevs : evs = (firstn 57 evs ++ EvSmtp Ehlo :: skipn 58 evs)%list).
  { pose proof Hmain as Hc. vm_compute in Hc. injection Hc as _ <- _.
    vm_compute. reflexivity. }
  split; [exact Hevs|].
  exact (main_email_after_create (scripted s) [] env' evs r _ _ Ehlo Hmain Hevs).
Defined.

Section Followed.

Context (P : platform) (A B : event -> Prop).

Lemma followed_none (evs : list event) :
  Forall (fun ev => ~ A ev) evs -> followed A B evs.
Proof.
  intros H pre ev post -> HA. apply Forall_app in H. destruct H as [_ H].
  apply Forall_cons in H. by destruct H as [H _].
Qed.

Lemma followed_app_r (evs1 evs2 : list event) :
  Exists B evs2 -> followed A B evs2 -> followed A B (evs1 ++ evs2).
Proof.
  intros HB H2 pre ev post Heq HA.
  apply app_eq_app in Heq. destruct Heq as [l [[-> Heq]|[-> ->]]].
  - destruct l as [|x l].
    + cbn in Heq. subst evs2. eapply (H2 []); [reflexivity | exact HA].
    + injection Heq as -> ->. apply Exists_app. by right.
  - eapply (H2 l); [reflexivity | exact HA].
Qed.

Lemma followed_app (evs1 evs2 : list event) :
  Forall (fun ev => ~ A ev) evs1 -> followed A B evs2 -> followed A B (evs1 ++ evs2).
Proof.
  intros H1 H2 pre ev post Heq HA.
  apply app_eq_app in Heq. destruct Heq as [l [[-> Heq]|[-> ->]]].
  - destruct l as [|x l].
    + cbn in Heq. subst evs2. eapply (H2 []); [reflexivity | exact HA].
    + injection Heq as -> ->. apply Forall_app in H1. destruct H1 as [_ H1].
      apply Forall_cons in H1. by destruct H1 as [H1 _].
  - eapply (H2 l); [reflexivity | exact HA].
Qed.

Lemma followed_bind {X Y} (m : M P X) (k : X -> M P Y) :
  emits P (fun ev => ~ A ev) m ->
  (forall a env env' evs r, k a env = (env', evs, r) -> followed A B evs) ->
  forall env env' evs r, bind P m k env = (env', evs, r) -> followed A B evs.
Proof.
  intros Hm Hk env env' evs r. unfold bind.
  destruct (m env) as [[env1 evs1] [a|e]] eqn:Em.
  - destruct (k a env1) as [[env2 evs2] r2] eqn:Ek. intros [= <- <- <-].
    apply followed_app; [eapply Hm | eapply Hk]; eassumption.
  - intros [= <- <- <-]. apply followed_none. eapply Hm; eassumption.
Qed.

(** The block opened by [ev]: a [try] whose [finally] emits a [B], then the
    rest of the script, in which no [A] occurs. *)
Lemma followed_block {X Y} (ev : event) (m : M P X) (cleanup : M P unit)
  (k : X -> M P Y) :
  (forall env env' evs r, cleanup env = (env', evs, r) -> Exists B evs) ->
  emits P (fun ev => ~ A ev) (bind P (finally P m cleanup) k) ->
  forall env env' evs r,
    bind P (emit P ev) (fun _ => bind P (finally P m cleanup) k) env = (env', evs, r) ->
    followed A B evs.
Proof.
  intros Hc Hk env env' evs r. unfold bind at 1. unfold emit at 1.
  destruct (bind P (finally P m cleanup) k env) as [[env2 evs2] r2] eqn:Ek.
  intros [= <- <- <-]. apply (followed_app_r [ev]).
  - revert Ek. unfold bind, finally.
    destruct (m env) as [[env3 evs3] r3].
    destruct (cleanup env3) as [[env4 evs4] r4] eqn:Ec.
    apply Hc in Ec.
    destruct r4 as [[]|e4]; destruct r3 as [a|e3];
      try destruct (k a env4) as [[env5 evs5] r5];
      intros [= <- <- <-]; rewrite ?Exists_app; auto.
  - apply followed_none. eapply Hk; eassumption.
Qed.

End Followed.

Section Release.

Context (P : platform).

(** X18.  A connection that was opened is released: in every run, however it
    ends, the line that reports connection [c] as open is followed by the
    release of its cursor and by the release of the connection itself. *)
Theorem main_releases_connections (c : conn) (env env' : Env P)
  (evs : list event) (r : result unit) (pre post : list event) :
  main P env = (env', evs, r) ->
  evs = (pre ++ EvPrint (connected_line c) :: post)%list ->
  In (EvCloseCursor c) post /\ In (EvCloseConn c) post.
Proof.
  intros Hmain Hevs.
  enough (Hf : forall b, b = EvCloseCursor c \/ b = EvCloseConn c ->
                         followed (eq (EvPrint (connected_line c))) (eq b) evs).
  { split.
    - specialize (Hf _ (or_introl eq_refl) pre _ post Hevs eq_refl).
      apply List.Exists_exists in Hf. by destruct Hf as (ev & Hin & <-).
    - specialize (Hf _ (or_intror eq_refl) pre _ post Hevs eq_refl).
      apply List.Exists_exists in Hf. by destruct Hf as (ev & Hin & <-). }
  clear Hevs pre post. intros b Hb. revert env env' evs r Hmain.
  unfold main, main_with, load_config, mbind, M_bind.
  destruct c.
  all: repeat first
         [ apply followed_bind;
           [ unfold ensure_managed_account, get_managed_account,
               ensure_share_has_account, fetchone_0, mbind, M_bind;
             solve [repeat emits_step; cbn; discriminate]
           | intros ? ]
         | lazymatch goal with
           | |- forall env env' evs r, (let '(_, _) := ?p in _) env = _ -> _ =>
               destruct p
           end ].
  all: lazymatch goal with
       | |- forall env env' evs r, bind P (log P ?msg) _ env = _ -> _ =>
           apply (followed_block P _ _ (EvPrint ("[provision] " ++ msg)))
       end.
  all: try (intros env env' evs r [= <- <- <-];
            destruct Hb as [-> | ->];
            repeat first [ apply Exists_cons_hd; reflexivity
                         | apply Exists_cons_tl ]).
  all: unfold ensure_managed_account, get_managed_account, ensure_share_has_account,
         ensure_reader_user, send_credentials_email, make_message, with_server,
         fetchone_0, mbind, M_bind.
  all: repeat emits_step; cbn; discriminate.
Qed.

End Release.

Lemma main_releases_connections_witness :
  let evs := fst (run reader_unreachable (main _)) in
  evs = (firstn 3 evs ++ EvPrint (connected_line Provider) :: skipn 4 evs)%list
  /\ In (EvCloseCursor Provider) (skipn 4 evs)
  /\ In (EvCloseConn Provider) (skipn 4 evs).
Proof.
  intros evs. subst evs. unfold run.
  destruct (main (scripted reader_unreachable) []) as [[env' evs] r] eqn:Hmain.
  cbn [fst].
  assert (Hevs : evs = (firstn 3 evs ++ EvPrint (connected_line Provider)
                          :: skipn 4 evs)%list).
  { pose proof Hmain as Hc. vm_compute in Hc. injection Hc as _ <- _.
    vm_compute. reflexivity. }
  split; [exact Hevs|].
  exact (main_releases_connections (scripted reader_unreachable) Provider [] env' evs r
           _ _ Hmain Hevs).
Defined.

Section Raises.

Context (P : platform) (E : exn -> Prop).

Lemma raises_ret {A} (a : A) : raises P E (ret P a).
Proof. intros env env' evs e. discriminate. Qed.

Lemma raises_raise {A} (e : exn) : E e -> raises P E (@raise P A e).
Proof. by intros He env env' evs e' [= <- <- <-]. Qed.

Lemma raises_lift {A} (x : result A) :
  (forall e, x = Err e -> E e) -> raises P E (lift P x).
Proof. intros Hx env env' evs e [= <- <- ->]. by apply Hx. Qed.

Lemma raises_emit (ev : event) : raises P E (emit P ev).
Proof. intros env env' evs e. discriminate. Qed.

Lemma raises_call (ev : event) f :
  (forall env env' e, f env = (env', Some e) -> E e) -> raises P E (call P ev f).
Proof.
  intros Hf env env' evs e. unfold call.
  destruct (f env) as [env1 [e1|]] eqn:Ef; intros [= <- <- <-]. eapply Hf, Ef.
Qed.

Lemma raises_query {A} (ev : result A -> event) f :
  (forall env env' e, f env = (env', Err e) -> E e) -> raises P E (query P ev f).
Proof.
  intros Hf env env' evs e. unfold query.
  destruct (f env) as [env1 r] eqn:Ef. intros [= <- <- ->]. eapply Hf, Ef.
Qed.

Lemma raises_bind {A B} (m : M P A) (k : A -> M P B) :
  raises P E m -> (forall a, raises P E (k a)) -> raises P E (bind P m k).
Proof.
  intros Hm Hk env env' evs e. unfold bind.
  destruct (m env) as [[env1 evs1] [a|e1]] eqn:Em.
  - destruct (k a env1) as [[env2 evs2] r2] eqn:Ek. intros [= <- <- ->].
    eapply Hk, Ek.
  - intros [= <- <- <-]. eapply Hm, Em.
Qed.

Lemma raises_try_except {A} (m : M P A) (h : exn -> option (M P A)) :
  raises P E m -> (forall e m', h e = Some m' -> raises P E m') ->
  raises P E (try_except P m h).
Proof.
  intros Hm Hh env env' evs e. unfold try_except.
  destruct (m env) as [[env1 evs1] [a|e1]] eqn:Em; [discriminate|].
  destruct (h e1) as [m'|] eqn:Eh.
  - destruct (m' env1) as [[env2 evs2] r2] eqn:Eh'. intros [= <- <- ->].
    eapply Hh; eassumption.
  - intros [= <- <- <-]. eapply Hm, Em.
Qed.

Lemma raises_on_Exception {A} (h : exn -> M P A) :
  (forall e, raises P E (h e)) ->
  forall e m', on_Exception P h e = Some m' -> raises P E m'.
Proof.
  intros Hh e m'. unfold on_Exception. destruct (Py.is_Exception e); [|discriminate].
  intros [= <-]. apply Hh.
Qed.

Lemma raises_on_ProgrammingError {A} (h : string -> M P A) :
  (forall msg, raises P E (h msg)) ->
  forall e m', on_ProgrammingError P h e = Some m' -> raises P E m'.
Proof.
  intros Hh e m'. unfold on_ProgrammingError. destruct e; try discriminate.
  intros [= <-]. apply Hh.
Qed.

Lemma raises_finally {A} (m : M P A) (cleanup : M P unit) :
  raises P E m -> raises P E cleanup -> raises P E (finally P m cleanup).
Proof.
  intros Hm Hc env env' evs e. unfold finally.
  destruct (m env) as [[env1 evs1] r1] eqn:Em.
  destruct (cleanup env1) as [[env2 evs2] [[]|e2]] eqn:Ec; intros [= <- <- ->].
  - eapply Hm, Em.
  - eapply Hc, Ec.
Qed.

Lemma raises_for_each {A} (l : list A) (body : A -> M P unit) :
  (forall x, raises P E (body x)) -> raises P E (for_each P l body).
Proof.
  intros Hb. induction l as [|x l IH]; cbn [for_each].
  - apply raises_ret.
  - apply raises_bind; [apply Hb | intros _; exact IH].
Qed.

End Raises.

(** One step through the structure of a computation. *)
Ltac raises_step :=
  lazymatch goal with
  | |- raises _ _ (ret _ _) => apply raises_ret
  | |- raises _ _ (mret _) => apply raises_ret
  | |- raises _ _ (raise _ _) => apply raises_raise
  | |- raises _ _ (sys_exit _ _) => apply raises_raise
  | |- raises _ _ (lift _ _) => apply raises_lift
  | |- raises _ _ (bind _ _ _) => apply raises_bind; [|intros ?]
  | |- raises _ _ (mbind _ _) => apply raises_bind; [|intros ?]
  | |- raises _ _ (try_except _ _ (on_Exception _ _)) =>
      apply raises_try_except; [|apply raises_on_Exception; intros ?]
  | |- raises _ _ (try_except _ _ (on_ProgrammingError _ _)) =>
      apply raises_try_except; [|apply raises_on_ProgrammingError; intros ?]
  | |- raises _ _ (finally _ _ _) => apply raises_finally
  | |- raises _ _ (with_server _ _) => apply raises_finally
  | |- raises _ _ (for_each _ _ _) => apply raises_for_each; intros ?
  | |- raises _ _ (log _ _) => apply raises_emit
  | |- raises _ _ (sleep _ _) => apply raises_emit
  | |- raises _ _ (emit _ _) => apply raises_emit
  | |- raises _ _ (cur_execute _ _ _) => apply raises_call
  | |- raises _ _ (smtp_do _ _) => apply raises_call
  | |- raises _ _ (call _ _ _) => apply raises_call
  | |- raises _ _ (cur_fetchall _ _) => apply raises_query
  | |- raises _ _ (cur_fetchone _ _) => apply raises_query
  | |- raises _ _ (query _ _ _) => apply raises_query
  | |- raises _ _ (match ?x with _ => _ end) => destruct x
  end.

Section ExitStatus.

Context (P : platform).

(** Reading the configuration fails with an [Exception] only. *)
Lemma getitem_Exception v key e : Py.getitem v key = Err e -> Py.is_Exception e = true.
Proof. unfold Py.getitem. repeat case_match; by intros [= <-]. Qed.

Lemma get_Exception v key dflt e :
  Py.get v key dflt = Err e -> Py.is_Exception e = true.
Proof. unfold Py.get. repeat case_match; by intros [= <-]. Qed.

Lemma index_Exception r0 i e : Py.index r0 i = Err e -> Py.is_Exception e = true.
Proof. unfold Py.index. repeat case_match; by intros [= <-]. Qed.

Lemma normalize_where_Exception v e :
  normalize_where v = Err e -> Py.is_Exception e = true.
Proof. unfold normalize_where. repeat case_match; by intros [= <-]. Qed.

Lemma configured_objects_Exception v e :
  configured_objects v = Err e -> Py.is_Exception e = true.
Proof.
  unfold configured_objects. intros H.
  repeat match type of H with
         | match ?x with _ => _ end = _ => destruct x eqn:?
         end;
    try discriminate; injection H as <-;
    eauto using getitem_Exception, get_Exception.
Qed.

Lemma smtp_settings_Exception v e :
  smtp_settings v = Err e -> Py.is_Exception e = true.
Proof.
  unfold smtp_settings, Py.get, Py.getitem. intros H.
  repeat case_match; simplify_eq; reflexivity.
Qed.

(** X19.  The exit status: on a platform that raises [Exception]s only, a
    run that does not complete ends in [sys.exit(1)] or in an [Exception]
    the script does not handle; it never exits with another status. *)
Theorem main_exit_status (env env' : Env P) (evs : list event) (e : exn) :
  raises_exceptions P ->
  main P env = (env', evs, Err e) ->
  e = SystemExit 1 \/ Py.is_Exception e = true.
Proof.
  intros (Hyaml & Hconnect & Hexecute & Hfetchall & Hfetchone & Hsmtp).
  revert env env' evs e.
  change (raises P exit_1_or_Exception (main P)).
  unfold main, main_with, load_config, ensure_managed_account, get_managed_account,
    ensure_share_has_account, ensure_reader_user, send_credentials_email,
    make_message, with_server, fetchone_0, mbind, M_bind.
  repeat raises_step.
  all: try (by left).
  all: try (by right).
  all: try (intros; right;
            eauto using getitem_Exception, get_Exception, index_Exception,
              normalize_where_Exception, configured_objects_Exception,
              smtp_settings_Exception; fail).
Qed.

End ExitStatus.

Lemma main_exit_status_witness :
  raises_exceptions (scripted reader_unreachable)
  /\ exists e,
       snd (run reader_unreachable (main _)) = Err e
       /\ (e = SystemExit 1 \/ Py.is_Exception e = true).
Proof.
  assert (Hplatform : raises_exceptions (scripted reader_unreachable)).
  { repeat split; intros; simplify_eq/=; try done.
    all: repeat case_match; simplify_eq; done. }
  split; [exact Hplatform|].
  unfold run.
  assert (Hr : exists e, snd (main (scripted reader_unreachable) []) = Err e)
    by (eexists; vm_compute; reflexivity).
  destruct Hr as [e Hr].
  destruct (main (scripted reader_unreachable) []) as [[env' evs] r] eqn:Hmain.
  cbn [snd] in Hr |- *. subst r. exists e. split; [reflexivity|].
  exact (main_exit_status (scripted reader_unreachable) [] env' evs e Hplatform Hmain).
Defined.
